(** * Front-end widgets of the portfolio site: a shallow embedding

    The development follows the JavaScript sources:

    - [assets/js/blog.js]: the blog loader ([utils], [api], [ui],
      [BlogLoader]) and the Google Scholar statistics widget
      ([ScholarStatsWidget]);
    - the chat widget ([ChatWidget]);
    - [assets/js/app.js]: the application controller ([VikasYadavApp]) and
      the OCR tool ([OCRTool]);
    - [assets/js/analytics.js]: the analytics tracker ([Analytics]).

    Modelling conventions.

    - A JavaScript string is a [string]: a sequence of code units below 256
      (the Latin-1 range).  [trim] and [toLowerCase] are the platform
      functions restricted to that range.
    - JavaScript numbers are integers ([Z]); [NaN] is [None] in an
      [option Z].  Timestamps, sizes, indices and counters are integral.
    - JSON payloads that the code inspects dynamically (truthiness,
      [typeof], [Array.isArray], optional chaining) are [value]s.  Payload
      fields that the code uses at one type only are given that type: the
      fields of a post are strings, possibly absent.
    - [null] and [undefined] returned by the DOM or by a property that is
      absent are [None].
    - Code runs in the monad [M]: it threads the widget's own state and
      the browser (clock, [localStorage], a trace of the storage accesses,
      network requests and timer waits), and it can throw.  The state
      reached before a [throw] is kept, as in JavaScript.
    - [await] is sequential composition.  The answer of the network to a
      [fetch] is an argument of the function that performs it.
    - [localStorage.setItem] always succeeds (no quota).
    - Effects that only change the presentation (focus, scrolling,
      animation) are left out, and so are the callbacks of timers; the
      places are marked where the code is embedded. *)

From Stdlib Require Import ZArith Lia List Ascii String Bool.
From stdpp Require Import base option list gmap strings pretty.

Set Warnings "-register-all".
Open Scope string_scope.
Open Scope list_scope.
Open Scope Z_scope.

(** ** JavaScript strings *)

Module JsString.

(** White space of [String.prototype.trim] among the code units below 256:
    TAB, LF, VT, FF, CR, SPACE and NBSP. *)
Definition is_space (c : ascii) : bool :=
  let n := nat_of_ascii c in
  ((9 <=? n)%nat && (n <=? 13)%nat) || (n =? 32)%nat || (n =? 160)%nat.

Fixpoint trimStart (s : string) : string :=
  match s with
  | String c s' => if is_space c then trimStart s' else s
  | EmptyString => EmptyString
  end.

(** [trimEnd] keeps a character when it is not a space or when something
    that is not a space follows it. *)
Fixpoint trimEnd (s : string) : string :=
  match s with
  | String c s' =>
      match trimEnd s' with
      | EmptyString => if is_space c then EmptyString else String c EmptyString
      | t => String c t
      end
  | EmptyString => EmptyString
  end.

Definition trim (s : string) : string := trimEnd (trimStart s).

(** [toLowerCase] on one code unit below 256: A-Z, and the Latin-1 capitals
    U+00C0..U+00DE except the multiplication sign U+00D7. *)
Definition lower_char (c : ascii) : ascii :=
  let n := nat_of_ascii c in
  if ((65 <=? n)%nat && (n <=? 90)%nat)
     || ((192 <=? n)%nat && (n <=? 222)%nat && negb (n =? 215)%nat)
  then ascii_of_nat (n + 32) else c.

Fixpoint toLowerCase (s : string) : string :=
  match s with
  | String c s' => String (lower_char c) (toLowerCase s')
  | EmptyString => EmptyString
  end.

Definition startsWith (s p : string) : bool := String.prefix p s.

(** [s.includes(p)] *)
Fixpoint includes (s p : string) : bool :=
  String.prefix p s ||
  match s with
  | String _ s' => includes s' p
  | EmptyString => false
  end.

(** [s.substring(0, n)] *)
Definition take (n : nat) (s : string) : string := String.substring 0 n s.

(** A string is falsy exactly when it is empty. *)
Definition nonempty (s : string) : bool :=
  match s with EmptyString => false | _ => true end.

(** Truthiness of a property that holds a string or is absent. *)
Definition truthy_str (o : option string) : bool :=
  match o with Some s => nonempty s | None => false end.

End JsString.

(** ** JSON values *)

Inductive value : Type :=
| VUndef
| VNull
| VBool (b : bool)
| VNum (n : Z)
| VStr (s : string)
| VArr (l : list value)
| VObj (fields : list (string * value)).

Module Js.

(** [ToBoolean] *)
Definition truthy (v : value) : bool :=
  match v with
  | VUndef | VNull => false
  | VBool b => b
  | VNum n => negb (n =? 0)
  | VStr s => JsString.nonempty s
  | VArr _ | VObj _ => true
  end.

Definition isArray (v : value) : bool :=
  match v with VArr _ => true | _ => false end.

Definition nullish (v : value) : bool :=
  match v with VUndef | VNull => true | _ => false end.

Fixpoint assoc {A} (k : string) (l : list (string * A)) : option A :=
  match l with
  | [] => None
  | (k', a) :: l' => if String.eqb k k' then Some a else assoc k l'
  end.

(** Thrown values. *)
Inductive JsError : Type :=
| Error (message : string)
| TypeError (message : string)
| SyntaxError (message : string)
| NetworkError (message : string).

Inductive Res (A : Type) : Type :=
| Ret (a : A)
| Throw (e : JsError).
Arguments Ret {A} a.
Arguments Throw {A} e.

(** [v.k] for one of the property names the widgets read ([response],
    [output], [metrics], [All], [timestamp]): an own property of a plain
    object; [undefined] on arrays and primitives, which have no property of
    these names; a [TypeError] on [null] and [undefined]. *)
Definition prop (v : value) (k : string) : Res value :=
  match v with
  | VUndef | VNull => Throw (TypeError ("Cannot read properties of null or undefined: " +:+ k))
  | VObj fields => Ret (default VUndef (assoc k fields))
  | _ => Ret VUndef
  end.

(** [v?.k] *)
Definition optprop (v : value) (k : string) : value :=
  match v with
  | VObj fields => default VUndef (assoc k fields)
  | _ => VUndef
  end.

(** [a[0]] on an array *)
Definition first (l : list value) : value := default VUndef (head l).

End Js.
Export Js.

(** ** The platform

    Built-in functions of the browser that the widgets call and whose
    result the properties below do not depend on. *)

Class Platform : Type := {
  (* [JSON.parse]; [None] when it throws a [SyntaxError] *)
  JSON_parse : string -> option value;
  (* the empty string is not a JSON text *)
  JSON_parse_empty : JSON_parse "" = None;
  JSON_stringify : value -> string;
  (* [new Date(t).toISOString()] *)
  toISOString : Z -> string;
  (* [ToNumber] on strings, arrays and objects; [None] is [NaN] *)
  ToNumber_other : value -> option Z;
  (* [Math.random().toString(36).substr(2, 9)] for the n-th draw *)
  random_suffix : nat -> string
}.

(** [ToNumber] *)
Definition ToNumber `{Platform} (v : value) : option Z :=
  match v with
  | VUndef => None
  | VNull => Some 0
  | VBool b => Some (if b then 1 else 0)
  | VNum n => Some n
  | _ => ToNumber_other v
  end.

(** ** A reference platform

    An executable instance of [Platform], used to run the widgets on
    concrete inputs.  Its JSON codec covers integer numerals only: a
    numeral with a fraction or an exponent is rejected. *)

Module RefPlatform.

Definition dquote : ascii := ascii_of_nat 34.
Definition backslash : ascii := ascii_of_nat 92.

Definition is_json_ws (c : ascii) : bool :=
  let n := nat_of_ascii c in
  (n =? 32)%nat || (n =? 9)%nat || (n =? 10)%nat || (n =? 13)%nat.

Fixpoint skip_ws (s : list ascii) : list ascii :=
  match s with
  | c :: r => if is_json_ws c then skip_ws r else s
  | [] => []
  end.

Definition digit_of (c : ascii) : option Z :=
  let n := nat_of_ascii c in
  if (48 <=? n)%nat && (n <=? 57)%nat then Some (Z.of_nat n - 48) else None.

(** The longest prefix of decimal digits, read in base 10. *)
Fixpoint read_digits (acc : Z) (s : list ascii) : Z * list ascii :=
  match s with
  | c :: r =>
      match digit_of c with
      | Some d => read_digits (10 * acc + d) r
      | None => (acc, s)
      end
  | [] => (acc, [])
  end.

Definition starts_number_tail (s : list ascii) : bool :=
  match s with
  | c :: _ =>
      let n := nat_of_ascii c in
      (n =? 46)%nat || (n =? 101)%nat || (n =? 69)%nat
  | [] => false
  end.

(** An optional minus sign, then 0 or a numeral without leading zero. *)
Definition read_int (s : list ascii) : option (Z * list ascii) :=
  let '(neg, s1) :=
    match s with
    | c :: r => if (nat_of_ascii c =? 45)%nat then (true, r) else (false, s)
    | [] => (false, s)
    end in
  match s1 with
  | c :: r =>
      match digit_of c with
      | Some 0 =>
          match r with
          | d :: _ => if digit_of d is Some _ then None else
                      if starts_number_tail r then None else Some (0, r)
          | [] => Some (0, r)
          end
      | Some _ =>
          let '(n, rest) := read_digits 0 s1 in
          if starts_number_tail rest then None
          else Some (if neg then - n else n, rest)
      | None => None
      end
  | [] => None
  end.

(** The characters of a string literal after its opening quote. *)
Fixpoint read_string (fuel : nat) (s : list ascii) : option (string * list ascii) :=
  match fuel with
  | O => None
  | Datatypes.S fuel' =>
      match s with
      | [] => None
      | c :: r =>
          let n := nat_of_ascii c in
          if (n =? 34)%nat then Some (EmptyString, r)
          else if (n <? 32)%nat then None
          else if (n =? 92)%nat then
            match r with
            | e :: r' =>
                let m := nat_of_ascii e in
                let unescaped :=
                  if (m =? 34)%nat then Some dquote
                  else if (m =? 92)%nat then Some backslash
                  else if (m =? 47)%nat then Some (ascii_of_nat 47)
                  else if (m =? 98)%nat then Some (ascii_of_nat 8)
                  else if (m =? 102)%nat then Some (ascii_of_nat 12)
                  else if (m =? 110)%nat then Some (ascii_of_nat 10)
                  else if (m =? 114)%nat then Some (ascii_of_nat 13)
                  else if (m =? 116)%nat then Some (ascii_of_nat 9)
                  else None in
                match unescaped with
                | Some u =>
                    match read_string fuel' r' with
                    | Some (t, rest) => Some (String u t, rest)
                    | None => None
                    end
                | None => None
                end
            | [] => None
            end
          else
            match read_string fuel' r with
            | Some (t, rest) => Some (String c t, rest)
            | None => None
            end
      end
  end.

(** An assignment to a property: a later duplicate replaces the value and
    keeps the position. *)
Fixpoint set_field (k : string) (v : value) (fs : list (string * value)) :=
  match fs with
  | [] => [(k, v)]
  | (k', v') :: fs' =>
      if String.eqb k k' then (k, v) :: fs' else (k', v') :: set_field k v fs'
  end.

Definition literal (lit : string) (s : list ascii) : option (list ascii) :=
  let l := list_ascii_of_string lit in
  if decide (take (length l) s = l) then Some (drop (length l) s) else None.

Section Composite.
Variable parse_value : list ascii -> option (value * list ascii).

(** Elements after [[], at least one. *)
Fixpoint read_elements (fuel : nat) (s : list ascii) : option (list value * list ascii) :=
  match fuel with
  | O => None
  | Datatypes.S fuel' =>
      match parse_value s with
      | Some (v, r) =>
          match skip_ws r with
          | c :: r' =>
              if (nat_of_ascii c =? 44)%nat then
                match read_elements fuel' r' with
                | Some (vs, rest) => Some (v :: vs, rest)
                | None => None
                end
              else if (nat_of_ascii c =? 93)%nat then Some ([v], r')
              else None
          | [] => None
          end
      | None => None
      end
  end.

(** Members after [{], at least one. *)
Fixpoint read_members (fuel : nat) (acc : list (string * value)) (s : list ascii)
  : option (list (string * value) * list ascii) :=
  match fuel with
  | O => None
  | Datatypes.S fuel' =>
      match skip_ws s with
      | q :: r =>
          if negb (nat_of_ascii q =? 34)%nat then None else
          match read_string (Datatypes.S (length r)) r with
          | Some (k, r1) =>
              match skip_ws r1 with
              | colon :: r2 =>
                  if negb (nat_of_ascii colon =? 58)%nat then None else
                  match parse_value r2 with
                  | Some (v, r3) =>
                      let acc' := set_field k v acc in
                      match skip_ws r3 with
                      | c :: r4 =>
                          if (nat_of_ascii c =? 44)%nat then read_members fuel' acc' r4
                          else if (nat_of_ascii c =? 125)%nat then Some (acc', r4)
                          else None
                      | [] => None
                      end
                  | None => None
                  end
              | [] => None
              end
          | None => None
          end
      | [] => None
      end
  end.
End Composite.

Fixpoint parse_value (fuel : nat) (s : list ascii) : option (value * list ascii) :=
  match fuel with
  | O => None
  | Datatypes.S fuel' =>
      match skip_ws s with
      | [] => None
      | c :: r =>
          let n := nat_of_ascii c in
          if (n =? 123)%nat then
            match skip_ws r with
            | d :: r' =>
                if (nat_of_ascii d =? 125)%nat then Some (VObj [], r')
                else
                  match read_members (parse_value fuel') (length r) [] r with
                  | Some (fs, rest) => Some (VObj fs, rest)
                  | None => None
                  end
            | [] => None
            end
          else if (n =? 91)%nat then
            match skip_ws r with
            | d :: r' =>
                if (nat_of_ascii d =? 93)%nat then Some (VArr [], r')
                else
                  match read_elements (parse_value fuel') (length r) r with
                  | Some (vs, rest) => Some (VArr vs, rest)
                  | None => None
                  end
            | [] => None
            end
          else if (n =? 34)%nat then
            match read_string (Datatypes.S (length r)) r with
            | Some (t, rest) => Some (VStr t, rest)
            | None => None
            end
          else
            match literal "true" (c :: r), literal "false" (c :: r), literal "null" (c :: r) with
            | Some rest, _, _ => Some (VBool true, rest)
            | _, Some rest, _ => Some (VBool false, rest)
            | _, _, Some rest => Some (VNull, rest)
            | _, _, _ =>
                match read_int (c :: r) with
                | Some (z, rest) => Some (VNum z, rest)
                | None => None
                end
            end
      end
  end.

(** [JSON.parse] *)
Definition parse (s : string) : option value :=
  let l := list_ascii_of_string s in
  match parse_value (Datatypes.S (length l)) l with
  | Some (v, rest) =>
      match skip_ws rest with
      | [] => Some v
      | _ => None
      end
  | None => None
  end.

Definition hex_digit (n : nat) : ascii :=
  if (n <? 10)%nat then ascii_of_nat (48 + n) else ascii_of_nat (87 + n).

Fixpoint escape (s : string) : string :=
  match s with
  | EmptyString => EmptyString
  | String c t =>
      let n := nat_of_ascii c in
      let rest := escape t in
      if (n =? 34)%nat then String backslash (String dquote rest)
      else if (n =? 92)%nat then String backslash (String backslash rest)
      else if (n =? 8)%nat then String backslash (String "b" rest)
      else if (n =? 12)%nat then String backslash (String "f" rest)
      else if (n =? 10)%nat then String backslash (String "n" rest)
      else if (n =? 13)%nat then String backslash (String "r" rest)
      else if (n =? 9)%nat then String backslash (String "t" rest)
      else if (n <? 32)%nat then
        String backslash ("u00" +:+ String (hex_digit (n / 16)) (String (hex_digit (n mod 16)) rest))
      else String c rest
  end.

Definition quote (s : string) : string :=
  String dquote (escape s +:+ String dquote EmptyString).

Definition is_undef (v : value) : bool :=
  match v with VUndef => true | _ => false end.

(** [JSON.stringify]: a property whose value is [undefined] is left out,
    and [undefined] in an array is written [null]. *)
Fixpoint stringify (v : value) : string :=
  match v with
  | VUndef | VNull => "null"
  | VBool true => "true"
  | VBool false => "false"
  | VNum n => pretty n
  | VStr s => quote s
  | VArr l => "[" +:+ String.concat "," (map stringify l) +:+ "]"
  | VObj fs =>
      let fix members (fs : list (string * value)) : list string :=
        match fs with
        | [] => []
        | (k, x) :: fs' =>
            if is_undef x then members fs'
            else (quote k +:+ ":" +:+ stringify x) :: members fs'
        end in
      "{" +:+ String.concat "," (members fs) +:+ "}"
  end.

(** [String(v)] *)
Fixpoint to_string (v : value) : string :=
  match v with
  | VUndef => "undefined"
  | VNull => "null"
  | VBool true => "true"
  | VBool false => "false"
  | VNum n => pretty n
  | VStr s => s
  | VArr l =>
      String.concat ","
        (map (fun x => match x with VUndef | VNull => "" | _ => to_string x end) l)
  | VObj _ => "[object Object]"
  end.

(** [Number(s)] on decimal integer numerals; the empty string is 0. *)
Definition string_to_number (s : string) : option Z :=
  match list_ascii_of_string (JsString.trim s) with
  | [] => Some 0
  | c :: r =>
      let '(neg, ds) :=
        if (nat_of_ascii c =? 45)%nat then (true, r)
        else if (nat_of_ascii c =? 43)%nat then (false, r)
        else (false, c :: r) in
      match ds, read_digits 0 ds with
      | _ :: _, (n, []) => Some (if neg then - n else n)
      | _, _ => None
      end
  end.

Definition pad (width : nat) (n : Z) : string :=
  let s := pretty n in
  String.concat "" (replicate (width - String.length s) "0") +:+ s.

(** The proleptic Gregorian date of a day count since 1970-01-01. *)
Definition civil_from_days (days : Z) : Z * Z * Z :=
  let z := days + 719468 in
  let era := z / 146097 in
  let doe := z - era * 146097 in
  let yoe := (doe - doe / 1460 + doe / 36524 - doe / 146096) / 365 in
  let doy := doe - (365 * yoe + yoe / 4 - yoe / 100) in
  let mp := (5 * doy + 2) / 153 in
  let d := doy - (153 * mp + 2) / 5 + 1 in
  let m := if mp <? 10 then mp + 3 else mp - 9 in
  let y := yoe + era * 400 + (if m <=? 2 then 1 else 0) in
  (y, m, d).

(** [toISOString] for the years 0000 to 9999 *)
Definition iso (ms : Z) : string :=
  let days := ms / 86400000 in
  let rest := ms mod 86400000 in
  let '(y, m, d) := civil_from_days days in
  pad 4 y +:+ "-" +:+ pad 2 m +:+ "-" +:+ pad 2 d +:+ "T" +:+
  pad 2 (rest / 3600000) +:+ ":" +:+ pad 2 (rest / 60000 mod 60) +:+ ":" +:+
  pad 2 (rest / 1000 mod 60) +:+ "." +:+ pad 3 (rest mod 1000) +:+ "Z".

Definition platform : Platform :=
  {| JSON_parse := parse;
     JSON_parse_empty := eq_refl;
     JSON_stringify := stringify;
     toISOString := iso;
     ToNumber_other := fun v => string_to_number (to_string v);
     random_suffix := fun n => "k3v9x" +:+ pad 4 (Z.of_nat n) |}.

End RefPlatform.

(** ** The browser and the monad of widget code *)

Inductive ReqBody : Type :=
| NoBody
| JsonBody (v : value)     (** [JSON.stringify(v)] *)
| FormBody.                (** multipart form data *)

Record Request : Type := mkRequest {
  req_url : string;
  req_method : string;
  req_headers : list (string * string);
  req_body : ReqBody
}.

Definition json_headers : list (string * string) :=
  [("Content-Type", "application/json")].

Inductive Event : Type :=
| EvGetItem (key : string)
| EvSetItem (key val : string)
| EvRemoveItem (key : string)
| EvFetch (r : Request)
| EvSleep (ms : Z).

Record Browser : Type := mkBrowser {
  now : Z;                          (** [Date.now()] *)
  storage : gmap string string;     (** [localStorage] *)
  trace : list Event
}.

(** What the network answers to one [fetch]. *)
Record Response (B : Type) : Type := mkResponse {
  ok : bool;
  status : Z;
  statusText : string;
  json : option B            (** [None]: [response.json()] rejects *)
}.
Arguments mkResponse {B}.
Arguments ok {B}.
Arguments status {B}.
Arguments statusText {B}.
Arguments json {B}.

Record Outcome (B : Type) : Type := mkOutcome {
  latency : Z;                               (** time the request takes *)
  answer : JsError + Response B              (** rejection or response *)
}.
Arguments mkOutcome {B}.
Arguments latency {B}.
Arguments answer {B}.

Definition M (S A : Type) : Type := S -> Browser -> Res A * S * Browser.

Section Monad.
Context {S : Type}.

Definition ret {A} (a : A) : M S A := fun s w => (Ret a, s, w).
Definition throw {A} (e : JsError) : M S A := fun s w => (Throw e, s, w).

Definition bind {A B} (m : M S A) (k : A -> M S B) : M S B :=
    fun s w =>
      match m s w with
      | (Ret a, s', w') => k a s' w'
      | (Throw e, s', w') => (Throw e, s', w')
      end.

(** [try { m } catch (e) { h e }] *)
Definition try_catch {A} (m : M S A) (h : JsError -> M S A) : M S A :=
    fun s w =>
      match m s w with
      | (Ret a, s', w') => (Ret a, s', w')
      | (Throw e, s', w') => h e s' w'
      end.

(** [try { m } finally { f }], for an [f] that only has effects *)
Definition finally {A} (m : M S A) (f : M S unit) : M S A :=
    fun s w =>
      match m s w with
      | (r, s', w') =>
          match f s' w' with
          | (Ret _, s'', w'') => (r, s'', w'')
          | (Throw e, s'', w'') => (Throw e, s'', w'')
          end
      end.

Definition lift {A} (r : Res A) : M S A := fun s w => (r, s, w).

Definition get_self : M S S := fun s w => (Ret s, s, w).
Definition put_self (s : S) : M S unit := fun _ w => (Ret tt, s, w).
Definition modify_self (f : S -> S) : M S unit := fun s w => (Ret tt, f s, w).

Definition emit (e : Event) (w : Browser) : Browser :=
    mkBrowser (now w) (storage w) (trace w ++ [e]).

(** [Date.now()] *)
Definition Date_now : M S Z := fun s w => (Ret (now w), s, w).

(** [localStorage.getItem(k)] *)
Definition getItem (k : string) : M S (option string) :=
    fun s w => (Ret (storage w !! k), s, emit (EvGetItem k) w).

(** [localStorage.setItem(k, v)] *)
Definition setItem (k v : string) : M S unit :=
    fun s w =>
      (Ret tt, s, mkBrowser (now w) (<[k := v]> (storage w)) (trace w ++ [EvSetItem k v])).

(** [localStorage.removeItem(k)] *)
Definition removeItem (k : string) : M S unit :=
    fun s w =>
      (Ret tt, s, mkBrowser (now w) (delete k (storage w)) (trace w ++ [EvRemoveItem k])).

(** [await new Promise(resolve => setTimeout(resolve, ms))] *)
Definition sleep (ms : Z) : M S unit :=
    fun s w => (Ret tt, s, mkBrowser (now w + ms) (storage w) (trace w ++ [EvSleep ms])).

(** [await fetch(...)]: the request is recorded, the clock advances by
      the latency of the answer, and a rejection is thrown. *)
Definition fetch {B} (r : Request) (o : Outcome B) : M S (Response B) :=
    fun s w =>
      let w' := mkBrowser (now w + latency o) (storage w) (trace w ++ [EvFetch r]) in
      match answer o with
      | inl e => (Throw e, s, w')
      | inr resp => (Ret resp, s, w')
      end.

(** [await response.json()] *)
Definition json_of {B} (resp : Response B) : M S B :=
    match json resp with
    | Some b => ret b
    | None => throw (SyntaxError "Unexpected token in JSON")
    end.

End Monad.

Declare Scope js_scope.
Delimit Scope js_scope with js.
Notation "'let!' x ':=' m 'in' k" := (bind m (fun x => k))
  (at level 10, x name, m at level 100, k at level 200) : js_scope.
Notation "m1 '>>' m2" := (bind m1 (fun _ => m2))
  (at level 100, m2 at level 200, right associativity) : js_scope.
Open Scope js_scope.

(** ** The Google Scholar statistics widget ([blog.js], second part) *)

Module ScholarStatsWidget.

Record t : Type := mk {
  apiUrl : string;
  cacheKey : string;
  cacheDuration : Z;
  containerId : string;
  retryAttempts : Z;
  retryDelay : Z
}.

(** [s || d] for an option of the constructor *)
Definition or_default (o : option string) (d : string) : string :=
  if JsString.truthy_str o then default d o else d.

(** [new ScholarStatsWidget(options)] *)
Definition new (options_apiUrl options_containerId : option string) : t :=
  {| apiUrl := or_default options_apiUrl
                 "https://vikasyadav-api.vikas4770.workers.dev/api/chat/message";
     cacheKey := "scholar_stats_cache";
     cacheDuration := 3 * 24 * 60 * 60 * 1000;
     containerId := or_default options_containerId "scholar-stats-widget";
     retryAttempts := 3;
     retryDelay := 1000 |}.

Section Methods.
Context `{Platform}.
Variable this : t.

(** The widget keeps no mutable field: its own state is [unit]. *)
Local Abbreviation W := (M unit).

(** [JSON.parse(s)] as a statement that can throw *)
Definition parse (s : string) : W value :=
    match JSON_parse s with
    | Some v => ret v
    | None => throw (SyntaxError "JSON.parse")
    end.

(** [age < this.cacheDuration], false when the age is [NaN] *)
Definition is_fresh (t_now : Z) (timestamp : value) : bool :=
    match ToNumber timestamp with
    | Some ts => t_now - ts <? cacheDuration this
    | None => false
    end.

(** [getCachedData(ignoreExpiry)]; [null] is [VNull] *)
Definition getCachedData (ignoreExpiry : bool) : W value :=
    try_catch
      (let! cached := getItem (cacheKey this) in
       if negb (JsString.truthy_str cached) then ret VNull else
       let! data := parse (default "" cached) in
       if ignoreExpiry then lift (prop data "metrics") else
       let! t_now := Date_now in
       let! timestamp := lift (prop data "timestamp") in
       if is_fresh t_now timestamp then lift (prop data "metrics")
       else ret VNull)
      (fun _ => ret VNull).

(** The object that [cacheData] serializes. *)
Definition cache_entry (metrics : value) (t_now : Z) : value :=
    VObj [("metrics", metrics); ("timestamp", VNum t_now);
          ("cached_at", VStr (toISOString t_now))].

(** [cacheData(metrics)] *)
Definition cacheData (metrics : value) : W unit :=
    try_catch
      (let! t_now := Date_now in
       setItem (cacheKey this) (JSON_stringify (cache_entry metrics t_now)))
      (fun _ => ret tt).

(** The request of one attempt, built at time [t_now]. *)
Definition stats_request (t_now : Z) : Request :=
    mkRequest (apiUrl this) "POST" json_headers
      (JsonBody (VObj
         [("message", VStr "/scholar");
          ("sessionId", VStr ("scholar_" +:+ pretty t_now));
          ("context", VObj [("page", VStr "homepage-scholar-widget");
                            ("action", VStr "fetch-stats");
                            ("timestamp", VStr (toISOString t_now))])])).

(** [parsed[0]?.output?.metrics] for an array, else [parsed.output?.metrics];
      the result is [undefined] when neither is truthy.  [parsed.output] throws
      on [null]. *)
Definition metrics_of_parsed (parsed : value) : Res value :=
    let from_array :=
      match parsed with
      | VArr l => optprop (optprop (first l) "output") "metrics"
      | _ => VUndef
      end in
    if isArray parsed && truthy from_array then Ret from_array else
    match prop parsed "output" with
    | Ret output =>
        let m := optprop output "metrics" in
        Ret (if truthy m then m else VUndef)
    | Throw e => Throw e
    end.

(** The chain of [if]s on [data.response]: the value of [metrics] after
      it. *)
Definition metrics_of_response (response : value) : value :=
    if negb (truthy response) then VUndef else
    match response with
    | VStr s =>
        (* try { JSON.parse ... } catch (e) { } *)
        match JSON_parse s with
        | Some parsed =>
            match metrics_of_parsed parsed with
            | Ret m => m
            | Throw _ => VUndef
            end
        | None => VUndef
        end
    | _ =>
        let direct := optprop (optprop response "output") "metrics" in
        if truthy direct then direct else
        match response with
        | VArr l =>
            let m := optprop (optprop (first l) "output") "metrics" in
            if truthy m then m else VUndef
        | _ => VUndef
        end
    end.

(** From the parsed body to the metrics, or the error thrown. *)
Definition extract_metrics (data : value) : Res value :=
    match prop data "response" with
    | Throw e => Throw e
    | Ret response =>
        let metrics := metrics_of_response response in
        if negb (truthy metrics) then Throw (Error "Invalid metrics format in response") else
        match prop metrics "All" with
        | Throw e => Throw e
        | Ret all =>
            if negb (truthy all) then Throw (Error "Invalid metrics format in response")
            else Ret metrics
        end
    end.

(** The body of the [try] block of one attempt. *)
Definition attempt (o : Outcome value) : W value :=
    let! t_now := Date_now in
    let! response := fetch (stats_request t_now) o in
    if negb (ok response) then
      throw (Error ("HTTP " +:+ pretty (status response) +:+ ": " +:+ statusText response))
    else
    let! data := json_of response in
    let! metrics := lift (extract_metrics data) in
    cacheData metrics >>
    ret metrics.

(** The [for] loop of [fetchStats], entered at [attempt = n] with [fuel]
      iterations left.  The loop body always returns or throws on the last
      attempt; the function returns [undefined] when the loop ends. *)
Fixpoint retry (net : nat -> Outcome value) (fuel : nat) (n : Z) : W value :=
    match fuel with
    | O => ret VUndef
    | Datatypes.S fuel' =>
        try_catch (attempt (net (Z.to_nat (n - 1))))
          (fun error =>
             if n <? retryAttempts this then
               sleep (retryDelay this * n) >>
               retry net fuel' (n + 1)
             else
               let! expiredCache := getCachedData true in
               if truthy expiredCache then ret expiredCache
               else throw error)
    end.

(** [fetchStats()]; [net i] is the answer to the (i+1)-th request. *)
Definition fetchStats (net : nat -> Outcome value) : W value :=
    let! cached := getCachedData false in
    if truthy cached then ret cached else
    retry net (Z.to_nat (retryAttempts this)) 1.

End Methods.

End ScholarStatsWidget.

(** ** JavaScript numbers in the integer model *)

Module JsNumber.

(** A number: an integer, or [NaN]. *)
Abbreviation number := (option Z).

Definition digit_value (radix : Z) (c : ascii) : option Z :=
  let n := Z.of_nat (nat_of_ascii c) in
  let d :=
    if (48 <=? n) && (n <=? 57) then Some (n - 48)
    else if (97 <=? n) && (n <=? 122) then Some (n - 87)
    else if (65 <=? n) && (n <=? 90) then Some (n - 55)
    else None in
  match d with
  | Some v => if v <? radix then Some v else None
  | None => None
  end.

(** The value of the longest prefix of digits; [acc] is [None] until a
    digit is read. *)
Fixpoint read_digits (radix : Z) (acc : option Z) (s : string) : option Z :=
  match s with
  | String c s' =>
      match digit_value radix c with
      | Some d => read_digits radix (Some (radix * default 0 acc + d)) s'
      | None => acc
      end
  | EmptyString => acc
  end.

(** [parseInt(s)] without a radix: leading white space, a sign, [0x] or
    [0X] for base 16, then the longest prefix of digits. *)
Definition parseInt (s : string) : number :=
  let s := JsString.trimStart s in
  let '(sign, s) :=
    match s with
    | String c r =>
        if (nat_of_ascii c =? 45)%nat then (-1, r)
        else if (nat_of_ascii c =? 43)%nat then (1, r)
        else (1, s)
    | EmptyString => (1, s)
    end in
  let '(radix, s) :=
    if String.prefix "0x" s || String.prefix "0X" s
    then (16, String.substring 2 (String.length s - 2) s) else (10, s) in
  match read_digits radix None s with
  | Some n => Some (sign * n)
  | None => None
  end.

(** [n.toString()] *)
Definition toString (n : number) : string :=
  match n with
  | Some z => pretty z
  | None => "NaN"
  end.

Definition add (a b : number) : number :=
  match a, b with
  | Some x, Some y => Some (x + y)
  | _, _ => None
  end.

Definition sub (a b : number) : number :=
  match a, b with
  | Some x, Some y => Some (x - y)
  | _, _ => None
  end.

(** [a % b]: the remainder has the sign of [a]; [NaN] when [b] is 0. *)
Definition rem (a b : number) : number :=
  match a, b with
  | Some x, Some y => if y =? 0 then None else Some (Z.rem x y)
  | _, _ => None
  end.

(** [a > b], false when one side is [NaN] *)
Definition gt (a b : number) : bool :=
  match a, b with
  | Some x, Some y => y <? x
  | _, _ => false
  end.

(** [l[i]] *)
Definition index {A} (l : list A) (i : number) : option A :=
  match i with
  | Some z => if z <? 0 then None else l !! Z.to_nat z
  | None => None
  end.

End JsNumber.

(** ** JavaScript arrays *)

Module JsArray.

(** [a.slice(start, end)] *)
Definition slice {A} (start stop : Z) (l : list A) : list A :=
  let len := Z.of_nat (length l) in
  let rel (i : Z) := if i <? 0 then Z.max (len + i) 0 else Z.min i len in
  let k := rel start in
  take (Z.to_nat (rel stop - k)) (drop (Z.to_nat k) l).

(** [a.slice(start)] *)
Definition slice_from {A} (start : Z) (l : list A) : list A :=
  slice start (Z.of_nat (length l)) l.

End JsArray.

(** ** The blog loader ([blog.js], first part) *)

Module Blog.

(** A post of the API: an object whose properties are strings. *)
Abbreviation Post := (gmap string string).

Module CONFIG.
Definition API_URL : string := "https://vikasyadav-blog-post.vikas4770.workers.dev".
Definition POSTS_PER_PAGE : Z := 6.
Definition VALID_STATUSES : list string := ["ready"; "posted"].
Definition IMAGE_CACHE_TIME : Z := 3600000.
Definition ROTATION_INTERVAL : Z := 7200000.
End CONFIG.

(** *** Regular expressions of [utils] *)

Module Regex.

Definition in_range (lo hi : nat) (c : ascii) : bool :=
  ((lo <=? nat_of_ascii c) && (nat_of_ascii c <=? hi))%nat.

(** [[0-9]] *)
Definition is_digit (c : ascii) : bool := in_range 48 57 c.

(** [[a-z0-9]] *)
Definition is_lower_alnum (c : ascii) : bool := in_range 97 122 c || is_digit c.

(** [[a-zA-Z0-9_-]] *)
Definition is_id_char (c : ascii) : bool :=
  in_range 97 122 c || in_range 65 90 c || is_digit c
  || (nat_of_ascii c =? 95)%nat || (nat_of_ascii c =? 45)%nat.

Definition is_dash (c : ascii) : bool := (nat_of_ascii c =? 45)%nat.

(** The longest prefix whose characters are in the class. *)
Fixpoint run (cls : ascii -> bool) (s : string) : string :=
  match s with
  | String c s' => if cls c then String c (run cls s') else EmptyString
  | EmptyString => EmptyString
  end.

Fixpoint drop_chars (n : nat) (s : string) : string :=
  match n, s with
  | Datatypes.S n', String _ s' => drop_chars n' s'
  | _, _ => s
  end.

(** A match of [lit(cls+)suffix] at the start of [s]: the captured group.
    The characters allowed in [suffix] start outside the class, so the
    greedy group is the whole run. *)
Definition match_here (lit : string) (cls : ascii -> bool) (suffix s : string)
  : option string :=
  if String.prefix lit s then
    let rest := drop_chars (String.length lit) s in
    let group := run cls rest in
    if JsString.nonempty group
       && String.prefix suffix (drop_chars (String.length group) rest)
    then Some group else None
  else None.

(** [s.match(/lit(cls+)suffix/)]: the group of the leftmost match. *)
Fixpoint search (lit : string) (cls : ascii -> bool) (suffix s : string)
  : option string :=
  match match_here lit cls suffix s with
  | Some g => Some g
  | None =>
      match s with
      | String _ s' => search lit cls suffix s'
      | EmptyString => None
      end
  end.

(** [s.replace(/cls+/g, '-')] *)
Fixpoint collapse (cls : ascii -> bool) (in_run : bool) (s : string) : string :=
  match s with
  | String c s' =>
      if cls c then
        if in_run then collapse cls true s' else String "-" (collapse cls true s')
      else String c (collapse cls false s')
  | EmptyString => EmptyString
  end.

(** [s.replace(/[^...]/g, '')] for the class of the characters kept *)
Fixpoint keep (cls : ascii -> bool) (s : string) : string :=
  match s with
  | String c s' => if cls c then String c (keep cls s') else keep cls s'
  | EmptyString => EmptyString
  end.

Definition is_newline (c : ascii) : bool := (nat_of_ascii c =? 10)%nat.

(** [s.split(/\n\n+/)]; [cur] is the piece being read and [in_sep] holds
    right after a separator, whose further newlines are skipped. *)
Fixpoint split_paragraphs (s cur : string) (in_sep : bool) : list string :=
  match s with
  | EmptyString => [cur]
  | String c s' =>
      if is_newline c then
        if in_sep then split_paragraphs s' cur true
        else
          match s' with
          | String c2 s'' =>
              if is_newline c2 then cur :: split_paragraphs s'' EmptyString true
              else split_paragraphs s' (cur +:+ String c EmptyString) false
          | EmptyString => [cur +:+ String c EmptyString]
          end
      else split_paragraphs s' (cur +:+ String c EmptyString) false
  end.

(** [s.split('\n')[0]] *)
Fixpoint first_line (s : string) : string :=
  match s with
  | String c s' => if is_newline c then EmptyString else String c (first_line s')
  | EmptyString => EmptyString
  end.

End Regex.

(** *** [utils] *)

Module utils.

(** The four patterns of [convertDriveUrl], tried in order. *)
Definition drive_file_id (url : string) : option string :=
  match Regex.search "/file/d/" Regex.is_id_char "" url with
  | Some g => Some g
  | None =>
  match Regex.search "/d/" Regex.is_id_char "/view" url with
  | Some g => Some g
  | None =>
  match Regex.search "id=" Regex.is_id_char "" url with
  | Some g => Some g
  | None => Regex.search "/open?id=" Regex.is_id_char "" url
  end end end.

(** [convertDriveUrl(url)]; [null] is [None] *)
Definition convertDriveUrl (url : option string) : option string :=
  match url with
  | None => None
  | Some u =>
      if negb (JsString.nonempty u) || negb (JsString.nonempty (JsString.trim u))
      then None else
      let url := JsString.trim u in
      if JsString.includes url "drive.google.com/uc?" then Some url else
      match drive_file_id url with
      | Some id => Some ("https://drive.google.com/thumbnail?id=" +:+ id +:+ "&sz=w800")
      | None => if JsString.startsWith url "http" then Some url else None
      end
  end.

(** [imageUrl && imageUrl.trim()], then [convertDriveUrl], kept when truthy *)
Definition usable_image (imageUrl : option string) : option string :=
  match imageUrl with
  | Some u =>
      if JsString.nonempty u && JsString.nonempty (JsString.trim u) then
        match convertDriveUrl imageUrl with
        | Some c => if JsString.nonempty c then Some c else None
        | None => None
        end
      else None
  | None => None
  end.

(** The first usable image among the given properties. *)
Fixpoint first_image (post : Post) (keys : list string) : option string :=
  match keys with
  | [] => None
  | k :: keys' =>
      match usable_image (post !! k) with
      | Some c => Some c
      | None => first_image post keys'
      end
  end.

(** [getPostImage(post)] *)
Definition getPostImage (post : Post) : string :=
  let finalImage :=
    match post !! "Final_Image" with
    | Some f => if JsString.nonempty f then JsString.trim f else ""
    | None => ""
    end in
  let direct :=
    if JsString.nonempty finalImage && JsString.startsWith finalImage "http" then
      match convertDriveUrl (Some finalImage) with
      | Some c => if JsString.nonempty c then Some c else None
      | None => None
      end
    else None in
  match direct with
  | Some c => c
  | None =>
      let numbered :=
        if JsString.nonempty finalImage then
          match Regex.search "image" Regex.is_digit "" (JsString.toLowerCase finalImage) with
          | Some imageNum => usable_image (post !! ("image" +:+ imageNum))
          | None => None
          end
        else None in
      match numbered with
      | Some c => c
      | None =>
          match first_image post ["image1"; "image2"; "image3"; "image4"] with
          | Some c => c
          | None => "../images/default-blog.jpg"
          end
      end
  end.

(** [getExcerpt(idea)] *)
Definition getExcerpt (idea : option string) : string :=
  match idea with
  | None => ""
  | Some i =>
      if negb (JsString.nonempty i) then "" else
      let paragraphs := Regex.split_paragraphs i EmptyString false in
      let contentStart := if (1 <? length paragraphs)%nat then 1%nat else 0%nat in
      let pick (o : option string) :=
        match o with Some p => if JsString.nonempty p then Some p else None | None => None end in
      let excerpt :=
        match pick (paragraphs !! contentStart) with
        | Some p => p
        | None => default "" (pick (paragraphs !! 0%nat))
        end in
      if (200 <? String.length excerpt)%nat
      then JsString.trim (JsString.take 200 excerpt) +:+ "..."
      else JsString.trim excerpt
  end.

(** [getTitle(post)] *)
Definition getTitle (post : Post) : string :=
  let from_name :=
    match post !! "name" with
    | Some name =>
        if JsString.nonempty name && JsString.nonempty (JsString.trim name)
           && (String.length name <? 200)%nat
        then Some (JsString.trim name) else None
    | None => None
    end in
  match from_name with
  | Some t => t
  | None =>
      let from_idea :=
        match post !! "idea" with
        | Some idea =>
            if JsString.nonempty idea then
              let firstLine := JsString.trim (Regex.first_line idea) in
              if (0 <? String.length firstLine)%nat && (String.length firstLine <? 200)%nat
              then Some firstLine else None
            else None
        | None => None
        end in
      default "Untitled Post" from_idea
  end.

(** [createSlug(title)] *)
Definition createSlug (title : string) : string :=
  let kept c := Regex.is_lower_alnum c || JsString.is_space c || Regex.is_dash c in
  JsString.take 100
    (Regex.collapse Regex.is_dash false
       (Regex.collapse JsString.is_space false
          (Regex.keep kept (JsString.toLowerCase title)))).

End utils.

(** *** The page and the module state *)

(** The card that [createPostCard] writes for one post: the holes of its
    template. *)
Record PostCard : Type := mkPostCard {
  card_slug : string;
  card_statusClass : string;
  card_statusLabel : string;
  card_image : string;
  card_title : string;
  card_excerpt : string
}.

(** The [article] that [renderHomepagePosts] writes for one post. *)
Record Article : Type := mkArticle {
  art_slug : string;
  art_image : string;
  art_title : string;
  art_excerpt : string
}.

(** The items of the pagination list; a link carries its [data-page]. *)
Inductive PageItem : Type :=
| PrevLink (page : Z)
| PrevDisabled
| PageLink (page : Z) (active : bool)
| Ellipsis
| NextLink (page : Z)
| NextDisabled.

(** An element with content of type [C] and its [style.display]. *)
Record Element (C : Type) : Type := mkElement {
  content : C;
  display : string
}.
Arguments mkElement {C}.
Arguments content {C}.
Arguments display {C}.

(** The elements that the loader looks up by id; [None] when the page has
    no such element. *)
Record Dom : Type := mkDom {
  blog_posts_grid : option (Element (list PostCard));
  loading_indicator : option (Element unit);
  no_posts_message : option (Element unit);
  pagination_section : option (Element (list PageItem));
  error_container : option (Element unit);
  error_text : option string;                 (** its [textContent] *)
  latest_posts : option (list Article);
  blog_posts_section : option nat;            (** calls of [scrollIntoView] *)
  pathname : string                           (** [window.location.pathname] *)
}.

Record State : Type := mkState {
  currentPage : Z;
  totalPages : Z;
  allValidPosts : list Post;
  dom : Dom
}.

(** The state when the script is loaded. *)
Definition initial (d : Dom) : State := mkState 1 1 [] d.

Definition with_dom (f : Dom -> Dom) (s : State) : State :=
  mkState (currentPage s) (totalPages s) (allValidPosts s) (f (dom s)).

Definition set_display {C} (v : string) (e : option (Element C)) : option (Element C) :=
  match e with
  | Some el => Some (mkElement (content el) v)
  | None => None
  end.

Definition set_loading_display (v : string) (d : Dom) : Dom :=
  mkDom (blog_posts_grid d) (set_display v (loading_indicator d)) (no_posts_message d)
        (pagination_section d) (error_container d) (error_text d) (latest_posts d)
        (blog_posts_section d) (pathname d).

Definition set_no_posts_display (v : string) (d : Dom) : Dom :=
  mkDom (blog_posts_grid d) (loading_indicator d) (set_display v (no_posts_message d))
        (pagination_section d) (error_container d) (error_text d) (latest_posts d)
        (blog_posts_section d) (pathname d).

Definition set_pagination (e : option (Element (list PageItem))) (d : Dom) : Dom :=
  mkDom (blog_posts_grid d) (loading_indicator d) (no_posts_message d)
        e (error_container d) (error_text d) (latest_posts d)
        (blog_posts_section d) (pathname d).

Definition set_grid (e : option (Element (list PostCard))) (d : Dom) : Dom :=
  mkDom e (loading_indicator d) (no_posts_message d)
        (pagination_section d) (error_container d) (error_text d) (latest_posts d)
        (blog_posts_section d) (pathname d).

Definition set_error (message : string) (d : Dom) : Dom :=
  mkDom (blog_posts_grid d) (loading_indicator d) (no_posts_message d)
        (pagination_section d) (set_display "block" (error_container d)) (Some message)
        (latest_posts d) (blog_posts_section d) (pathname d).

Definition set_latest (l : list Article) (d : Dom) : Dom :=
  mkDom (blog_posts_grid d) (loading_indicator d) (no_posts_message d)
        (pagination_section d) (error_container d) (error_text d) (Some l)
        (blog_posts_section d) (pathname d).

Definition scroll_section (d : Dom) : Dom :=
  mkDom (blog_posts_grid d) (loading_indicator d) (no_posts_message d)
        (pagination_section d) (error_container d) (error_text d) (latest_posts d)
        (Datatypes.S <$> blog_posts_section d) (pathname d).

(** [Math.ceil(n / d)] for [n >= 0] and [d > 0] *)
Definition ceil_div (n d : Z) : Z := (n + d - 1) / d.

(** [m.map(f)] for an effectful [f] *)
Fixpoint mapM {S A B} (f : A -> M S B) (l : list A) : M S (list B) :=
  match l with
  | [] => ret []
  | a :: l' =>
      let! b := f a in
      let! bs := mapM f l' in
      ret (b :: bs)
  end.

Section Code.
Context `{Platform}.

Local Abbreviation B := (M State).

(** [utils.storePostData(post, slug)] *)
Definition of_field (o : option string) : value :=
  match o with Some s => VStr s | None => VUndef end.

Definition postData (post : Post) (slug : string) (t_now : Z) : value :=
  VObj [("title", VStr (utils.getTitle post));
        ("content", of_field (post !! "idea"));
        ("image", VStr (utils.getPostImage post));
        ("status", of_field (post !! "status"));
        ("slug", VStr slug);
        ("timestamp", VNum t_now)].

Definition storePostData (post : Post) (slug : string) : B unit :=
  try_catch
    (let! t_now := Date_now in
     setItem ("blog_post_" +:+ slug) (JSON_stringify (postData post slug t_now)))
    (fun _ => ret tt).

(** *** [api] *)

(** The parsed body of the posts endpoint: [null], or a value with its
    [success] property and, when [posts] is an array, that array. *)
Inductive Body : Type :=
| BodyNull
| BodyOf (success : value) (posts : option (list Post)).

(** [api.fetchPosts()] *)
Definition fetchPosts (o : Outcome Body) : B (list Post) :=
  try_catch
    (let! response := fetch (mkRequest CONFIG.API_URL "GET" [] NoBody) o in
     if negb (ok response) then
       throw (Error ("HTTP error! status: " +:+ pretty (status response)))
     else
     let! data := json_of response in
     match data with
     | BodyNull => throw (TypeError "Cannot read properties of null: success")
     | BodyOf success posts =>
         match posts with
         | Some l => if truthy success then ret l
                     else throw (Error "Invalid API response format")
         | None => throw (Error "Invalid API response format")
         end
     end)
    (fun error => throw error).

(** The callback of [posts.filter] in [filterPosts]. *)
Definition valid_post (post : Post) : bool :=
  match post !! "idea" with
  | None => false
  | Some idea =>
      if negb (JsString.nonempty idea) || String.eqb (JsString.trim idea) "" then false
      else
        let status :=
          JsString.trim (JsString.toLowerCase
            (match post !! "status" with
             | Some st => if JsString.nonempty st then st else ""
             | None => ""
             end)) in
        bool_decide (status ∈ CONFIG.VALID_STATUSES)
  end.

(** [api.filterPosts(posts)] *)
Definition filterPosts (posts : list Post) : list Post :=
  List.filter valid_post posts.

(** *** [ui] *)

(** [ui.createPostCard(post, index)] *)
Definition createPostCard (post : Post) (index : Z) : B PostCard :=
  let title := utils.getTitle post in
  let excerpt := utils.getExcerpt (post !! "idea") in
  let image := utils.getPostImage post in
  match post !! "status" with
  | None => throw (TypeError "Cannot read properties of undefined: toLowerCase")
  | Some st =>
      let status := JsString.toLowerCase st in
      let slug := utils.createSlug title in
      storePostData post slug >>
      let posted := String.eqb status "posted" in
      ret (mkPostCard slug
             (if posted then "status-posted" else "status-review")
             (if posted then "Published" else "New")
             image title excerpt)
  end.

(** The list that [renderPagination] writes. *)
Definition pagination_items (currentPage totalPages : Z) : list PageItem :=
  let maxPageButtons := 5 in
  let startPage := Z.max 1 (currentPage - maxPageButtons / 2) in
  let endPage := Z.min totalPages (startPage + maxPageButtons - 1) in
  let startPage :=
    if endPage - startPage <? maxPageButtons - 1
    then Z.max 1 (endPage - maxPageButtons + 1) else startPage in
  (if 1 <? currentPage then [PrevLink (currentPage - 1)] else [PrevDisabled])
  ++ (if 1 <? startPage
      then PageLink 1 false :: (if 2 <? startPage then [Ellipsis] else [])
      else [])
  ++ map (fun i => PageLink i (i =? currentPage))
         (seqZ startPage (endPage - startPage + 1))
  ++ (if endPage <? totalPages
      then (if endPage <? totalPages - 1 then [Ellipsis] else [])
           ++ [PageLink totalPages false]
      else [])
  ++ (if currentPage <? totalPages then [NextLink (currentPage + 1)] else [NextDisabled]).

(** [ui.renderPagination()] *)
Definition renderPagination : B unit :=
  let! s := get_self in
  match pagination_section (dom s) with
  | None => ret tt
  | Some section =>
      if totalPages s <=? 1 then
        modify_self (with_dom (set_pagination (Some (mkElement (content section) "none"))))
      else
        modify_self (with_dom (set_pagination
          (Some (mkElement (pagination_items (currentPage s) (totalPages s)) "block"))))
  end.

(** [posts.map((post, index) => this.createPostCard(post, startIndex + index))] *)
Fixpoint map_cards (posts : list Post) (index : Z) : B (list PostCard) :=
  match posts with
  | [] => ret []
  | post :: rest =>
      let! card := createPostCard post index in
      let! cards := map_cards rest (index + 1) in
      ret (card :: cards)
  end.

(** [ui.renderPosts(posts, page)] *)
Definition renderPosts (posts : list Post) (page : Z) : B unit :=
  let! s := get_self in
  match blog_posts_grid (dom s) with
  | None => ret tt
  | Some _ =>
      modify_self (with_dom (set_loading_display "none")) >>
      if (length posts =? 0)%nat then
        modify_self (with_dom (set_no_posts_display "block")) >>
        modify_self (with_dom (fun d => set_pagination (set_display "none" (pagination_section d)) d))
      else
        let total := ceil_div (Z.of_nat (length posts)) CONFIG.POSTS_PER_PAGE in
        let current := Z.min page total in
        modify_self (fun s => mkState current total posts (dom s)) >>
        let startIndex := (current - 1) * CONFIG.POSTS_PER_PAGE in
        let endIndex := startIndex + CONFIG.POSTS_PER_PAGE in
        let postsToDisplay := JsArray.slice startIndex endIndex posts in
        let! postsHTML := map_cards postsToDisplay startIndex in
        modify_self (with_dom (set_grid (Some (mkElement postsHTML "flex")))) >>
        renderPagination >>
        if 1 <? page then modify_self (with_dom scroll_section) else ret tt
  end.

(** [ui.showError(message)] *)
Definition showError (message : string) : B unit :=
  modify_self (with_dom (set_loading_display "none")) >>
  let! s := get_self in
  match error_container (dom s), error_text (dom s) with
  | Some _, Some _ => modify_self (with_dom (set_error message))
  | _, _ => ret tt
  end.

(** [s || '0'] *)
Definition or_zero (o : option string) : string :=
  if JsString.truthy_str o then default "" o else "0".

(** The callback of [displayPosts.map] in [renderHomepagePosts]; the post
    is [undefined] when the index was out of the list. *)
Definition home_article (post : option Post) : B Article :=
  match post with
  | None => throw (TypeError "Cannot read properties of undefined: name")
  | Some post =>
      let title := utils.getTitle post in
      let excerpt := utils.getExcerpt (post !! "idea") in
      let image := utils.getPostImage post in
      let slug := utils.createSlug title in
      storePostData post slug >>
      ret (mkArticle slug image title excerpt)
  end.

(** The posts that the [for] loop of [renderHomepagePosts] pushes. *)
Definition displayPosts (posts : list Post) (rotationIndex : JsNumber.number)
  : list (option Post) :=
  let n := Z.of_nat (length posts) in
  map (fun i => JsNumber.index posts
                  (JsNumber.rem (JsNumber.add rotationIndex (Some i)) (Some n)))
      (seqZ 0 (Z.min 6 n)).

(** [ui.renderHomepagePosts(posts)] *)
Definition renderHomepagePosts (posts : list Post) : B unit :=
  let! s := get_self in
  match latest_posts (dom s) with
  | None => ret tt
  | Some _ =>
      let! stored_index := getItem "blog_rotation_index" in
      let rotationIndex := JsNumber.parseInt (or_zero stored_index) in
      let! stored_last := getItem "blog_last_rotation" in
      let lastRotation := JsNumber.parseInt (or_zero stored_last) in
      let! t_now := Date_now in
      let! rotationIndex :=
        if JsNumber.gt (JsNumber.sub (Some t_now) lastRotation) (Some CONFIG.ROTATION_INTERVAL)
        then
          let rotated :=
            JsNumber.rem (JsNumber.add rotationIndex (Some 6))
                         (Some (Z.of_nat (length posts))) in
          setItem "blog_rotation_index" (JsNumber.toString rotated) >>
          setItem "blog_last_rotation" (pretty t_now) >>
          ret rotated
        else ret rotationIndex in
      let! postsHTML := mapM home_article (displayPosts posts rotationIndex) in
      modify_self (with_dom (set_latest postsHTML))
  end.

(** *** [BlogLoader] and [Search] *)

Definition load_error : string := "Unable to load blog posts. Please try again later.".

(** [BlogLoader.init()] *)
Definition init (o : Outcome Body) : B unit :=
  try_catch
    (let! allPosts := fetchPosts o in
     let validPosts := filterPosts allPosts in
     let! s := get_self in
     let isBlogPage := JsString.includes (pathname (dom s)) "/blog/" in
     if isBlogPage then renderPosts validPosts 1
     else renderHomepagePosts validPosts)
    (fun _ => showError load_error).

(** The [submit] handler that [Search.init] installs, for the text of the
    search field. *)
Definition search_submit (input : string) (o : Outcome Body) : B unit :=
  let query := JsString.toLowerCase (JsString.trim input) in
  if negb (JsString.nonempty query) then ret tt else
  try_catch
    (let! allPosts := fetchPosts o in
     let validPosts := filterPosts allPosts in
     let filteredPosts :=
       List.filter
         (fun post =>
            JsString.includes (JsString.toLowerCase (utils.getTitle post)) query
            || JsString.includes (JsString.toLowerCase (default "" (post !! "idea"))) query)
         validPosts in
     renderPosts filteredPosts 1)
    (fun _ => ret tt).

End Code.

End Blog.

(** ** The chat widget *)

Module ChatWidget.

(** The [options] of [addMessage]. *)
Record Options : Type := mkOptions {
  suggestions : option (list string);
  opt_timestamp : option string;
  isError : option bool
}.

Definition no_options : Options := mkOptions None None None.

(** An entry of [messageHistory]. *)
Record Message : Type := mkMessage {
  content : string;
  sender : string;
  timestamp : string;
  options : Options
}.

(** A child of [#chat-messages]: a message with the holes of its template
    (the class from [sender] and [isError], the content, the suggestion
    buttons, the time stamp that is formatted), or the typing indicator. *)
Inductive Node : Type :=
| MessageNode (sender : string) (isError : bool) (content : string)
              (buttons : list string) (time_of : string)
| TypingNode.

Record Input : Type := mkInput {
  input_value : string;                   (** its [value] *)
  disabled : bool
}.

Record Dom : Type := mkDom {
  chat_input : option Input;
  chat_messages : option (list Node);
  chat_send : option bool;                (** its [disabled] *)
  chat_header : bool;                     (** is there a [.chat-header] *)
  connection_status : option string;      (** the status in its class *)
  pathname : string;
  referrer : string
}.

Record t : Type := mk {
  apiUrl : string;
  sessionId : string;
  isOpen : bool;
  isTyping : bool;
  messageHistory : list Message;
  reconnectAttempts : Z;
  maxReconnectAttempts : Z;
  dom : Dom
}.

Definition with_dom (f : Dom -> Dom) (w : t) : t :=
  mk (apiUrl w) (sessionId w) (isOpen w) (isTyping w) (messageHistory w)
     (reconnectAttempts w) (maxReconnectAttempts w) (f (dom w)).

Definition set_sessionId (sid : string) (w : t) : t :=
  mk (apiUrl w) sid (isOpen w) (isTyping w) (messageHistory w)
     (reconnectAttempts w) (maxReconnectAttempts w) (dom w).

Definition set_history (h : list Message) (w : t) : t :=
  mk (apiUrl w) (sessionId w) (isOpen w) (isTyping w) h
     (reconnectAttempts w) (maxReconnectAttempts w) (dom w).

Definition set_reconnectAttempts (n : Z) (w : t) : t :=
  mk (apiUrl w) (sessionId w) (isOpen w) (isTyping w) (messageHistory w)
     n (maxReconnectAttempts w) (dom w).

Definition set_input (i : option Input) (d : Dom) : Dom :=
  mkDom i (chat_messages d) (chat_send d) (chat_header d) (connection_status d)
        (pathname d) (referrer d).

Definition set_messages (m : option (list Node)) (d : Dom) : Dom :=
  mkDom (chat_input d) m (chat_send d) (chat_header d) (connection_status d)
        (pathname d) (referrer d).

Definition set_send (b : option bool) (d : Dom) : Dom :=
  mkDom (chat_input d) (chat_messages d) b (chat_header d) (connection_status d)
        (pathname d) (referrer d).

Definition set_status (st : option string) (d : Dom) : Dom :=
  mkDom (chat_input d) (chat_messages d) (chat_send d) (chat_header d) st
        (pathname d) (referrer d).

(** The parsed body of the chat endpoint. *)
Record Reply : Type := mkReply {
  success : value;
  response : string;
  reply_sessionId : string;
  reply_suggestions : option (list string);
  reply_timestamp : option string;
  reply_message : option string           (** [data.message] *)
}.

Inductive Body : Type :=
| BodyNull
| BodyOf (r : Reply).

(** The history as the value that is serialized. *)
Definition of_opt {A} (f : A -> value) (o : option A) : value :=
  match o with Some a => f a | None => VUndef end.

Definition options_value (o : Options) : value :=
  VObj [("suggestions", of_opt (fun l => VArr (map VStr l)) (suggestions o));
        ("timestamp", of_opt VStr (opt_timestamp o));
        ("isError", of_opt VBool (isError o))].

Definition message_value (m : Message) : value :=
  VObj [("content", VStr (content m)); ("sender", VStr (sender m));
        ("timestamp", VStr (timestamp m)); ("options", options_value (options m))].

Definition history_value (h : list Message) : value :=
  VArr (map message_value h).

(** Reading a stored history back: an array of messages. *)
Definition string_of (v : value) : option string :=
  match v with VStr s => Some s | _ => None end.

Fixpoint strings_of (l : list value) : option (list string) :=
  match l with
  | [] => Some []
  | VStr s :: l' =>
      match strings_of l' with Some r => Some (s :: r) | None => None end
  | _ => None
  end.

Definition options_of (v : value) : Options :=
  mkOptions
    (match optprop v "suggestions" with VArr l => strings_of l | _ => None end)
    (string_of (optprop v "timestamp"))
    (match optprop v "isError" with VBool b => Some b | _ => None end).

Definition message_of (v : value) : option Message :=
  match string_of (optprop v "content"), string_of (optprop v "sender") with
  | Some c, Some s =>
      Some (mkMessage c s (default "" (string_of (optprop v "timestamp")))
                      (options_of (optprop v "options")))
  | _, _ => None
  end.

Fixpoint messages_of (l : list value) : option (list Message) :=
  match l with
  | [] => Some []
  | v :: l' =>
      match message_of v, messages_of l' with
      | Some m, Some r => Some (m :: r)
      | _, _ => None
      end
  end.

Definition history_of (v : value) : option (list Message) :=
  match v with
  | VArr l => messages_of l
  | _ => None
  end.

Fixpoint remove_typing (l : list Node) : list Node :=
  match l with
  | [] => []
  | TypingNode :: l' => l'
  | n :: l' => n :: remove_typing l'
  end.

Section Code.
Context `{Platform}.

Local Abbreviation C := (M t).

Definition history_key (sid : string) : string := "chat_history_" +:+ sid.

(** [generateSessionId()]; [draw] numbers the call of [Math.random] *)
Definition generateSessionId (draw : nat) : C string :=
  let! t_now := Date_now in
  ret ("chat_" +:+ pretty t_now +:+ "_" +:+ random_suffix draw).

(** [saveChatHistory()] *)
Definition saveChatHistory : C unit :=
  try_catch
    (let! w := get_self in
     setItem (history_key (sessionId w))
       (JSON_stringify (history_value (JsArray.slice_from (-50) (messageHistory w)))))
    (fun _ => ret tt).

(** [addMessage(content, sender, options)]; the animation of the new node,
    the scrolling and the timer that marks the message as delivered are
    left out. *)
Definition addMessage (content sender : string) (options : Options) : C unit :=
  let! w := get_self in
  match chat_messages (dom w) with
  | None => ret tt
  | Some children =>
      let! t_now := Date_now in
      let timestamp :=
        if JsString.truthy_str (opt_timestamp options)
        then default "" (opt_timestamp options) else toISOString t_now in
      let isError := default false (isError options) in
      let buttons :=
        if String.eqb sender "bot" then default [] (suggestions options) else [] in
      modify_self (with_dom (set_messages
        (Some (children ++ [MessageNode sender isError content buttons timestamp])))) >>
      modify_self (fun w =>
        set_history (messageHistory w ++ [mkMessage content sender timestamp options]) w) >>
      saveChatHistory
  end.

(** [updateConnectionStatus(status)] *)
Definition updateConnectionStatus (st : string) : C unit :=
  modify_self (with_dom (fun d =>
    match connection_status d with
    | Some _ => set_status (Some st) d
    | None => d
    end)).

(** [showBotTyping()] *)
Definition showBotTyping : C unit :=
  modify_self (with_dom (fun d =>
    match chat_messages d with
    | Some children => set_messages (Some (children ++ [TypingNode])) d
    | None => d
    end)).

(** [hideBotTyping()] *)
Definition hideBotTyping : C unit :=
  modify_self (with_dom (fun d =>
    set_messages (remove_typing <$> chat_messages d) d)).

(** [setInputDisabled(disabled)] *)
Definition setInputDisabled (b : bool) : C unit :=
  modify_self (with_dom (fun d =>
    set_send ((fun _ => b) <$> chat_send d)
      (set_input ((fun i => mkInput (input_value i) b) <$> chat_input d) d))).

(** [getContext()] *)
Definition getContext : C value :=
  let! w := get_self in
  let! t_now := Date_now in
  ret (VObj [("page", VStr (pathname (dom w)));
             ("referrer", VStr (referrer (dom w)));
             ("messageCount", VNum (Z.of_nat (length (messageHistory w))));
             ("timestamp", VStr (toISOString t_now))]).

(** [handleConnectionError(error)]; the timer that shows the widget online
    again after two seconds is not run. *)
Definition handleConnectionError (error : JsError) : C unit :=
  modify_self (fun w => set_reconnectAttempts (reconnectAttempts w + 1) w) >>
  let! w := get_self in
  if maxReconnectAttempts w <=? reconnectAttempts w
  then updateConnectionStatus "offline"
  else updateConnectionStatus "connecting".

Definition trouble : string :=
  "I'm having trouble connecting right now. Please try again in a moment.".

(** The request of [sendMessage]. *)
Definition message_request (api message sid : string) (context : value) : Request :=
  mkRequest (api +:+ "/api/chat/message") "POST" json_headers
    (JsonBody (VObj [("message", VStr message);
                     ("sessionId", VStr sid);
                     ("context", context)])).

(** The [try] block of [sendMessage]; [o] is the answer of the chat
    endpoint. *)
Definition send_try (message : string) (o : Outcome Body) : C unit :=
  updateConnectionStatus "connecting" >>
  let! w := get_self in
  let! context := getContext in
  let! resp := fetch (message_request (apiUrl w) message (sessionId w) context) o in
  hideBotTyping >>
  if negb (ok resp) then
    throw (Error ("HTTP " +:+ pretty (status resp) +:+ ": " +:+ statusText resp))
  else
  let! data := json_of resp in
  match data with
  | BodyNull => throw (TypeError "Cannot read properties of null: success")
  | BodyOf r =>
      if truthy (success r) then
        modify_self (set_sessionId (reply_sessionId r)) >>
        addMessage (response r) "bot"
          (mkOptions (reply_suggestions r) (reply_timestamp r) None) >>
        updateConnectionStatus "online" >>
        modify_self (set_reconnectAttempts 0)
      else
        throw (Error (if JsString.truthy_str (reply_message r)
                      then default "" (reply_message r)
                      else "Failed to get response"))
  end.

(** The [catch] block of [sendMessage]. *)
Definition send_catch (error : JsError) : C unit :=
  hideBotTyping >>
  handleConnectionError error >>
  addMessage trouble "bot" (mkOptions None None (Some true)).

(** [sendMessage()]; the focus that the [finally] block gives back to the
    input is not part of the state. *)
Definition sendMessage (o : Outcome Body) : C unit :=
  let! w := get_self in
  match chat_input (dom w) with
  | None => ret tt
  | Some chatInput =>
      let message := JsString.trim (input_value chatInput) in
      if negb (JsString.nonempty message) then ret tt else
      modify_self (with_dom (set_input (Some (mkInput "" (disabled chatInput))))) >>
      setInputDisabled true >>
      addMessage message "user" no_options >>
      showBotTyping >>
      finally
        (try_catch (send_try message o) send_catch)
        (setInputDisabled false)
  end.

(** The [forEach] of [loadChatHistory]: it visits the messages that were
    loaded, while [addMessage] appends to the same array. *)
Fixpoint replay (l : list Message) : C unit :=
  match l with
  | [] => ret tt
  | m :: l' => addMessage (content m) (sender m) (options m) >> replay l'
  end.

(** [loadChatHistory()]; a stored value that is not an array of messages
    is outside the typed history and is treated as a failed parse. *)
Definition loadChatHistory : C unit :=
  try_catch
    (let! w := get_self in
     let! saved := getItem (history_key (sessionId w)) in
     if JsString.truthy_str saved then
       match JSON_parse (default "" saved) with
       | Some v =>
           match history_of v with
           | Some h => modify_self (set_history h) >> replay h
           | None => throw (TypeError "messageHistory.forEach")
           end
       | None => throw (SyntaxError "JSON.parse")
       end
     else ret tt)
    (fun _ => ret tt).

Definition welcome : string :=
  "Hello! I'm Vikas's AI assistant. I can help you learn about his work, projects, and blog content. How can I assist you today?".

Definition welcome_suggestions : list string :=
  ["Tell me about Vikas's portfolio"; "What are his latest projects?";
   "Show me recent blog posts"; "How can I contact Vikas?"].

(** The timer callback of [showWelcomeMessage()], which is installed when
    the history is empty. *)
Definition welcome_timer : C unit :=
  addMessage welcome "bot" (mkOptions (Some welcome_suggestions) None None).

(** [addConnectionStatusIndicator()] *)
Definition addConnectionStatusIndicator : C unit :=
  modify_self (with_dom (fun d =>
    if chat_header d then set_status (Some "online") d else d)).

(** [clearHistory()]; the welcome timer is not run. *)
Definition clearHistory : C unit :=
  modify_self (set_history []) >>
  modify_self (with_dom (fun d => set_messages ((fun _ => []) <$> chat_messages d) d)) >>
  let! w := get_self in
  removeItem (history_key (sessionId w)).

(** [selectSuggestion(s)] and [sendMessageProgrammatically(s)] *)
Definition sendMessageProgrammatically (s : string) (o : Outcome Body) : C unit :=
  let! w := get_self in
  match chat_input (dom w) with
  | Some i =>
      modify_self (with_dom (set_input (Some (mkInput s (disabled i))))) >>
      sendMessage o
  | None => ret tt
  end.

(** [init()], after the constructor has set the fields; the timer of
    [showWelcomeMessage] is [welcome_timer]. *)
Definition init : C unit :=
  loadChatHistory >>
  addConnectionStatusIndicator.

(** [new ChatWidget()] on a page [d] *)
Definition new (d : Dom) (draw : nat) (b : Browser) : Res unit * t * Browser :=
  let sid := "chat_" +:+ pretty (now b) +:+ "_" +:+ random_suffix draw in
  init (mk "https://api.vikasyadav.live" sid false false [] 0 3 d) b.

End Code.

End ChatWidget.

(** ** The application controller ([app.js], first part) *)

Module VikasYadavApp.

Record t : Type := mk {
  apiUrl : string;
  isAuthenticated : bool;
  currentUser : value;
  (** [style.display] of the [.auth-required] and [.guest-only] elements *)
  auth_required : list string;
  guest_only : list string
}.

(** The fields that the constructor sets, on a page with the given
    elements. *)
Definition new (auth guest : list string) : t :=
  mk "https://api.vikasyadav.live" false VNull auth guest.

Section Code.
Context `{Platform}.

Local Abbreviation A := (M t).

(** [updateUIForAuthenticatedUser()] *)
Definition updateUIForAuthenticatedUser : A unit :=
  modify_self (fun a =>
    mk (apiUrl a) (isAuthenticated a) (currentUser a)
       (map (fun _ => "block") (auth_required a))
       (map (fun _ => "none") (guest_only a))).

(** [validateToken(token)]; the body of the answer is the parsed JSON. *)
Definition validateToken (token : string) (o : Outcome value) : A unit :=
  try_catch
    (let! a := get_self in
     let! response :=
       fetch (mkRequest (apiUrl a +:+ "/api/auth/me") "GET"
                [("Authorization", "Bearer " +:+ token)] NoBody) o in
     if ok response then
       let! data := json_of response in
       modify_self (fun a =>
         mk (apiUrl a) true (currentUser a) (auth_required a) (guest_only a)) >>
       let! user := lift (prop data "user") in
       modify_self (fun a =>
         mk (apiUrl a) (isAuthenticated a) user (auth_required a) (guest_only a)) >>
       updateUIForAuthenticatedUser
     else removeItem "auth_token")
    (fun _ => removeItem "auth_token").

(** [checkAuthentication()], with the validation that it starts *)
Definition checkAuthentication (o : Outcome value) : A unit :=
  let! token := getItem "auth_token" in
  if JsString.truthy_str token then validateToken (default "" token) o
  else ret tt.

(** [fetchWithAuth(url, options)] for the method, headers and body of
    [options] *)
Definition fetchWithAuth {B} (url method : string) (headers : list (string * string))
    (body : ReqBody) (o : Outcome B) : A (Response B) :=
  let! token := getItem "auth_token" in
  let headers := json_headers ++ headers in
  let headers :=
    if JsString.truthy_str token
    then headers ++ [("Authorization", "Bearer " +:+ default "" token)]
    else headers in
  fetch (mkRequest url method headers body) o.

End Code.

End VikasYadavApp.

(** ** The OCR tool ([app.js], second part) *)

Module OCRTool.

(** A [File] of the form. *)
Record File : Type := mkFile {
  name : string;
  size : Z;
  type : string;
  lastModified : Z
}.

(** The parsed body of the extraction endpoints. *)
Record Result : Type := mkResult {
  success : value;
  message : option string;
  filename : option string;
  extractedText : option string;
  confidence : value;
  wordCount : value
}.

Record Button : Type := mkButton {
  button_value : string;
  button_disabled : bool
}.

Record Dom : Type := mkDom {
  error_section : option string;              (** its [style.display] *)
  error_message : option string;              (** its [textContent] *)
  results_section : option string;            (** its [style.display] *)
  extracted_text : option string;             (** its [value] *)
  file_info : option (option File);           (** the file it describes *)
  processing_history : option value;          (** the history it lists *)
  submit_btn : option Button;
  url_submit_btn : option Button
}.

Record t : Type := mk {
  apiUrl : string;
  maxFileSize : Z;
  supportedTypes : list string;
  processingHistory : value;
  (** [window.Analytics], when it is online with an endpoint: its
      [apiUrl] *)
  analytics : option string;
  dom : Dom
}.

Definition with_dom (f : Dom -> Dom) (w : t) : t :=
  mk (apiUrl w) (maxFileSize w) (supportedTypes w) (processingHistory w)
     (analytics w) (f (dom w)).

Definition set_processingHistory (h : value) (w : t) : t :=
  mk (apiUrl w) (maxFileSize w) (supportedTypes w) h (analytics w) (dom w).

Definition set_error (message : string) (d : Dom) : Dom :=
  mkDom (Some "block") (Some message) (results_section d) (extracted_text d)
        (file_info d) (processing_history d) (submit_btn d) (url_submit_btn d).

Definition set_error_display (v : string) (d : Dom) : Dom :=
  mkDom ((fun _ => v) <$> error_section d) (error_message d) (results_section d)
        (extracted_text d) (file_info d) (processing_history d) (submit_btn d)
        (url_submit_btn d).

Definition set_results_display (v : string) (d : Dom) : Dom :=
  mkDom (error_section d) (error_message d) ((fun _ => v) <$> results_section d)
        (extracted_text d) (file_info d) (processing_history d) (submit_btn d)
        (url_submit_btn d).

Definition set_extracted_text (v : string) (d : Dom) : Dom :=
  mkDom (error_section d) (error_message d) (results_section d)
        ((fun _ => v) <$> extracted_text d) (file_info d) (processing_history d)
        (submit_btn d) (url_submit_btn d).

Definition set_file_info (f : File) (d : Dom) : Dom :=
  mkDom (error_section d) (error_message d) (results_section d) (extracted_text d)
        ((fun _ => Some f) <$> file_info d) (processing_history d) (submit_btn d)
        (url_submit_btn d).

Definition set_history_list (h : value) (d : Dom) : Dom :=
  mkDom (error_section d) (error_message d) (results_section d) (extracted_text d)
        (file_info d) ((fun _ => h) <$> processing_history d) (submit_btn d)
        (url_submit_btn d).

Definition set_buttons (v1 v2 : string) (b : bool) (d : Dom) : Dom :=
  mkDom (error_section d) (error_message d) (results_section d) (extracted_text d)
        (file_info d) (processing_history d)
        ((fun _ => mkButton v1 b) <$> submit_btn d)
        ((fun _ => mkButton v2 b) <$> url_submit_btn d).

Section Code.
Context `{Platform}.

Local Abbreviation O := (M t).

Definition too_large (limit : Z) : string :=
  "File size exceeds " +:+ pretty (limit / (1024 * 1024)) +:+ "MB limit".

Definition unsupported : string :=
  "Unsupported file type. Please use JPEG, PNG, WebP, TIFF, or PDF files.".

(** [showError(message)] *)
Definition showError (message : string) : O unit :=
  let! w := get_self in
  match error_section (dom w), error_message (dom w) with
  | Some _, Some _ => modify_self (with_dom (set_error message))
  | _, _ => ret tt
  end.

(** [validateFile(file)] *)
Definition validateFile (file : File) : O bool :=
  let! w := get_self in
  if maxFileSize w <? size file then
    showError (too_large (maxFileSize w)) >> ret false
  else if negb (bool_decide (type file ∈ supportedTypes w)) then
    showError unsupported >> ret false
  else ret true.

(** [handleFileSelection(e)] for the first file of the input *)
Definition handleFileSelection (file : option File) : O unit :=
  match file with
  | None => ret tt
  | Some f =>
      let! valid := validateFile f in
      if negb valid then ret tt
      else modify_self (with_dom (set_file_info f))
  end.

(** [loadProcessingHistory()] *)
Definition loadProcessingHistory : O value :=
  try_catch
    (let! saved := getItem "ocr_processing_history" in
     if JsString.truthy_str saved then
       match JSON_parse (default "" saved) with
       | Some v => ret v
       | None => throw (SyntaxError "JSON.parse")
       end
     else ret (VArr []))
    (fun _ => ret (VArr [])).

(** [saveProcessingHistory()] *)
Definition saveProcessingHistory : O unit :=
  try_catch
    (let! w := get_self in
     setItem "ocr_processing_history" (JSON_stringify (processingHistory w)))
    (fun _ => ret tt).

(** [renderProcessingHistory()]: the placeholder for a history of length
    0, the list for an array, and a [TypeError] for another value, which
    has no [forEach]. *)
Definition renderProcessingHistory : O unit :=
  let! w := get_self in
  match processing_history (dom w) with
  | None => ret tt
  | Some _ =>
      match processingHistory w with
      | VArr _ | VStr EmptyString =>
          modify_self (with_dom (set_history_list (processingHistory w)))
      | _ => throw (TypeError "processingHistory.forEach")
      end
  end.

(** [addToHistory(result)] *)
Definition addToHistory (result : Result) : O unit :=
  let! t_now := Date_now in
  match extractedText result with
  | None => throw (TypeError "Cannot read properties of undefined: substring")
  | Some text =>
      let historyItem :=
        VObj [("id", VNum t_now);
              ("filename", VStr (if JsString.truthy_str (filename result)
                                 then default "" (filename result)
                                 else "URL Processing"));
              ("extractedText", VStr (JsString.take 100 text +:+ "..."));
              ("confidence", confidence result);
              ("wordCount", wordCount result);
              ("processedAt", VStr (toISOString t_now))] in
      let! w := get_self in
      match processingHistory w with
      | VArr items =>
          modify_self (set_processingHistory
                         (VArr (JsArray.slice 0 10 (historyItem :: items)))) >>
          saveProcessingHistory >>
          renderProcessingHistory
      | _ => throw (TypeError "processingHistory.unshift")
      end
  end.

(** [showProcessing(show)] *)
Definition showProcessing (show : bool) : O unit :=
  modify_self (with_dom
    (if show then set_buttons "Processing..." "Processing..." true
     else set_buttons "Process Document" "Process" false)).

(** [hideError()] and [hideResults()] *)
Definition hideError : O unit := modify_self (with_dom (set_error_display "none")).
Definition hideResults : O unit := modify_self (with_dom (set_results_display "none")).

(** [displayResults(result)]: the section is shown, the text is written,
    and [resultsSection.scrollIntoView] throws when there is no section.
    The statistics and the detailed analysis are left out. *)
Definition displayResults (result : Result) : O unit :=
  modify_self (with_dom (set_results_display "block")) >>
  modify_self (with_dom (set_extracted_text (default "" (extractedText result)))) >>
  let! w := get_self in
  match results_section (dom w) with
  | Some _ => ret tt
  | None => throw (TypeError "Cannot read properties of null: scrollIntoView")
  end.

(** [window.Analytics.track(...)], when the tracker is there and sends.
    The event also carries the page URL, the session and the description of
    the browser, which are left out. *)
Definition track (eventType : string) (data : list (string * value)) : O unit :=
  let! w := get_self in
  match analytics w with
  | Some api =>
      let! t_now := Date_now in
      fun s b =>
        (Ret tt, s,
         emit (EvFetch (mkRequest (api +:+ "/api/analytics/track") "POST" json_headers
                 (JsonBody (VObj [("event_type", VStr eventType);
                                  ("timestamp", VStr (toISOString t_now));
                                  ("additional_data", VObj data)])))) b)
  | None => ret tt
  end.

Definition upload_request (api : string) : Request :=
  mkRequest (api +:+ "/api/ocr/extract") "POST" [] FormBody.

(** [handleFileUpload(e)] for the [file] of the form; [o] is the answer of
    the extraction endpoint. *)
Definition handleFileUpload (file : option File) (includeDetails : bool)
    (o : Outcome Result) : O unit :=
  match file with
  | None => ret tt
  | Some f =>
      let! valid := validateFile f in
      if negb valid then ret tt else
      showProcessing true >>
      hideResults >>
      hideError >>
      finally
        (try_catch
           (track "ocr_file_upload"
              [("file_size", VNum (size f)); ("file_type", VStr (type f));
               ("include_details", VBool includeDetails)] >>
            let! w := get_self in
            let! response := fetch (upload_request (apiUrl w)) o in
            let! result := json_of response in
            if truthy (success result) then
              displayResults result >>
              addToHistory result
            else
              showError (if JsString.truthy_str (message result)
                         then default "" (message result)
                         else "Processing failed"))
           (fun error =>
              showError "Failed to process document. Please try again." >>
              track "error"
                [("message", VStr (match error with
                                   | Error m | TypeError m | SyntaxError m
                                   | NetworkError m => m
                                   end));
                 ("context", VObj [("context", VStr "ocr_file_upload")])]))
        (showProcessing false)
  end.

(** [new OCRTool()]: the fields, with the history read from the storage,
    and the history rendered.  The request of [loadLanguages] for the list
    of languages is left out. *)
Definition new (an : option string) (d : Dom) : Browser -> Res unit * t * Browser :=
  fun b =>
    let blank := mk "https://api.vikasyadav.live" (10 * 1024 * 1024)
                    ["image/jpeg"; "image/png"; "image/webp"; "image/tiff"; "application/pdf"]
                    (VArr []) an d in
    (let! h := loadProcessingHistory in
     modify_self (set_processingHistory h) >>
     renderProcessingHistory) blank b.

End Code.

End OCRTool.

(** ** The OCR tool: processing of an image address ([app.js], second part) *)

Module OCRToolUrl.
Import OCRTool.

Section Code.
Context `{Platform}.

Definition url_request (api imageUrl : string) (includeDetails : bool) : Request :=
  mkRequest (api +:+ "/api/ocr/extract-url") "POST" json_headers
    (JsonBody (VObj [("imageUrl", VStr imageUrl);
                     ("includeDetails", VBool includeDetails)])).

(** [handleUrlProcessing(e)]; [image_url] is the [value] of [#image-url]
    and [include_details] the [checked] of [#include-details], [None] when
    the page has no such element; [o] is the answer of the endpoint. *)
Definition handleUrlProcessing (image_url : option string) (include_details : option bool)
    (o : Outcome Result) : M t unit :=
  match image_url with
  | None => throw (TypeError "Cannot read properties of null: value")
  | Some v =>
      let imageUrl := JsString.trim v in
      if negb (JsString.nonempty imageUrl) then ret tt else
      showProcessing true >>
      hideResults >>
      hideError >>
      finally
        (try_catch
           (let! w := get_self in
            let! request :=
              lift (match include_details with
                    | Some checked => Ret (url_request (apiUrl w) imageUrl checked)
                    | None => Throw (TypeError "Cannot read properties of null: checked")
                    end) in
            let! response := fetch request o in
            let! result := json_of response in
            if truthy (success result) then
              displayResults result >>
              addToHistory result
            else
              showError (if JsString.truthy_str (message result)
                         then default "" (message result)
                         else "Processing failed"))
           (fun _ => showError "Failed to process image URL. Please try again."))
        (showProcessing false)
  end.

End Code.

End OCRToolUrl.

(** ** The Scholar widget: what it shows ([blog.js], second part) *)

Module ScholarStatsView.
Import ScholarStatsWidget.

(** [recentPercentage]: 100, or [Math.round((recent / all) * 100)], which
    is kept as the expression of its two operands. *)
Inductive Percentage : Type :=
| Hundred
| RoundedRatio (recent all : value).

(** The three numbers of one face of the card, as the values that the
    template interpolates. *)
Record Stats : Type := mkStats {
  citations : value;
  h_index : value;
  i10_index : value
}.

(** The content of the container: what the page had, the loading
    indicator, the error notice, or the card.  The card is given by what
    the template interpolates; its counters start at 0 and are animated
    towards these values by timers, which are left out, as is the flipping
    of the card. *)
Inductive Content : Type :=
| Page (html : string)
| Loading
| Unavailable
| Card (allMetrics : Stats) (sinceYear : string) (sinceMetrics : Stats)
       (recentPercentage : Percentage).

(** [s.replace(pat, rep)] for a string [pat] that is not empty: the first
    occurrence is replaced. *)
Fixpoint replace_first (pat rep s : string) : string :=
  if String.prefix pat s
  then rep +:+ String.substring (String.length pat) (String.length s - String.length pat) s
  else match s with
       | String c s' => String c (replace_first pat rep s')
       | EmptyString => EmptyString
       end.

(** [Object.keys(metrics).filter(key => key.startsWith('Since'))[0] || 'Since 2020']
    for an object given by its properties *)
Definition since_key (fields : list (string * value)) : string :=
  default "Since 2020"
    (head (List.filter (fun k => JsString.startsWith k "Since") (map fst fields))).

(** [v.citations], [v.h_index] and [v.i10_index] *)
Definition stats_of (v : value) : Res Stats :=
  match prop v "citations", prop v "h_index", prop v "i10_index" with
  | Ret c, Ret h, Ret i => Ret (mkStats c h i)
  | Throw e, _, _ | _, Throw e, _ | _, _, Throw e => Throw e
  end.

Section Code.
Context `{Platform}.

(** The card of [render(container, metrics)], or the error that the
    function throws before it writes to the container. *)
Definition render_card (metrics : value) : Res Content :=
  match metrics with
  | VUndef | VNull => Throw (TypeError "Cannot read properties of null or undefined: All")
  | _ =>
      let allMetrics := optprop metrics "All" in
      let sinceKey :=
        match metrics with
        | VObj fields => since_key fields
        | _ => "Since 2020"
        end in
      let sinceMetrics := optprop metrics sinceKey in
      let sinceYear := replace_first "Since " "" sinceKey in
      match prop allMetrics "citations" with
      | Throw e => Throw e
      | Ret all_citations =>
          let recentPercentage :=
            if JsNumber.gt (ToNumber all_citations) (Some 0) then
              match prop sinceMetrics "citations" with
              | Ret recent => Ret (RoundedRatio recent all_citations)
              | Throw e => Throw e
              end
            else Ret Hundred in
          match recentPercentage, stats_of allMetrics, stats_of sinceMetrics with
          | Ret p, Ret all, Ret since => Ret (Card all sinceYear since p)
          | Throw e, _, _ | _, Throw e, _ | _, _, Throw e => Throw e
          end
      end
  end.

(** A method of the widget, which has no state of its own, run beside the
    container. *)
Definition widget {A} (m : M unit A) : M (option Content) A :=
  fun container b =>
    match m tt b with
    | (r, _, b') => (r, container, b')
    end.

(** [render(container, metrics)] *)
Definition render (metrics : value) : M (option Content) unit :=
  let! card := lift (render_card metrics) in
  put_self (Some card).

(** [init()]; the state is the content of the element [#containerId], if
    the page has it; [net i] is the answer to the (i+1)-th request. *)
Definition init (this : t) (net : nat -> Outcome value) : M (option Content) unit :=
  let! container := get_self in
  match container with
  | None => ret tt
  | Some _ =>
      put_self (Some Loading) >>
      try_catch
        (let! metrics := widget (fetchStats this net) in
         render metrics)
        (fun _ => put_self (Some Unavailable))
  end.

End Code.

End ScholarStatsView.

(** ** The analytics tracker ([analytics.js]) *)

Module Analytics.

(** What [track] reads of the page and of the browser. *)
Record Env : Type := mkEnv {
  href : string;              (** [window.location.href] *)
  doc_title : string;         (** [document.title] *)
  doc_referrer : string;      (** [document.referrer] *)
  userAgent : string;
  screen_width : Z;
  screen_height : Z;
  innerWidth : Z;
  innerHeight : Z;
  timeZone : string           (** of [Intl.DateTimeFormat().resolvedOptions()] *)
}.

(** The argument of [init]. *)
Record Config : Type := mkConfig {
  config_apiUrl : option string;
  config_autoTrack : option bool
}.

(** The fields of the tracker, followed by what the browser holds for it:
    the events whose request is started and not settled (their
    [sendEvent] is suspended at its [await]), in the order of the requests,
    and the calls of [navigator.sendBeacon]. *)
Record t : Type := mk {
  apiUrl : string;
  sessionId : string;
  autoTrack : bool;
  queue : list value;
  isOnline : bool;
  awaiting : list value;
  beacons : list (string * value)
}.

Definition set_queue (q : list value) (a : t) : t :=
  mk (apiUrl a) (sessionId a) (autoTrack a) q (isOnline a) (awaiting a) (beacons a).

Definition set_isOnline (o : bool) (a : t) : t :=
  mk (apiUrl a) (sessionId a) (autoTrack a) (queue a) o (awaiting a) (beacons a).

Definition set_awaiting (l : list value) (a : t) : t :=
  mk (apiUrl a) (sessionId a) (autoTrack a) (queue a) (isOnline a) l (beacons a).

Definition set_beacons (l : list (string * value)) (a : t) : t :=
  mk (apiUrl a) (sessionId a) (autoTrack a) (queue a) (isOnline a) (awaiting a) l.

(** [this.queue.push(event)] *)
Definition push (event : value) (a : t) : t := set_queue (queue a ++ [event]) a.

Section Code.
Context `{Platform}.

Local Abbreviation A := (M t).

(** [new Analytics()] at a browser that is online or not; [draw] numbers
    the call of [Math.random].  The listeners that [bindEvents] installs
    are the functions [online], [offline], [visibilitychange] and
    [beforeunload] below. *)
Definition new (draw : nat) (onLine : bool) (b : Browser) : t :=
  mk "" ("session_" +:+ pretty (now b) +:+ "_" +:+ random_suffix draw) false [] onLine [] [].

(** [{...data, user_agent, screen_resolution, viewport_size, timezone}]
    for an object [data] given by its properties: a property that [data]
    has keeps its place and gets the new value. *)
Definition additional_data (env : Env) (data : list (string * value))
    : list (string * value) :=
  RefPlatform.set_field "timezone" (VStr (timeZone env))
    (RefPlatform.set_field "viewport_size"
       (VStr (pretty (innerWidth env) +:+ "x" +:+ pretty (innerHeight env)))
       (RefPlatform.set_field "screen_resolution"
          (VStr (pretty (screen_width env) +:+ "x" +:+ pretty (screen_height env)))
          (RefPlatform.set_field "user_agent" (VStr (userAgent env)) data))).

(** The event that [track] builds. *)
Definition event_of (env : Env) (eventType : string) (data : list (string * value))
    (sid : string) (t_now : Z) : value :=
  VObj [("event_type", VStr eventType);
        ("page_url", VStr (href env));
        ("timestamp", VStr (toISOString t_now));
        ("session_id", VStr sid);
        ("additional_data", VObj (additional_data env data))].

Definition event_request (api sid : string) (event : value) : Request :=
  mkRequest (api +:+ "/api/analytics/track") "POST"
    [("Content-Type", "application/json"); ("X-Session-ID", sid)]
    (JsonBody event).

(** [sendEvent(event)] up to its [await]: the request is started. *)
Definition sendEvent (event : value) : A unit :=
  fun a b =>
    (Ret tt, set_awaiting (awaiting a ++ [event]) a,
     emit (EvFetch (event_request (apiUrl a) (sessionId a) event)) b).

(** The rest of [sendEvent(event)], for the [n]-th of the requests that
    are not settled: nothing when the request is fulfilled, the [catch]
    block when it is rejected. *)
Definition settle (n : nat) (rejected : bool) : A unit :=
  let! a := get_self in
  match awaiting a !! n with
  | Some event =>
      modify_self (set_awaiting (delete n (awaiting a))) >>
      if rejected then modify_self (push event) else ret tt
  | None => ret tt
  end.

(** [track(eventType, data)] *)
Definition track (env : Env) (eventType : string) (data : list (string * value)) : A unit :=
  let! a := get_self in
  let! t_now := Date_now in
  let event := event_of env eventType data (sessionId a) t_now in
  if isOnline a && JsString.nonempty (apiUrl a) then sendEvent event
  else modify_self (push event).

(** [events.forEach(event => this.sendEvent(event))] *)
Fixpoint send_all (events : list value) : A unit :=
  match events with
  | [] => ret tt
  | event :: rest => sendEvent event >> send_all rest
  end.

(** [processQueue()] *)
Definition processQueue : A unit :=
  let! a := get_self in
  if negb (isOnline a) || negb (JsString.nonempty (apiUrl a))
     || (length (queue a) =? 0)%nat
  then ret tt
  else
    let events := queue a in
    modify_self (set_queue []) >>
    send_all events.

(** [flush()] *)
Definition flush : A unit :=
  let! a := get_self in
  if (0 <? length (queue a))%nat && isOnline a && JsString.nonempty (apiUrl a) then
    modify_self (set_beacons
      (beacons a ++ [(apiUrl a +:+ "/api/analytics/track",
                      VObj [("events", VArr (queue a));
                            ("session_id", VStr (sessionId a))])]))
  else ret tt.

(** [startAutoTracking()]: the page view.  The listeners for clicks,
    submissions and scrolling and the timer that it installs call [track]
    later. *)
Definition startAutoTracking (env : Env) : A unit :=
  track env "page_view"
    [("url", VStr (href env)); ("title", VStr (doc_title env));
     ("referrer", VStr (doc_referrer env))].

(** [init(config)] *)
Definition init (config : Config) (env : Env) : A unit :=
  modify_self (fun a =>
    mk (if JsString.truthy_str (config_apiUrl config)
        then default "" (config_apiUrl config)
        else "https://api.vikasyadav.live")
       (sessionId a) (default false (config_autoTrack config))
       (queue a) (isOnline a) (awaiting a) (beacons a)) >>
  let! a := get_self in
  (if autoTrack a then startAutoTracking env else ret tt) >>
  processQueue.

(** The listeners of [bindEvents]. *)
Definition online : A unit :=
  modify_self (set_isOnline true) >>
  processQueue.

Definition offline : A unit :=
  modify_self (set_isOnline false).

Definition visibilitychange (env : Env) (hidden : bool) : A unit :=
  if hidden then track env "page_hidden" [] else track env "page_visible" [].

Definition beforeunload (env : Env) : A unit :=
  track env "page_unload" [] >>
  flush.

(** [trackCustomEvent(eventName, properties)] and
    [trackExperiment(experimentName, variant)] *)
Definition trackCustomEvent (env : Env) (eventName : string)
    (properties : list (string * value)) : A unit :=
  track env ("custom_" +:+ eventName) properties.

Definition trackExperiment (env : Env) (experimentName variant : value) : A unit :=
  track env "experiment" [("experiment", experimentName); ("variant", variant)].

(** [error.message] *)
Definition error_message (error : JsError) : string :=
  match error with
  | Error m | TypeError m | SyntaxError m | NetworkError m => m
  end.

(** [trackError(error, context)] for an error that was thrown; [stack] is
    its [stack], a text that the engine writes. *)
Definition trackError (env : Env) (stack : value) (error : JsError)
    (context : list (string * value)) : A unit :=
  track env "error"
    [("message", VStr (error_message error)); ("stack", stack);
     ("context", VObj context)].

End Code.

End Analytics.

(** ** The application controller: the newsletter form ([app.js], first part) *)

Module Newsletter.

(** [#newsletter-message]: the notice that it shows, as type and text,
    and its [style.display]. *)
Record MessageEl : Type := mkMessageEl {
  notice : option (string * string);
  display : string
}.

(** The submit input of the form. *)
Record Submit : Type := mkSubmit {
  submit_value : string;
  submit_disabled : bool
}.

(** The page: the address of the API, the [value] of the form's [email]
    field and the value that [reset] gives back to it, the submit input and
    the message element, each [None] when the page does not have it, and
    [window.Analytics] with what it reads of the page. *)
Record t : Type := mk {
  apiUrl : string;
  email : option string;
  email_default : string;
  submit : option Submit;
  message_el : option MessageEl;
  tracker : option Analytics.t;
  env : Analytics.Env
}.

Definition set_email (v : option string) (p : t) : t :=
  mk (apiUrl p) v (email_default p) (submit p) (message_el p) (tracker p) (env p).

Definition set_submit (s : option Submit) (p : t) : t :=
  mk (apiUrl p) (email p) (email_default p) s (message_el p) (tracker p) (env p).

Definition set_message_el (m : option MessageEl) (p : t) : t :=
  mk (apiUrl p) (email p) (email_default p) (submit p) m (tracker p) (env p).

Definition set_tracker (a : option Analytics.t) (p : t) : t :=
  mk (apiUrl p) (email p) (email_default p) (submit p) (message_el p) a (env p).

Definition subscription_request (api email : string) : Request :=
  mkRequest (api +:+ "/api/analytics/track") "POST" json_headers
    (JsonBody (VObj [("event_type", VStr "newsletter_subscription");
                     ("additional_data", VObj [("email", VStr email)])])).

Definition thanks : string :=
  "Thank you for subscribing! You'll receive updates about new posts and projects.".

Definition sorry : string := "Sorry, there was an error. Please try again later.".

Section Code.
Context `{Platform}.
(** [error.stack], a text that the engine writes *)
Variable stack_of : JsError -> value.

Local Abbreviation P := (M t).

(** [showMessage(element, message, type)] on [#newsletter-message]; the
    timer that hides the element after five seconds is not run. *)
Definition showMessage (message type : string) : P unit :=
  modify_self (fun p =>
    match message_el p with
    | Some _ => set_message_el (Some (mkMessageEl (Some (type, message)) "block")) p
    | None => p
    end).

(** [if (window.Analytics) { window.Analytics.m(...) }] for a method [m]
    of the tracker *)
Definition with_tracker (m : Analytics.Env -> M Analytics.t unit) : P unit :=
  fun p b =>
    match tracker p with
    | Some a =>
        match m (env p) a b with
        | (r, a', b') => (r, set_tracker (Some a') p, b')
        end
    | None => (Ret tt, p, b)
    end.

(** [form.querySelector('input[type="submit"]')] followed by the
    assignments to its [value] and [disabled] *)
Definition set_submit_button (value : string) (disabled : bool) : P unit :=
  let! p := get_self in
  match submit p with
  | Some _ => put_self (set_submit (Some (mkSubmit value disabled)) p)
  | None => throw (TypeError "Cannot read properties of null: value")
  end.

(** [handleNewsletterSubscription(e)]; [o] is the answer of the endpoint.
    The first characters of the message of thanks, an emoji, are left
    out. *)
Definition handleNewsletterSubscription (o : Outcome value) : P unit :=
  let! p := get_self in
  match email p with
  | None => throw (TypeError "Cannot read properties of undefined: value")
  | Some v =>
      let email := JsString.trim v in
      if negb (JsString.nonempty email) then
        showMessage "Please enter a valid email address." "error"
      else
        finally
          (try_catch
             (set_submit_button "Subscribing..." true >>
              with_tracker (fun env =>
                Analytics.track env "newsletter_subscription_attempt"
                  [("email", VStr email)]) >>
              let! p := get_self in
              let! response := fetch (subscription_request (apiUrl p) email) o in
              if ok response then
                showMessage thanks "success" >>
                modify_self (fun p => set_email (Some (email_default p)) p) >>
                with_tracker (fun env =>
                  Analytics.track env "newsletter_subscription_success"
                    [("email", VStr email)])
              else throw (Error "Subscription failed"))
             (fun error =>
                showMessage sorry "error" >>
                with_tracker (fun env =>
                  Analytics.trackError env (stack_of error) error
                    [("context", VStr "newsletter_subscription")])))
          (set_submit_button "Subscribe" false)
  end.

End Code.

End Newsletter.

(** ** The application controller: the content that it loads ([app.js], first part) *)

Module DynamicContent.

(** The content of a container: whether what the page had is still
    there, and the elements appended since. *)
Record Container (A : Type) : Type := mkContainer {
  original : bool;
  children : list A
}.
Arguments mkContainer {A}.
Arguments original {A}.
Arguments children {A}.

(** The elements that the three renderers append, given by the values
    that their templates interpolate.  The link to GitHub and the link of
    a portfolio item are there when [github_url] and [url] are truthy. *)
Record PostArticle : Type := mkPostArticle {
  post_slug : value;
  post_image : value;
  post_title : value;
  post_excerpt : value;
  post_category : value;
  post_date : string
}.

Record ProjectArticle : Type := mkProjectArticle {
  project_id : value;
  project_image : value;
  project_title : value;
  project_description : value;
  project_technologies : list value;
  project_github : option value
}.

Record PortfolioItem : Type := mkPortfolioItem {
  item_image : value;
  item_title : value;
  item_description : value;
  item_url : option value
}.

(** The address of the API and the three containers, [None] when the
    page does not have them. *)
Record t : Type := mk {
  apiUrl : string;
  latest_posts : option (Container PostArticle);
  featured_projects : option (Container ProjectArticle);
  portfolio_grid : option (Container PortfolioItem)
}.










Section Code.
Context `{Platform}.
(** [new Date(v).toLocaleDateString()], which depends on the locale *)
Variable toLocaleDateString : value -> string.

Local Abbreviation P := (M t).













End Code.

End DynamicContent.

(** * Properties *)

(** ** The reference platform runs *)

Example parse_stringify_entry :
  let entry := VObj [("metrics", VObj [("All", VObj [("citations", VNum 12)])]);
                     ("timestamp", VNum 1700000000000);
                     ("cached_at", VStr (RefPlatform.iso 1700000000000))] in
  RefPlatform.iso 1700000000000 = "2023-11-14T22:13:20.000Z" /\
  RefPlatform.parse (RefPlatform.stringify entry) = Some entry /\
  RefPlatform.parse "{broken" = None /\
  RefPlatform.parse " [1, -20 , true,null ] "
  = Some (VArr [VNum 1; VNum (-20); VBool true; VNull]).
Proof. vm_compute. auto. Qed.

(** ** Sequencing *)

Module MonadFacts.

Lemma bind_ret {S A B} (m : M S A) (k : A -> M S B) s b a s' b' :
  m s b = (Ret a, s', b') -> bind m k s b = k a s' b'.
Proof. unfold bind. by intros ->. Qed.

Lemma bind_throw {S A B} (m : M S A) (k : A -> M S B) s b e s' b' :
  m s b = (Throw e, s', b') -> bind m k s b = (Throw e, s', b').
Proof. unfold bind. by intros ->. Qed.

End MonadFacts.
Import MonadFacts.

(** ** The Scholar widget: cache, retries and fallback *)

Module ScholarFacts.
Import ScholarStatsWidget.

Section Facts.
Context `{Platform}.
Variables options_apiUrl options_containerId : option string.

Local Abbreviation this := (new options_apiUrl options_containerId).
Local Abbreviation key := "scholar_stats_cache".

(** What one attempt yields, as a function of the answer of the network. *)
Definition attempt_result (o : Outcome value) : Res value :=
  match answer o with
  | inl e => Throw e
  | inr response =>
      if negb (ok response) then
        Throw (Error ("HTTP " +:+ pretty (status response) +:+ ": " +:+ statusText response))
      else
        match json response with
        | Some data => extract_metrics data
        | None => Throw (SyntaxError "Unexpected token in JSON")
        end
  end.

(** The metrics of the stored entry, whatever its age: the entry is there,
    it parses, and its [metrics] are truthy. *)
Definition stored_metrics (b : Browser) : option value :=
  match storage b !! key with
  | Some s =>
      match JSON_parse s with
      | Some data =>
          match prop data "metrics" with
          | Ret m => if truthy m then Some m else None
          | Throw _ => None
          end
      | None => None
      end
  | None => None
  end.

(** The age of the stored entry at the time of [b], when there is an entry
    that parses to something with a numeric time stamp. *)
Definition stored_age (b : Browser) : option Z :=
  match storage b !! key with
  | Some s =>
      match JSON_parse s with
      | Some data =>
          match prop data "timestamp" with
          | Ret ts =>
              match ToNumber ts with
              | Some t => Some (now b - t)
              | None => None
              end
          | Throw _ => None
          end
      | None => None
      end
  | None => None
  end.

(** A cached value is usable without a request: truthy metrics, younger
    than the cache duration. *)
Definition fresh_metrics (b : Browser) : option value :=
  match stored_age b with
  | Some age => if age <? 259200000 then stored_metrics b else None
  | None => None
  end.

(** The browser after one request that took [latency o]. *)
Definition requested (o : Outcome value) (b : Browser) : Browser :=
  mkBrowser (now b + latency o) (storage b)
            (trace b ++ [EvFetch (stats_request this (now b))]).

(** The browser after [cacheData m]. *)
Definition cached (m : value) (b : Browser) : Browser :=
  let entry := JSON_stringify (cache_entry m (now b)) in
  mkBrowser (now b) (<[key := entry]> (storage b)) (trace b ++ [EvSetItem key entry]).

(** The browser after a wait. *)
Definition waited (ms : Z) (b : Browser) : Browser :=
  mkBrowser (now b + ms) (storage b) (trace b ++ [EvSleep ms]).

(** Requests and waits of a trace, in order: [None] for a request, the
    delay for a wait. *)
Definition network_view (l : list Event) : list (option Z) :=
  omap (fun e => match e with
                 | EvFetch _ => Some None
                 | EvSleep ms => Some (Some ms)
                 | _ => None
                 end) l.

Definition requests (l : list Event) : nat :=
  length (List.filter (fun e => match e with EvFetch _ => true | _ => false end) l).

Lemma stored_parse_nonempty (s : string) (v : value) :
  JSON_parse s = Some v -> JsString.nonempty s = true.
Proof.
  destruct s; [|done]. rewrite JSON_parse_empty. discriminate.
Qed.

Lemma getCachedData_stale (s : unit) (b : Browser) :
  getCachedData this true s b
  = (Ret (default VNull (match storage b !! key with
                         | Some str =>
                             match JSON_parse str with
                             | Some data =>
                                 match prop data "metrics" with
                                 | Ret m => Some m
                                 | Throw _ => None
                                 end
                             | None => None
                             end
                         | None => None
                         end)), s, emit (EvGetItem key) b).
Proof.
  unfold getCachedData, try_catch, bind, getItem, parse, lift, ret, throw. simpl.
  destruct (storage b !! key) as [str|] eqn:E; simpl; [|done].
  destruct (JSON_parse str) as [data|] eqn:P.
  - rewrite (stored_parse_nonempty _ _ P). simpl.
    destruct (prop data "metrics"); done.
  - destruct (JsString.nonempty str); simpl; done.
Qed.

Lemma getCachedData_stale_truthy (s : unit) (b : Browser) :
  exists v, getCachedData this true s b = (Ret v, s, emit (EvGetItem key) b)
            /\ (if truthy v then Some v else None) = stored_metrics b.
Proof.
  eexists. split; [apply getCachedData_stale|].
  unfold stored_metrics.
  destruct (storage b !! key) as [str|]; simpl; [|done].
  destruct (JSON_parse str) as [data|]; simpl; [|done].
  destruct (prop data "metrics"); done.
Qed.

Lemma getCachedData_fresh (s : unit) (b : Browser) :
  exists v, getCachedData this false s b = (Ret v, s, emit (EvGetItem key) b)
            /\ (if truthy v then Some v else None) = fresh_metrics b.
Proof.
  unfold getCachedData, try_catch, bind, getItem, parse, lift, ret, throw,
    Date_now, fresh_metrics, stored_age, stored_metrics, is_fresh. simpl.
  destruct (storage b !! key) as [str|] eqn:E; simpl;
    [|eexists; split; [reflexivity|done]].
  destruct (JSON_parse str) as [data|] eqn:P.
  - rewrite (stored_parse_nonempty _ _ P). simpl.
    destruct (prop data "timestamp") as [ts|e]; simpl;
      [|eexists; split; [reflexivity|done]].
    destruct (ToNumber ts) as [t|]; simpl;
      [|eexists; split; [reflexivity|done]].
    change (3 * 24 * 60 * 60 * 1000) with 259200000.
    destruct (now b - t <? 259200000); simpl;
      [|eexists; split; [reflexivity|done]].
    destruct (prop data "metrics") as [m|e]; simpl;
      eexists; (split; [reflexivity|done]).
  - destruct (JsString.nonempty str); simpl;
      eexists; (split; [reflexivity|done]).
Qed.

Lemma cacheData_run (m : value) (s : unit) (b : Browser) :
  cacheData this m s b = (Ret tt, s, cached m b).
Proof. reflexivity. Qed.

Lemma attempt_run (o : Outcome value) (s : unit) (b : Browser) :
  attempt this o s b
  = match attempt_result o with
    | Ret m => (Ret m, s, cached m (requested o b))
    | Throw e => (Throw e, s, requested o b)
    end.
Proof.
  unfold attempt, attempt_result, bind, Date_now, fetch, json_of, lift, ret, throw.
  simpl. destruct (answer o) as [e|response]; [done|].
  destruct (ok response); simpl; [|done].
  destruct (json response) as [data|]; simpl; [|done].
  destruct (extract_metrics data); done.
Qed.

(** The last attempt: the stale entry, or the error of the attempt. *)
Lemma last_attempt_run (net : nat -> Outcome value) (s : unit) (b : Browser) :
  retry this net 1 3 s b
  = match attempt_result (net 2%nat) with
    | Ret m => (Ret m, s, cached m (requested (net 2%nat) b))
    | Throw e =>
        (match stored_metrics b with Some m => Ret m | None => Throw e end,
         s, emit (EvGetItem key) (requested (net 2%nat) b))
    end.
Proof.
  unfold retry, try_catch. rewrite attempt_run.
  change (Z.to_nat (3 - 1)) with 2%nat. simpl.
  destruct (attempt_result (net 2%nat)) as [m|e]; [done|].
  destruct (getCachedData_stale_truthy s (requested (net 2%nat) b)) as (v & Hrun & Hv).
  rewrite (bind_ret _ _ _ _ _ _ _ Hrun).
  change (stored_metrics (requested (net 2%nat) b)) with (stored_metrics b) in Hv.
  rewrite <- Hv. by destruct (truthy v).
Qed.

(** The loop of [fetchStats] from its first attempt. *)
Lemma retry_run (net : nat -> Outcome value) (s : unit) (b : Browser) :
  let b1 := waited (1000 * 1) (requested (net 0%nat) b) in
  let b2 := waited (1000 * 2) (requested (net 1%nat) b1) in
  retry this net 3 1 s b
  = match attempt_result (net 0%nat) with
    | Ret m => (Ret m, s, cached m (requested (net 0%nat) b))
    | Throw _ =>
        match attempt_result (net 1%nat) with
        | Ret m => (Ret m, s, cached m (requested (net 1%nat) b1))
        | Throw _ => retry this net 1 3 s b2
        end
    end.
Proof.
  intros b1 b2.
  change (retry this net 3 1 s b) with
    (try_catch (attempt this (net 0%nat))
       (fun error => sleep (1000 * 1) >> retry this net 2 2) s b).
  unfold try_catch at 1. rewrite attempt_run.
  destruct (attempt_result (net 0%nat)) as [m|e]; [done|].
  change ((sleep (1000 * 1) >> retry this net 2 2) s (requested (net 0%nat) b))
    with (retry this net 2 2 s b1).
  change (retry this net 2 2 s b1) with
    (try_catch (attempt this (net 1%nat))
       (fun error => sleep (1000 * 2) >> retry this net 1 3) s b1).
  unfold try_catch at 1. rewrite attempt_run.
  destruct (attempt_result (net 1%nat)) as [m|e']; done.
Qed.

Lemma fetchStats_no_fresh (net : nat -> Outcome value) (b : Browser) :
  fresh_metrics b = None ->
  fetchStats this net tt b = retry this net 3 1 tt (emit (EvGetItem key) b).
Proof.
  intros Hfresh. unfold fetchStats.
  destruct (getCachedData_fresh tt b) as (v & Hrun & Hv).
  rewrite (bind_ret _ _ _ _ _ _ _ Hrun). rewrite Hfresh in Hv.
  destruct (truthy v); [discriminate|]. reflexivity.
Qed.

Lemma fetchStats_fresh (net : nat -> Outcome value) (b : Browser) (m : value) :
  fresh_metrics b = Some m ->
  fetchStats this net tt b = (Ret m, tt, emit (EvGetItem key) b).
Proof.
  intros Hfresh. unfold fetchStats.
  destruct (getCachedData_fresh tt b) as (v & Hrun & Hv).
  rewrite (bind_ret _ _ _ _ _ _ _ Hrun). rewrite Hfresh in Hv.
  destruct (truthy v); [|discriminate]. by injection Hv as ->.
Qed.

(** The entry is missing, does not parse, or is three days old or older. *)
Definition stale_or_missing (b : Browser) : Prop :=
  storage b !! key = None
  \/ (exists s, storage b !! key = Some s /\ JSON_parse s = None)
  \/ (exists age, stored_age b = Some age /\ 259200000 <= age).

Lemma stale_or_missing_not_fresh (b : Browser) :
  stale_or_missing b -> fresh_metrics b = None.
Proof.
  unfold fresh_metrics, stored_age.
  intros [Hnone | [(s & Hs & Hparse) | (age & Hage & Hold)]].
  - by rewrite Hnone.
  - by rewrite Hs, Hparse.
  - unfold stored_age in Hage. rewrite Hage.
    destruct (age <? 259200000) eqn:E; [lia|done].
Qed.

(** C1 (amended).  With no fresh cached value, [fetchStats] makes at most
    three requests and waits 1000 ms times the number of the attempt between
    two of them; the first attempt that succeeds gives the result; when all
    three fail, the result is the metrics of the stored entry if that entry
    parses and has truthy metrics, and otherwise the error of the third
    attempt is thrown. *)
Theorem fetchStats_retries_then_falls_back (net : nat -> Outcome value) (b : Browser) :
  fresh_metrics b = None ->
  exists r b' events,
    fetchStats this net tt b = (r, tt, b')
    /\ trace b' = trace b ++ events
    /\ (requests events <= 3)%nat
    /\ match attempt_result (net 0%nat) with
       | Ret m => r = Ret m /\ network_view events = [None]
       | Throw _ =>
           match attempt_result (net 1%nat) with
           | Ret m => r = Ret m /\ network_view events = [None; Some (1000 * 1); None]
           | Throw _ =>
               network_view events = [None; Some (1000 * 1); None; Some (1000 * 2); None]
               /\ match attempt_result (net 2%nat) with
                  | Ret m => r = Ret m
                  | Throw e =>
                      r = match stored_metrics b with
                          | Some m => Ret m
                          | None => Throw e
                          end
                  end
           end
       end.
Proof.
  intros Hfresh. rewrite (fetchStats_no_fresh net b Hfresh), retry_run.
  destruct (attempt_result (net 0%nat)) as [m0|e0].
  { eexists _, _, _. split; [reflexivity|]. simpl. rewrite <- !app_assoc.
    split; [reflexivity|]. split; [unfold requests; simpl; lia|done]. }
  destruct (attempt_result (net 1%nat)) as [m1|e1].
  { eexists _, _, _. split; [reflexivity|]. simpl. rewrite <- !app_assoc.
    split; [reflexivity|]. split; [unfold requests; simpl; lia|done]. }
  rewrite last_attempt_run.
  destruct (attempt_result (net 2%nat)) as [m2|e2].
  { eexists _, _, _. split; [reflexivity|]. simpl. rewrite <- !app_assoc.
    split; [reflexivity|]. split; [unfold requests; simpl; lia|done]. }
  eexists _, _, _. split; [reflexivity|]. simpl. rewrite <- !app_assoc.
  split; [reflexivity|]. split; [unfold requests; simpl; lia|done].
Qed.

(** C2 (amended).  An entry that parses, has truthy metrics and is younger
    than three days is returned without a request: the only event is the
    read of the storage.  When the entry is missing, does not parse or is
    three days old or older, the storage is read and a request is sent;
    the first attempt that succeeds gives the result and its metrics are
    stored under the key with the time of the store as time stamp. *)
Theorem fetchStats_cache_policy (net : nat -> Outcome value) (b : Browser) :
  (forall age m,
     stored_age b = Some age -> age < 259200000 -> stored_metrics b = Some m ->
     fetchStats this net tt b = (Ret m, tt, emit (EvGetItem key) b))
  /\ (stale_or_missing b ->
      exists r b' events,
        fetchStats this net tt b = (r, tt, b')
        /\ trace b' = trace b ++ [EvGetItem key; EvFetch (stats_request this (now b))] ++ events
        /\ forall i m,
             (i < 3)%nat ->
             (forall j, (j < i)%nat -> exists e, attempt_result (net j) = Throw e) ->
             attempt_result (net i) = Ret m ->
             r = Ret m
             /\ storage b' !! key = Some (JSON_stringify (cache_entry m (now b')))).
Proof.
  split.
  - intros age m Hage Hyoung Hm. apply fetchStats_fresh.
    unfold fresh_metrics. rewrite Hage.
    destruct (age <? 259200000) eqn:E; [done|lia].
  - intros Hstale.
    rewrite (fetchStats_no_fresh net b (stale_or_missing_not_fresh b Hstale)), retry_run.
    destruct (attempt_result (net 0%nat)) as [m0|e0] eqn:E0.
    { eexists _, _, _. split; [reflexivity|]. simpl. rewrite <- !app_assoc.
      split; [reflexivity|]. intros i m Hi Hprev Hok.
      destruct i as [|i].
      - rewrite E0 in Hok. injection Hok as ->. split; [done|].
        simpl. by rewrite lookup_insert_eq.
      - destruct (Hprev 0%nat ltac:(lia)) as [e He]. congruence. }
    destruct (attempt_result (net 1%nat)) as [m1|e1] eqn:E1.
    { eexists _, _, _. split; [reflexivity|]. simpl. rewrite <- !app_assoc.
      split; [reflexivity|]. intros i m Hi Hprev Hok.
      destruct i as [|[|i]].
      - congruence.
      - rewrite E1 in Hok. injection Hok as ->. split; [done|].
        simpl. by rewrite lookup_insert_eq.
      - destruct (Hprev 1%nat ltac:(lia)) as [e He]. congruence. }
    rewrite last_attempt_run.
    destruct (attempt_result (net 2%nat)) as [m2|e2] eqn:E2.
    { eexists _, _, _. split; [reflexivity|]. simpl. rewrite <- !app_assoc.
      split; [reflexivity|]. intros i m Hi Hprev Hok.
      destruct i as [|[|[|i]]]; [congruence|congruence| |lia].
      rewrite E2 in Hok. injection Hok as ->. split; [done|].
      simpl. by rewrite lookup_insert_eq. }
    eexists _, _, _. split; [reflexivity|]. simpl. rewrite <- !app_assoc.
    split; [reflexivity|]. intros i m Hi Hprev Hok.
    destruct i as [|[|[|i]]]; [congruence|congruence|congruence|lia].
Qed.

End Facts.

(** *** Runs on the reference platform *)

Local Existing Instance RefPlatform.platform.

Definition net_down : nat -> Outcome value :=
  fun _ => mkOutcome 40 (inl (NetworkError "Failed to fetch")).

Definition metrics0 : value :=
  VObj [("All", VObj [("citations", VNum 120); ("h_index", VNum 6)]);
        ("Since 2020", VObj [("citations", VNum 80); ("h_index", VNum 5)])].

(** The endpoint answers with the metrics in a string, after 300 ms. *)
Definition net_up : nat -> Outcome value :=
  fun _ => mkOutcome 300
    (inr (mkResponse true 200 "OK"
            (Some (VObj [("success", VBool true);
                         ("response",
                          VStr (JSON_stringify
                                  (VArr [VObj [("output", VObj [("metrics", metrics0)])]])))])))).

Definition day : Z := 24 * 60 * 60 * 1000.

(** An entry written four days before the time of the browser. *)
Definition old_store : Browser :=
  mkBrowser 1700000000000
    {[ "scholar_stats_cache" := JSON_stringify (cache_entry metrics0 (1700000000000 - 4 * day)) ]}
    [].

(** An entry written one hour before. *)
Definition young_store : Browser :=
  mkBrowser 1700000000000
    {[ "scholar_stats_cache" := JSON_stringify (cache_entry metrics0 (1700000000000 - 3600000)) ]}
    [].

(** An entry that is not JSON. *)
Definition broken_store : Browser :=
  mkBrowser 1700000000000 {[ "scholar_stats_cache" := "{broken" ]} [].

(** An entry of the current time that holds no metrics. *)
Definition empty_entry_store : Browser :=
  mkBrowser 1700000000000
    {[ "scholar_stats_cache" := JSON_stringify (VObj [("timestamp", VNum 1700000000000)]) ]}
    [].

(** C1, counterexample.  An entry exists under the key but is not JSON, and
    the three attempts fail: the error of the last attempt is thrown, no
    cached metrics are returned. *)
Lemma fetchStats_unparsable_entry_throws :
  storage broken_store !! "scholar_stats_cache" = Some "{broken"
  /\ (forall i, attempt_result (net_down i) = Throw (NetworkError "Failed to fetch"))
  /\ (fetchStats (new None None) net_down tt broken_store).1.1
     = Throw (NetworkError "Failed to fetch").
Proof. split; [|split]; [vm_compute; reflexivity | reflexivity | vm_compute; reflexivity]. Qed.

(** C1, witness: a four days old entry and a network that is down. *)
Lemma fetchStats_retries_then_falls_back_witness :
  fresh_metrics old_store = None
  /\ exists b',
      fetchStats (new None None) net_down tt old_store = (Ret metrics0, tt, b')
      /\ network_view (trace b') = [None; Some 1000; None; Some 2000; None].
Proof.
  split; [vm_compute; reflexivity|].
  destruct (fetchStats_retries_then_falls_back None None net_down old_store)
    as (r & b' & events & Hrun & Htrace & _ & Hview & Hr);
    [vm_compute; reflexivity|].
  exists b'. rewrite Hrun. simpl in Hr. rewrite Hr.
  split; [vm_compute; reflexivity|].
  rewrite Htrace. exact Hview.
Defined.

(** C2, counterexample.  The entry is of the current time, so its age is 0,
    but it holds no metrics: a request is sent. *)
Lemma fetchStats_young_entry_without_metrics_fetches :
  stored_age empty_entry_store = Some 0
  /\ exists b',
      fetchStats (new None None) net_up tt empty_entry_store = (Ret metrics0, tt, b')
      /\ requests (trace b') = 1%nat.
Proof.
  split; [vm_compute; reflexivity|].
  eexists. split; vm_compute; reflexivity.
Qed.

(** C2, witness: a young entry is served from the cache; an old one is
    replaced by the answer of the endpoint. *)
Lemma fetchStats_cache_policy_witness :
  fetchStats (new None None) net_up tt young_store
  = (Ret metrics0, tt, emit (EvGetItem "scholar_stats_cache") young_store)
  /\ exists b',
      fetchStats (new None None) net_up tt old_store = (Ret metrics0, tt, b')
      /\ storage b' !! "scholar_stats_cache"
         = Some (JSON_stringify (cache_entry metrics0 (1700000000000 + 300))).
Proof.
  destruct (fetchStats_cache_policy None None net_up young_store) as [Hyoung _].
  destruct (fetchStats_cache_policy None None net_up old_store) as [_ Hold].
  split.
  - apply (Hyoung 3600000 metrics0); [vm_compute; reflexivity | lia | vm_compute; reflexivity].
  - destruct Hold as (r & b' & events & Hrun & Htrace & Hstore).
    { right. right. exists (4 * day). split; [vm_compute; reflexivity | unfold day; lia]. }
    destruct (Hstore 0%nat metrics0) as [Hr Hs];
      [lia | intros j Hj; lia | vm_compute; reflexivity |].
    exists b'. rewrite Hrun, Hr. split; [reflexivity|].
    rewrite Hs. f_equal. f_equal. f_equal.
    assert (Hnow : fetchStats (new None None) net_up tt old_store
                   = (Ret metrics0, tt, b')) by (by rewrite Hrun, Hr).
    vm_compute in Hnow. injection Hnow as <-. reflexivity.
Defined.

End ScholarFacts.

(** ** The blog loader: filtering, fetching and pagination *)

Module BlogFacts.
Import Blog.

(** The selection of [filterPosts] in the words of its description: the
    idea is there and not empty after trimming, and the status, lowercased
    and trimmed, with a missing status read as the empty string, is [ready]
    or [posted]. *)
Definition selected (post : Post) : Prop :=
  match post !! "idea" with
  | Some idea => JsString.trim idea <> ""
  | None => False
  end
  /\ let status :=
       JsString.trim (JsString.toLowerCase (default "" (post !! "status"))) in
     status = "ready" \/ status = "posted".

#[local] Instance selected_dec (post : Post) : Decision (selected post).
Proof. unfold selected. destruct (post !! "idea"); apply _. Defined.

Lemma nonempty_false (s : string) : JsString.nonempty s = false -> s = "".
Proof. by destruct s. Qed.

Lemma valid_post_selected (post : Post) : valid_post post = true <-> selected post.
Proof.
  unfold valid_post, selected.
  destruct (post !! "idea") as [idea|]; simpl.
  2:{ split; [done|]. by intros [[] _]. }
  destruct (JsString.nonempty idea) eqn:Hne; simpl.
  2:{ apply nonempty_false in Hne as ->. split; [done|].
      intros [Htrim _]. by destruct Htrim. }
  destruct (String.eqb_spec (JsString.trim idea) "") as [Hempty|Hfilled].
  { split; [done|]. by intros [Htrim _]. }
  assert (Hstatus :
    (match post !! "status" with
     | Some st => if JsString.nonempty st then st else ""
     | None => ""
     end) = default "" (post !! "status")).
  { destruct (post !! "status") as [st|]; [|done]. simpl.
    destruct (JsString.nonempty st) eqn:E; [done|]. by apply nonempty_false in E as ->. }
  rewrite Hstatus. rewrite bool_decide_eq_true.
  unfold CONFIG.VALID_STATUSES. rewrite !elem_of_cons, elem_of_nil.
  split.
  - intros [?|[?|[]]]; (split; [done|]); auto.
  - intros [_ [?|?]]; auto.
Qed.

(** C8.  [filterPosts] returns the posts that are selected, in their
    order. *)
Theorem filterPosts_selects (posts : list Post) :
  filterPosts posts = filter selected posts.
Proof.
  unfold filterPosts. induction posts as [|post posts IH]; [done|].
  simpl. rewrite filter_cons, IH.
  destruct (decide (selected post)) as [Hs|Hn].
  - apply valid_post_selected in Hs. by rewrite Hs.
  - destruct (valid_post post) eqn:E; [|done].
    exfalso. apply Hn. by apply valid_post_selected.
Qed.

(** *** [api.fetchPosts] and [BlogLoader.init] *)

Section Fetch.
Context `{Platform}.

(** The body has no truthy [success]: it is not JSON, it is [null], or the
    property is falsy. *)
Definition lacks_success (r : Response Body) : Prop :=
  match json r with
  | Some (BodyOf success _) => truthy success = false
  | _ => True
  end.

(** [posts] is not an array (or there is no body to read it from). *)
Definition posts_not_array (r : Response Body) : Prop :=
  match json r with
  | Some (BodyOf _ (Some _)) => False
  | _ => True
  end.

(** The browser after the request for the posts. *)
Definition posts_requested (latency : Z) (b : Browser) : Browser :=
  mkBrowser (now b + latency) (storage b)
            (trace b ++ [EvFetch (mkRequest CONFIG.API_URL "GET" [] NoBody)]).

Lemma showError_run (message : string) (s : State) (b : Browser) :
  exists s',
    showError message s b = (Ret tt, s', b)
    /\ (is_Some (error_container (dom s)) -> is_Some (error_text (dom s)) ->
        error_text (dom s') = Some message
        /\ display <$> error_container (dom s') = Some "block").
Proof.
  unfold showError, bind, modify_self, get_self, ret. simpl.
  destruct (error_container (dom s)) as [c|] eqn:Ec;
    destruct (error_text (dom s)) as [t|] eqn:Et; simpl;
    eexists; (split; [reflexivity|]); intros [? ?] [? ?]; try done.
  simpl. by rewrite Ec.
Qed.

(** C4.  When the response is not ok, or its body has no truthy [success],
    or its [posts] is not an array, [fetchPosts] throws, and [init] catches:
    it returns normally after [showError] with the fixed message, which is
    written to the error element and displayed when the page has the error
    elements.  Otherwise [fetchPosts] returns the array of the body. *)
Theorem fetchPosts_rejects_or_returns
    (latency : Z) (r : Response Body) (s : State) (b : Browser) :
  let o := mkOutcome latency (inr r) in
  let b' := posts_requested latency b in
  (ok r = false \/ lacks_success r \/ posts_not_array r ->
     (exists e, fetchPosts o s b = (Throw e, s, b'))
     /\ init o s b = showError "Unable to load blog posts. Please try again later." s b'
     /\ exists s',
         init o s b = (Ret tt, s', b')
         /\ (is_Some (error_container (dom s)) -> is_Some (error_text (dom s)) ->
             error_text (dom s')
             = Some "Unable to load blog posts. Please try again later."
             /\ display <$> error_container (dom s') = Some "block"))
  /\ (~ (ok r = false \/ lacks_success r \/ posts_not_array r) ->
      exists success posts,
        json r = Some (BodyOf success (Some posts))
        /\ fetchPosts o s b = (Ret posts, s, b')).
Proof.
  intros o b'. split.
  - intros Hbad.
    assert (Hthrow : exists e, fetchPosts o s b = (Throw e, s, b')).
    { unfold fetchPosts, try_catch, bind, fetch, json_of, lacks_success,
        posts_not_array, throw, ret in *. simpl.
      destruct (ok r); simpl; [|by eexists].
      destruct (json r) as [[|success [posts|]]|]; simpl; try by eexists.
      destruct (truthy success); simpl; [|by eexists].
      destruct Hbad as [?|[?|[]]]; done. }
    destruct Hthrow as [e He]. split; [by exists e|].
    assert (Hinit : init o s b = showError load_error s b').
    { unfold init, try_catch. unfold bind at 1. by rewrite He. }
    split; [exact Hinit|].
    destruct (showError_run load_error s b') as (s' & Hrun & Hdom).
    exists s'. rewrite Hinit. split; [exact Hrun|exact Hdom].
  - intros Hgood.
    unfold fetchPosts, try_catch, bind, fetch, json_of, lacks_success,
      posts_not_array, throw, ret in *. simpl.
    destruct (ok r); simpl; [|by destruct Hgood; left].
    destruct (json r) as [[|success [posts|]]|]; simpl;
      try (by destruct Hgood; right; right); try (by destruct Hgood; right; left).
    destruct (truthy success) eqn:Et; simpl; [by eexists _, _|].
    destruct Hgood. right. by left.
Qed.

End Fetch.

(** *** [ui.renderPosts] *)

Section Render.
Context `{Platform}.

(** The card of a post that has a status. *)
Definition card (post : Post) : PostCard :=
  let title := utils.getTitle post in
  let posted :=
    String.eqb (JsString.toLowerCase (default "" (post !! "status"))) "posted" in
  mkPostCard (utils.createSlug title)
             (if posted then "status-posted" else "status-review")
             (if posted then "Published" else "New")
             (utils.getPostImage post) title (utils.getExcerpt (post !! "idea")).

(** The browser after [storePostData] for the post. *)
Definition stored (post : Post) (b : Browser) : Browser :=
  let slug := utils.createSlug (utils.getTitle post) in
  let data := JSON_stringify (postData post slug (now b)) in
  mkBrowser (now b) (<["blog_post_" +:+ slug := data]> (storage b))
            (trace b ++ [EvSetItem ("blog_post_" +:+ slug) data]).

Lemma valid_post_status (post : Post) :
  valid_post post = true -> is_Some (post !! "status").
Proof.
  unfold valid_post. destruct (post !! "idea") as [idea|]; [|done].
  destruct (negb _ || _); [done|].
  destruct (post !! "status") as [st|]; [by eexists|].
  vm_compute. discriminate.
Qed.

Lemma createPostCard_run (post : Post) (index : Z) (s : State) (b : Browser) :
  is_Some (post !! "status") ->
  createPostCard post index s b = (Ret (card post), s, stored post b).
Proof.
  intros [st Hst]. unfold createPostCard, card. rewrite Hst. reflexivity.
Qed.

Lemma map_cards_run (posts : list Post) (index : Z) (s : State) (b : Browser) :
  Forall (fun post => valid_post post = true) posts ->
  map_cards posts index s b
  = (Ret (map card posts), s, foldl (fun b post => stored post b) b posts).
Proof.
  intros Hvalid. revert index b.
  induction Hvalid as [|post posts Hpost _ IH]; intros index b; [done|].
  simpl. unfold bind at 1.
  rewrite (createPostCard_run _ _ _ _ (valid_post_status _ Hpost)).
  unfold bind at 1. by rewrite IH.
Qed.

(** The slice of a page that starts inside the list. *)
Lemma slice_page {A} (l : list A) (start : Z) :
  0 <= start < Z.of_nat (length l) ->
  JsArray.slice start (start + 6) l
  = take (Z.to_nat (Z.min (Z.of_nat (length l)) (start + 6) - start))
         (drop (Z.to_nat start) l).
Proof.
  intros Hstart. unfold JsArray.slice.
  destruct (start <? 0) eqn:E1; [lia|].
  destruct (start + 6 <? 0) eqn:E2; [lia|].
  rewrite (Z.min_l start) by lia. by rewrite (Z.min_comm (start + 6)).
Qed.

Lemma ceil_div_bounds (n : Z) :
  0 < n -> 6 * (ceil_div n 6 - 1) < n <= 6 * ceil_div n 6.
Proof.
  intros Hn. unfold ceil_div.
  pose proof (Z.div_mod (n + 6 - 1) 6 ltac:(lia)).
  pose proof (Z.mod_pos_bound (n + 6 - 1) 6 ltac:(lia)). lia.
Qed.

Lemma renderPagination_run (s : State) (b : Browser) :
  exists s',
    renderPagination s b = (Ret tt, s', b)
    /\ blog_posts_grid (dom s') = blog_posts_grid (dom s)
    /\ currentPage s' = currentPage s
    /\ totalPages s' = totalPages s.
Proof.
  unfold renderPagination, bind, get_self, modify_self, ret.
  destruct (pagination_section (dom s)); [|by eexists].
  destruct (totalPages s <=? 1); by eexists.
Qed.

(** C6.  On a page that has the grid, for filtered posts and a page number
    [p >= 1]: an empty list leaves the grid as it was, writes nothing to the
    storage and hides the pagination section; for [n > 0] posts the current
    page becomes [min p (ceil (n / 6))], and the grid holds the cards of the
    posts at the indices from [(currentPage - 1) * 6] to
    [min n (currentPage * 6) - 1], in their order, six at most. *)
Theorem renderPosts_page
    (posts : list Post) (p : Z) (s : State) (b : Browser) (g : Element (list PostCard)) :
  blog_posts_grid (dom s) = Some g ->
  Forall (fun post => valid_post post = true) posts ->
  1 <= p ->
  exists s' b',
    renderPosts posts p s b = (Ret tt, s', b')
    /\ match posts with
       | [] =>
           blog_posts_grid (dom s') = Some g
           /\ b' = b
           /\ display <$> pagination_section (dom s')
              = (fun _ => "none") <$> pagination_section (dom s)
       | _ =>
           let n := Z.of_nat (length posts) in
           let pages := ceil_div n 6 in
           6 * (pages - 1) < n <= 6 * pages
           /\ totalPages s' = pages
           /\ currentPage s' = Z.min p pages
           /\ exists cards,
               blog_posts_grid (dom s') = Some (mkElement cards "flex")
               /\ let first := (currentPage s' - 1) * 6 in
                  let last := Z.min n (currentPage s' * 6) - 1 in
                  Z.of_nat (length cards) = last - first + 1
                  /\ (length cards <= 6)%nat
                  /\ forall i, first <= i <= last ->
                       cards !! Z.to_nat (i - first) = card <$> posts !! Z.to_nat i
       end.
Proof.
  intros Hgrid Hvalid Hp.
  unfold renderPosts. unfold bind at 1, get_self. rewrite Hgrid.
  destruct posts as [|post posts'] eqn:Eposts.
  { simpl. unfold bind, modify_self, with_dom. simpl.
    eexists _, _. split; [reflexivity|]. simpl.
    split; [done|]. split; [done|]. by destruct (pagination_section (dom s)). }
  rewrite <- Eposts in *.
  assert (Hn : 0 < Z.of_nat (length posts)) by (rewrite Eposts; simpl; lia).
  replace (length posts =? 0)%nat with false
    by (symmetry; apply Nat.eqb_neq; lia).
  pose proof (ceil_div_bounds _ Hn) as Hceil.
  set (n := Z.of_nat (length posts)) in *.
  set (pages := ceil_div n 6) in *.
  set (current := Z.min p pages).
  assert (Hcur : 1 <= current <= pages) by (unfold current; lia).
  set (start := (current - 1) * 6).
  assert (Hstart : 0 <= start < n) by (unfold start; lia).
  unfold CONFIG.POSTS_PER_PAGE.
  fold n. fold pages. fold current. fold start.
  rewrite (slice_page posts start Hstart). fold n.
  set (shown := take (Z.to_nat (Z.min n (start + 6) - start)) (drop (Z.to_nat start) posts)).
  assert (Hshown : Forall (fun post => valid_post post = true) shown).
  { unfold shown. by apply Forall_take, Forall_drop. }
  unfold bind at 1. unfold modify_self at 1.
  unfold bind at 1. unfold modify_self at 1.
  unfold bind at 1. rewrite (map_cards_run shown start _ _ Hshown).
  unfold bind at 1. unfold modify_self at 1.
  match goal with
  | |- context [ (renderPagination >> _) ?s1 ?b1 ] =>
      destruct (renderPagination_run s1 b1) as (s2 & Hrun & Hg2 & Hc2 & Ht2)
  end.
  unfold bind at 1. rewrite Hrun. simpl in Hg2, Hc2, Ht2.
  assert (Hlen : Z.of_nat (length (map card shown)) = Z.min n (start + 6) - start).
  { rewrite length_map. unfold shown. rewrite length_take, length_drop. lia. }
  assert (Hlook : forall i, start <= i <= Z.min n (current * 6) - 1 ->
            map card shown !! Z.to_nat (i - start) = card <$> posts !! Z.to_nat i).
  { intros i Hi. rewrite list_lookup_fmap. f_equal. unfold shown.
    rewrite lookup_take_lt by lia. rewrite lookup_drop. f_equal. lia. }
  assert (Hfinal : forall s', blog_posts_grid (dom s') = blog_posts_grid (dom s2) ->
            currentPage s' = currentPage s2 -> totalPages s' = totalPages s2 ->
            6 * (pages - 1) < n <= 6 * pages
            /\ totalPages s' = pages
            /\ currentPage s' = current
            /\ exists cards,
                blog_posts_grid (dom s') = Some (mkElement cards "flex")
                /\ Z.of_nat (length cards)
                   = Z.min n (currentPage s' * 6) - 1 - (currentPage s' - 1) * 6 + 1
                /\ (length cards <= 6)%nat
                /\ forall i, (currentPage s' - 1) * 6 <= i <= Z.min n (currentPage s' * 6) - 1 ->
                     cards !! Z.to_nat (i - (currentPage s' - 1) * 6)
                     = card <$> posts !! Z.to_nat i).
  { intros s' Hg Hc Ht. rewrite Hg, Hc, Ht, Hg2, Hc2, Ht2.
    split; [exact Hceil|]. split; [done|]. split; [done|].
    exists (map card shown). split; [done|].
    fold start. split; [lia|]. split; [lia|]. exact Hlook. }
  destruct (1 <? p).
  - eexists _, _. split; [reflexivity|]. by apply Hfinal.
  - eexists _, _. split; [reflexivity|]. by apply Hfinal.
Qed.

End Render.

(** *** [ui.renderHomepagePosts] *)

Section Homepage.
Context `{Platform}.

(** The article of a post. *)
Definition article (post : Post) : Article :=
  let title := utils.getTitle post in
  mkArticle (utils.createSlug title) (utils.getPostImage post) title
            (utils.getExcerpt (post !! "idea")).

Lemma mapM_home_article_some (posts : list Post) (s : State) (b : Browser) :
  mapM home_article (map Some posts) s b
  = (Ret (map article posts), s, foldl (fun b post => stored post b) b posts).
Proof.
  revert b. induction posts as [|post posts IH]; intros b; [done|].
  simpl. unfold bind at 1. simpl. unfold bind at 1. by rewrite IH.
Qed.

(** With a rotation index that is not a number, every position is
    [undefined]. *)
Lemma displayPosts_nan (post : Post) (posts : list Post) :
  exists rest, displayPosts (post :: posts) None = None :: rest.
Proof.
  unfold displayPosts.
  rewrite seqZ_cons by (rewrite length_cons; lia).
  by eexists.
Qed.

(** The browser after the two writes of a rotation. *)
Definition rotated_store (index : JsNumber.number) (b : Browser) : Browser :=
  mkBrowser (now b)
    (<["blog_last_rotation" := pretty (now b)]>
       (<["blog_rotation_index" := JsNumber.toString index]> (storage b)))
    (trace b ++ [EvSetItem "blog_rotation_index" (JsNumber.toString index)]
             ++ [EvSetItem "blog_last_rotation" (pretty (now b))]).

(** [renderHomepagePosts] on a page that has the container, step by
    step. *)
Lemma renderHomepagePosts_run
    (posts : list Post) (s : State) (b : Browser) (l : list Article) :
  latest_posts (dom s) = Some l ->
  let rotationIndex := JsNumber.parseInt (or_zero (storage b !! "blog_rotation_index")) in
  let lastRotation := JsNumber.parseInt (or_zero (storage b !! "blog_last_rotation")) in
  let due := JsNumber.gt (JsNumber.sub (Some (now b)) lastRotation) (Some 7200000) in
  let rotated :=
    JsNumber.rem (JsNumber.add rotationIndex (Some 6)) (Some (Z.of_nat (length posts))) in
  let b1 := emit (EvGetItem "blog_last_rotation") (emit (EvGetItem "blog_rotation_index") b) in
  renderHomepagePosts posts s b
  = match mapM home_article
            (displayPosts posts (if due then rotated else rotationIndex)) s
            (if due then rotated_store rotated b1 else b1) with
    | (Ret arts, s', b') => (Ret tt, with_dom (set_latest arts) s', b')
    | (Throw e, s', b') => (Throw e, s', b')
    end.
Proof.
  intros Hl rotationIndex lastRotation due rotated b1.
  unfold renderHomepagePosts, bind at 1, get_self. rewrite Hl.
  unfold bind at 1, getItem. unfold bind at 1. unfold bind at 1, Date_now.
  unfold bind at 1. unfold CONFIG.ROTATION_INTERVAL.
  fold rotationIndex. cbn [now storage emit]. fold lastRotation. fold due.
  destruct due.
  - unfold bind at 1. unfold bind at 1. unfold setItem at 1. unfold bind at 1.
    unfold setItem at 1. unfold ret at 1.
    unfold bind, rotated_store. subst b1. cbn [now storage trace emit].
    rewrite <- !app_assoc. fold rotated.
    by destruct (mapM _ _ _ _) as [[[arts|e] s'] b'].
  - unfold ret at 1. unfold bind. subst b1.
    by destruct (mapM _ _ _ _) as [[[arts|e] s'] b'].
Qed.

(** An empty list, when the rotation is due, stores [NaN] as rotation
    index: the remainder of a division by the length 0. *)
Lemma renderHomepagePosts_empty_list_stores_NaN
    (s : State) (b : Browser) (l : list Article) :
  latest_posts (dom s) = Some l ->
  JsNumber.gt (JsNumber.sub (Some (now b))
                 (JsNumber.parseInt (or_zero (storage b !! "blog_last_rotation"))))
              (Some 7200000) = true ->
  exists s' b',
    renderHomepagePosts [] s b = (Ret tt, s', b')
    /\ storage b' !! "blog_rotation_index" = Some "NaN".
Proof.
  intros Hl Hdue. rewrite (renderHomepagePosts_run _ _ _ _ Hl), Hdue.
  assert (Hrem : JsNumber.rem
            (JsNumber.add (JsNumber.parseInt (or_zero (storage b !! "blog_rotation_index")))
                          (Some 6)) (Some (Z.of_nat (length (@nil Post)))) = None).
  { destruct (JsNumber.parseInt (or_zero (storage b !! "blog_rotation_index")));
      reflexivity. }
  rewrite Hrem. eexists _, _. split; [reflexivity|]. simpl.
  rewrite lookup_insert_ne by done. by rewrite lookup_insert_eq.
Qed.

(** Once [NaN] is stored, a list that is not empty is not rendered: the
    call throws and leaves the page as it was. *)
Lemma renderHomepagePosts_NaN_throws
    (post : Post) (posts : list Post) (s : State) (b : Browser) (l : list Article) :
  latest_posts (dom s) = Some l ->
  storage b !! "blog_rotation_index" = Some "NaN" ->
  exists b',
    renderHomepagePosts (post :: posts) s b
    = (Throw (TypeError "Cannot read properties of undefined: name"), s, b')
    /\ storage b' !! "blog_rotation_index" = Some "NaN".
Proof.
  intros Hl Hnan. rewrite (renderHomepagePosts_run _ _ _ _ Hl), Hnan.
  change (JsNumber.parseInt (or_zero (Some "NaN"))) with (@None Z).
  change (JsNumber.rem (JsNumber.add None (Some 6)) _) with (@None Z).
  destruct (displayPosts_nan post posts) as [rest Hrest].
  destruct (JsNumber.gt _ _); rewrite Hrest.
  - eexists. split; [reflexivity|]. simpl.
    rewrite lookup_insert_ne by done. by rewrite lookup_insert_eq.
  - eexists. split; [reflexivity|]. done.
Qed.

Lemma prefix_append (p x : string) : String.prefix p (p +:+ x) = true.
Proof.
  induction p as [|c p IH]; simpl; [by destruct x|].
  by destruct (ascii_dec c c).
Qed.



End Homepage.

(** *** Runs on the reference platform *)

Local Existing Instance RefPlatform.platform.

Definition post_of (idea status : string) : Post :=
  {[ "idea" := idea; "status" := status ]}.

Definition seven_posts : list Post :=
  [post_of "First post" "ready"; post_of "Second post" "posted";
   post_of "Third post" "Ready"; post_of "Fourth post" "ready";
   post_of "Fifth post" "posted"; post_of "Sixth post" "ready";
   post_of "Seventh post" " POSTED "].

(** The blog page, still loading. *)
Definition blog_page : Dom :=
  mkDom (Some (mkElement [] "none")) (Some (mkElement tt "block"))
        (Some (mkElement tt "none")) (Some (mkElement [] "none"))
        (Some (mkElement tt "none")) (Some "") None (Some 0%nat)
        "/blog/index.html".

(** The home page: only the container of the latest posts. *)
Definition home_page : Dom :=
  mkDom None None None None None None (Some []) None "/index.html".

Definition browser0 : Browser := mkBrowser 1700000000000 ∅ [].

(** C4, witness: a response with status 500, and a well-formed one. *)
Lemma fetchPosts_rejects_or_returns_witness :
  (exists s',
     init (mkOutcome 120 (inr (mkResponse false 500 "Internal Server Error" None)))
          (initial blog_page) browser0
     = (Ret tt, s', posts_requested 120 browser0)
     /\ error_text (dom s') = Some "Unable to load blog posts. Please try again later.")
  /\ fetchPosts (mkOutcome 120 (inr (mkResponse true 200 "OK"
                   (Some (BodyOf (VBool true) (Some seven_posts))))))
                (initial blog_page) browser0
     = (Ret seven_posts, initial blog_page, posts_requested 120 browser0).
Proof.
  split.
  - destruct (fetchPosts_rejects_or_returns 120
                (mkResponse false 500 "Internal Server Error" None)
                (initial blog_page) browser0) as [Hbad _].
    destruct Hbad as (_ & _ & s' & Hrun & Hdom); [by left|].
    exists s'. split; [exact Hrun|].
    apply Hdom; by eexists.
  - destruct (fetchPosts_rejects_or_returns 120
                (mkResponse true 200 "OK" (Some (BodyOf (VBool true) (Some seven_posts))))
                (initial blog_page) browser0) as [_ Hgood].
    destruct Hgood as (success & posts & Hjson & Hrun).
    { intros [Hok|[Hs|Hp]]; [discriminate Hok|discriminate Hs|exact Hp]. }
    simpl in Hjson. injection Hjson as <- <-. exact Hrun.
Defined.

(** C6, witness: the second page of seven posts holds the seventh. *)
Lemma renderPosts_page_witness :
  exists s' b',
    renderPosts seven_posts 2 (initial blog_page) browser0 = (Ret tt, s', b')
    /\ currentPage s' = 2
    /\ totalPages s' = 2
    /\ exists cards,
        blog_posts_grid (dom s') = Some (mkElement cards "flex")
        /\ cards !! 0%nat = Some (card (post_of "Seventh post" " POSTED ")).
Proof.
  destruct (renderPosts_page seven_posts 2 (initial blog_page) browser0
              (mkElement [] "none"))
    as (s' & b' & Hrun & _ & Htotal & Hcurrent & cards & Hgrid & _ & _ & Hcards).
  - reflexivity.
  - repeat constructor.
  - lia.
  - exists s', b'. split; [exact Hrun|]. split; [exact Hcurrent|].
    split; [exact Htotal|]. exists cards. split; [exact Hgrid|].
    rewrite Hcurrent in Hcards. apply (Hcards 6). vm_compute. by split.
Defined.

(** C7, the failing run.  The storage is empty and the list of posts is
    empty: [renderHomepagePosts] stores [NaN] as rotation index.  From then
    on, at any later time and for any list that is not empty, it throws a
    [TypeError], renders nothing and leaves [NaN] in the storage; the same
    list is rendered when the storage is empty. *)
Theorem renderHomepagePosts_breaks_after_empty_list :
  exists s1 b1,
    renderHomepagePosts [] (initial home_page) browser0 = (Ret tt, s1, b1)
    /\ latest_posts (dom s1) = Some []
    /\ storage b1 !! "blog_rotation_index" = Some "NaN"
    /\ (forall (later : Z) (post : Post) (posts : list Post),
          exists b2,
            renderHomepagePosts (post :: posts) s1
              (mkBrowser later (storage b1) (trace b1))
            = (Throw (TypeError "Cannot read properties of undefined: name"), s1, b2)
            /\ storage b2 !! "blog_rotation_index" = Some "NaN")
    /\ exists s b,
        renderHomepagePosts [post_of "Hello World" "ready"] (initial home_page) browser0
        = (Ret tt, s, b)
        /\ latest_posts (dom s) = Some [article (post_of "Hello World" "ready")].
Proof.
  eexists _, _. split; [vm_compute; reflexivity|].
  split; [reflexivity|]. split; [vm_compute; reflexivity|]. split.
  - intros later post posts.
    apply (renderHomepagePosts_NaN_throws post posts _ _ []); [reflexivity|].
    vm_compute. reflexivity.
  - eexists _, _. split; vm_compute; reflexivity.
Qed.

End BlogFacts.

(** ** The chat widget: requests, replies and the stored history *)

Module ChatFacts.
Import ChatWidget.

Section Facts.
Context `{Platform}.

(** The last 50 entries of a history. *)
Lemma slice_last_50 {A} (h : list A) :
  JsArray.slice_from (-50) h = drop (length h - 50) h.
Proof.
  unfold JsArray.slice_from, JsArray.slice.
  change (-50 <? 0) with true. cbv beta iota.
  destruct (Z.ltb_spec (Z.of_nat (length h)) 0) as [Hneg|_]; [lia|].
  rewrite Z.min_id.
  replace (Z.to_nat (Z.max (Z.of_nat (length h) + -50) 0)) with (length h - 50)%nat by lia.
  apply take_ge. rewrite length_drop. lia.
Qed.

(** The time stamp that [addMessage] gives to a message. *)
Definition stamp (options : Options) (t_now : Z) : string :=
  if JsString.truthy_str (opt_timestamp options)
  then default "" (opt_timestamp options) else toISOString t_now.

(** The node that [addMessage] appends. *)
Definition node_of (content sender : string) (options : Options) (t_now : Z) : Node :=
  MessageNode sender (default false (isError options)) content
    (if String.eqb sender "bot" then default [] (suggestions options) else [])
    (stamp options t_now).

(** The widget after [addMessage], on a page whose container has the
    given children. *)
Definition added (content sender : string) (options : Options) (t_now : Z)
    (children : list Node) (w : t) : t :=
  set_history
    (messageHistory w ++ [mkMessage content sender (stamp options t_now) options])
    (with_dom (set_messages (Some (children ++ [node_of content sender options t_now]))) w).

(** The browser after [saveChatHistory]. *)
Definition saved (w : t) (b : Browser) : Browser :=
  let text := JSON_stringify (history_value (JsArray.slice_from (-50) (messageHistory w))) in
  mkBrowser (now b) (<[history_key (sessionId w) := text]> (storage b))
            (trace b ++ [EvSetItem (history_key (sessionId w)) text]).

Lemma addMessage_run (content sender : string) (options : Options) (w : t) (b : Browser) :
  addMessage content sender options w b
  = match chat_messages (dom w) with
    | None => (Ret tt, w, b)
    | Some children =>
        let w' := added content sender options (now b) children w in
        (Ret tt, w', saved w' b)
    end.
Proof.
  unfold addMessage, bind at 1, get_self.
  destruct (chat_messages (dom w)) as [children|]; reflexivity.
Qed.

(** C9.  When [addMessage] adds a message (the page has the container of
    the messages), the history stored under [chat_history_] followed by the
    session id is the serialized list of the last entries of the history in
    memory, in their order: all of them up to 50, the 50 most recent
    beyond.  On a page without the container nothing is added. *)
Theorem addMessage_persists_last_50
    (content sender : string) (options : Options) (w : t) (b : Browser) :
  match chat_messages (dom w) with
  | None => addMessage content sender options w b = (Ret tt, w, b)
  | Some _ =>
      exists w' b' m persisted older,
        addMessage content sender options w b = (Ret tt, w', b')
        /\ messageHistory w' = messageHistory w ++ [m]
        /\ ChatWidget.content m = content
        /\ ChatWidget.sender m = sender
        /\ ChatWidget.options m = options
        /\ sessionId w' = sessionId w
        /\ storage b' !! ("chat_history_" +:+ sessionId w')
           = Some (JSON_stringify (history_value persisted))
        /\ messageHistory w' = older ++ persisted
        /\ length persisted = Nat.min 50 (length (messageHistory w'))
  end.
Proof.
  rewrite addMessage_run.
  destruct (chat_messages (dom w)) as [children|]; [|done].
  set (w' := added content sender options (now b) children w).
  exists w', (saved w' b), (mkMessage content sender (stamp options (now b)) options),
    (drop (length (messageHistory w') - 50) (messageHistory w')),
    (take (length (messageHistory w') - 50) (messageHistory w')).
  split; [done|]. split; [done|]. split; [done|]. split; [done|].
  split; [done|]. split; [done|]. split.
  - unfold saved. cbn [storage]. rewrite slice_last_50.
    apply lookup_insert_eq.
  - split; [by rewrite take_drop|]. rewrite length_drop. lia.
Qed.

(** The requests of a trace, in order. *)
Definition fetches (l : list Event) : list Request :=
  omap (fun e => match e with EvFetch r => Some r | _ => None end) l.

(** Evaluation of the widget code on a state that is given field by
    field; the storage and the platform functions stay folded. *)
Ltac run_chat :=
  lazy beta iota zeta delta
    [sendMessage send_try send_catch addMessage saveChatHistory updateConnectionStatus
     showBotTyping hideBotTyping setInputDisabled getContext handleConnectionError
     bind ret throw try_catch finally lift get_self put_self modify_self emit
     Date_now getItem setItem removeItem sleep fetch json_of
     with_dom set_sessionId set_history set_reconnectAttempts set_input set_messages
     set_send set_status
     apiUrl sessionId isOpen isTyping messageHistory reconnectAttempts
     maxReconnectAttempts dom chat_input chat_messages chat_send chat_header
     connection_status pathname referrer input_value disabled
     now storage trace answer latency ok status statusText json
     fmap option_fmap option_map negb mbind option_bind].

(** The context of the request that [sendMessage] sends from [w] at the
    time of [b]: the history has the message of the user when the page has
    the container. *)
Definition context_at (w : t) (b : Browser) : value :=
  VObj [("page", VStr (pathname (dom w)));
        ("referrer", VStr (referrer (dom w)));
        ("messageCount",
         VNum (Z.of_nat (length (messageHistory w)
                         + (if chat_messages (dom w) is Some _ then 1 else 0))%nat));
        ("timestamp", VStr (toISOString (now b)))].

(** C5.  When the input holds a message that is not empty after
    trimming, [sendMessage] sends one request: a POST to the chat endpoint
    whose JSON body has the fields [message], [sessionId] and [context], in
    that order and no other, with the trimmed message and the session id of
    the widget.  When the response is ok and its body has a truthy
    [success], the call returns, the session id of the widget is the one of
    the reply, the counter of reconnect attempts is 0, and on a page with
    the container of the messages the last node and the last entry of the
    history are the reply: its [response], its [suggestions] as buttons, and
    its [timestamp] when that is a string that is not empty. *)
Theorem sendMessage_posts_and_applies_reply
    (o : Outcome Body) (w : t) (b : Browser) (input : Input) :
  chat_input (dom w) = Some input ->
  let message := JsString.trim (input_value input) in
  JsString.nonempty message = true ->
  exists r w' b' events context,
    sendMessage o w b = (r, w', b')
    /\ trace b' = trace b ++ events
    /\ fetches events
       = [mkRequest (apiUrl w +:+ "/api/chat/message") "POST" json_headers
            (JsonBody (VObj [("message", VStr message);
                             ("sessionId", VStr (sessionId w));
                             ("context", context)]))]
    /\ forall resp reply,
         answer o = inr resp -> ok resp = true -> json resp = Some (BodyOf reply) ->
         truthy (success reply) = true ->
         r = Ret tt
         /\ sessionId w' = reply_sessionId reply
         /\ reconnectAttempts w' = 0
         /\ forall children,
              chat_messages (dom w) = Some children ->
              exists time,
                (chat_messages (dom w') ≫= last)
                = Some (MessageNode "bot" false (response reply)
                          (default [] (reply_suggestions reply)) time)
                /\ last (messageHistory w')
                   = Some (mkMessage (response reply) "bot" time
                             (mkOptions (reply_suggestions reply) (reply_timestamp reply) None))
                /\ (forall ts, reply_timestamp reply = Some ts -> ts <> "" -> time = ts).
Proof.
  intros Hinput message Hmessage.
  destruct w as [api sid open typing hist rec maxrec
                   [inp msgs send header status path ref]].
  destruct b as [t_now store tr].
  simpl in Hinput. subst inp.
  assert (Hgo : forall X (x y : X),
            (if negb (JsString.nonempty (JsString.trim (input_value input)))
             then x else y) = y).
  { intros X x y. fold message. by rewrite Hmessage. }
  destruct o as [lat [e|[okb st stt body]]];
    [|destruct okb;
      [destruct body as [[|reply]|];
       [| destruct (truthy (success reply)) eqn:Esuccess |] |]].
  all: destruct msgs as [children|], status as [status|], send as [send|].
  all: destruct (maxrec <=? rec + 1) eqn:Emax.
  all: eexists _, _, _, _, _.
  all: split;
    [run_chat; rewrite Hgo; run_chat; rewrite ?Esuccess; run_chat; rewrite ?Emax;
     reflexivity|].
  all: run_chat.
  all: split; [rewrite <- ?app_assoc; reflexivity|].
  all: split; [reflexivity|].
  all: intros resp reply' Hanswer Hok Hjson Htruthy.
  all: try discriminate Hanswer.
  all: injection Hanswer as <-; cbn [ok json] in Hok, Hjson.
  all: try discriminate Hok; try discriminate Hjson.
  all: injection Hjson as <-; try congruence.
  (* the reply is applied *)
  all: split; [reflexivity|]; split; [reflexivity|]; split; [reflexivity|].
  all: intros children' Hchildren; try discriminate Hchildren.
  all: eexists; split; [apply last_snoc|]; split; [apply last_snoc|].
  all: intros ts Hts Hne; rewrite Hts; destruct ts; [done|reflexivity].
Qed.

End Facts.

(** *** A run on the reference platform *)

Local Existing Instance RefPlatform.platform.

(** The widget on a page whose input holds a message. *)
Definition widget0 : t :=
  mk "https://api.vikasyadav.live" "chat_1700000000000_k3v9x0001" true false [] 2 3
     (mkDom (Some (mkInput "  Hello there  " false)) (Some []) (Some false) true
            (Some "online") "/index.html" "").

Definition browser0 : Browser := mkBrowser 1700000000000 ∅ [].

Definition reply0 : Reply :=
  mkReply (VBool true) "Hi! How can I help?" "srv-42"
          (Some ["Projects"; "Blog"]) (Some "2023-11-14T22:13:21.000Z") None.

Definition answer0 : Outcome Body :=
  mkOutcome 250 (inr (mkResponse true 200 "OK" (Some (BodyOf reply0)))).

(** C5, witness. *)
Lemma sendMessage_posts_and_applies_reply_witness :
  JsString.nonempty (JsString.trim "  Hello there  ") = true
  /\ exists w' b',
      sendMessage answer0 widget0 browser0 = (Ret tt, w', b')
      /\ sessionId w' = "srv-42"
      /\ reconnectAttempts w' = 0
      /\ fetches (trace b')
         = [mkRequest "https://api.vikasyadav.live/api/chat/message" "POST" json_headers
              (JsonBody (VObj [("message", VStr "Hello there");
                               ("sessionId", VStr "chat_1700000000000_k3v9x0001");
                               ("context", context_at widget0 browser0)]))].
Proof.
  split; [reflexivity|].
  destruct (sendMessage_posts_and_applies_reply answer0 widget0 browser0
              (mkInput "  Hello there  " false) eq_refl eq_refl)
    as (r & w' & b' & events & context & Hrun & Htrace & Hfetch & Hreply).
  destruct (Hreply _ reply0 eq_refl eq_refl eq_refl eq_refl) as (-> & Hsid & Hrec & _).
  exists w', b'. split; [exact Hrun|]. split; [exact Hsid|]. split; [exact Hrec|].
  assert (Hb : (sendMessage answer0 widget0 browser0).2 = b') by (by rewrite Hrun).
  rewrite <- Hb. vm_compute. reflexivity.
Defined.

End ChatFacts.

(** ** The keys of the local storage that the widgets touch *)

Module Frame.

(** The key of a storage access. *)
Definition storage_key (e : Event) : option string :=
  match e with
  | EvGetItem k | EvSetItem k _ | EvRemoveItem k => Some k
  | _ => None
  end.

(** The keys that the description of the interfaces lists. *)
Definition listed_key (k : string) : bool :=
  String.prefix "chat_history_" k
  || bool_decide (k ∈ ["scholar_stats_cache"; "blog_rotation_index";
                       "blog_last_rotation"; "ocr_processing_history"; "auth_token"]).

(** The listed keys and the keys of the post data. *)
Definition known_key (k : string) : bool :=
  listed_key k || String.prefix "blog_post_" k.

Definition within (P : string -> bool) (e : Event) : Prop :=
  forall k, storage_key e = Some k -> P k = true.

(** Every storage access of a run of [m] is to a key in [P]. *)
Definition touches_only {S A} (P : string -> bool) (m : M S A) : Prop :=
  forall s b, exists events,
    trace (m s b).2 = trace b ++ events /\ Forall (within P) events.

Section Rules.
Context {S : Type} (P : string -> bool).

Lemma touches_pure {A} (m : M S A) :
  (forall s b, (m s b).2 = b) -> touches_only P m.
Proof.
  intros Hm s b. exists []. rewrite Hm, app_nil_r. by split.
Qed.

Lemma touches_ret {A} (a : A) : touches_only P (ret (S:=S) a).
Proof. by apply touches_pure. Qed.

Lemma touches_throw {A} (e : JsError) : touches_only P (throw (S:=S) (A:=A) e).
Proof. by apply touches_pure. Qed.

Lemma touches_lift {A} (r : Res A) : touches_only P (lift (S:=S) r).
Proof. by apply touches_pure. Qed.

Lemma touches_get_self : touches_only P (get_self (S:=S)).
Proof. by apply touches_pure. Qed.

Lemma touches_modify_self (f : S -> S) : touches_only P (modify_self f).
Proof. by apply touches_pure. Qed.

Lemma touches_Date_now : touches_only P (Date_now (S:=S)).
Proof. by apply touches_pure. Qed.

Lemma touches_json_of {B} (r : Response B) : touches_only P (json_of (S:=S) r).
Proof. apply touches_pure. intros s b. unfold json_of. by destruct (json r). Qed.

Lemma touches_event {A} (m : M S A) (e : Event) :
  (forall s b, trace (m s b).2 = trace b ++ [e]) -> within P e -> touches_only P m.
Proof.
  intros Hm He s b. exists [e]. split; [apply Hm|]. by constructor.
Qed.

Lemma touches_sleep (ms : Z) : touches_only P (sleep (S:=S) ms).
Proof. by apply (touches_event _ (EvSleep ms)). Qed.

Lemma touches_fetch {B} (r : Request) (o : Outcome B) :
  touches_only P (fetch (S:=S) r o).
Proof.
  apply (touches_event _ (EvFetch r)); [|done].
  intros s b. unfold fetch. by destruct (answer o).
Qed.

Lemma touches_getItem (k : string) : P k = true -> touches_only P (getItem (S:=S) k).
Proof.
  intros Hk. apply (touches_event _ (EvGetItem k)); [done|]. by intros k' [= <-].
Qed.

Lemma touches_setItem (k v : string) : P k = true -> touches_only P (setItem (S:=S) k v).
Proof.
  intros Hk. apply (touches_event _ (EvSetItem k v)); [done|]. by intros k' [= <-].
Qed.

Lemma touches_removeItem (k : string) :
  P k = true -> touches_only P (removeItem (S:=S) k).
Proof.
  intros Hk. apply (touches_event _ (EvRemoveItem k)); [done|]. by intros k' [= <-].
Qed.

Lemma touches_bind {A B} (m : M S A) (k : A -> M S B) :
  touches_only P m -> (forall a, touches_only P (k a)) -> touches_only P (bind m k).
Proof.
  intros Hm Hk s b. unfold bind.
  destruct (Hm s b) as (ev1 & Ht1 & Hf1).
  destruct (m s b) as [[[a|e] s1] b1]; simpl in *.
  - destruct (Hk a s1 b1) as (ev2 & Ht2 & Hf2).
    exists (ev1 ++ ev2). rewrite Ht2, Ht1, app_assoc. split; [done|].
    by apply Forall_app.
  - by exists ev1.
Qed.

Lemma touches_try_catch {A} (m : M S A) (h : JsError -> M S A) :
  touches_only P m -> (forall e, touches_only P (h e)) -> touches_only P (try_catch m h).
Proof.
  intros Hm Hh s b. unfold try_catch.
  destruct (Hm s b) as (ev1 & Ht1 & Hf1).
  destruct (m s b) as [[[a|e] s1] b1]; simpl in *.
  - by exists ev1.
  - destruct (Hh e s1 b1) as (ev2 & Ht2 & Hf2).
    exists (ev1 ++ ev2). rewrite Ht2, Ht1, app_assoc. split; [done|].
    by apply Forall_app.
Qed.

Lemma touches_finally {A} (m : M S A) (f : M S unit) :
  touches_only P m -> touches_only P f -> touches_only P (finally m f).
Proof.
  intros Hm Hf s b. unfold finally.
  destruct (Hm s b) as (ev1 & Ht1 & Hf1).
  destruct (m s b) as [[r s1] b1]; simpl in *.
  destruct (Hf s1 b1) as (ev2 & Ht2 & Hf2).
  exists (ev1 ++ ev2).
  destruct (f s1 b1) as [[[u|e] s2] b2]; simpl in *;
    (rewrite Ht2, Ht1, app_assoc; split; [done|]; by apply Forall_app).
Qed.

Lemma touches_mapM {A B} (f : A -> M S B) (l : list A) :
  (forall a, touches_only P (f a)) -> touches_only P (Blog.mapM f l).
Proof.
  intros Hf. induction l as [|a l IH]; simpl.
  - apply touches_ret.
  - apply touches_bind; [apply Hf|]. intros x.
    apply touches_bind; [apply IH|]. intros xs. apply touches_ret.
Qed.

End Rules.

Create HintDb frame.
#[export] Hint Resolve touches_ret touches_throw touches_lift touches_get_self
  touches_modify_self touches_Date_now touches_json_of touches_sleep touches_fetch
  touches_mapM : frame.

(** One step of a proof that a piece of code stays within the keys [P]:
    a rule for the statement at the head, or a case analysis on what it
    branches on. *)
Ltac frame_step :=
  match goal with
  | |- touches_only _ (bind _ _) => apply touches_bind; [|intros ?]
  | |- touches_only _ (try_catch _ _) => apply touches_try_catch; [|intros ?]
  | |- touches_only _ (finally _ _) => apply touches_finally
  | |- touches_only _ (getItem _) => apply touches_getItem
  | |- touches_only _ (setItem _ _) => apply touches_setItem
  | |- touches_only _ (removeItem _) => apply touches_removeItem
  | |- touches_only _ (if ?c then _ else _) => destruct c
  | |- touches_only _ (match ?x with _ => _ end) => destruct x
  | |- touches_only _ _ => solve [eauto with frame]
  end.

Ltac frame := repeat frame_step; try reflexivity.

Section Widgets.
Context `{Platform}.

Lemma known_post_key (slug : string) : known_key ("blog_post_" +:+ slug) = true.
Proof.
  unfold known_key. rewrite (BlogFacts.prefix_append "blog_post_" slug).
  apply orb_true_r.
Qed.

Lemma known_history_key (sid : string) : known_key (ChatWidget.history_key sid) = true.
Proof.
  unfold known_key, listed_key, ChatWidget.history_key.
  by rewrite (BlogFacts.prefix_append "chat_history_" sid).
Qed.

(** *** The blog loader *)

Lemma touches_storePostData (post : Blog.Post) (slug : string) :
  touches_only known_key (Blog.storePostData post slug).
Proof. unfold Blog.storePostData. frame. apply known_post_key. Qed.
Hint Resolve touches_storePostData : frame.

Lemma touches_createPostCard (post : Blog.Post) (index : Z) :
  touches_only known_key (Blog.createPostCard post index).
Proof. unfold Blog.createPostCard. frame. Qed.
Hint Resolve touches_createPostCard : frame.

Lemma touches_map_cards (posts : list Blog.Post) (index : Z) :
  touches_only known_key (Blog.map_cards posts index).
Proof.
  revert index. induction posts as [|post posts IH]; intros index; simpl; frame.
Qed.
Hint Resolve touches_map_cards : frame.

Lemma touches_renderPagination : touches_only known_key Blog.renderPagination.
Proof. unfold Blog.renderPagination. frame. Qed.
Hint Resolve touches_renderPagination : frame.

Lemma touches_renderPosts (posts : list Blog.Post) (page : Z) :
  touches_only known_key (Blog.renderPosts posts page).
Proof. unfold Blog.renderPosts. frame. Qed.
Hint Resolve touches_renderPosts : frame.

Lemma touches_home_article (post : option Blog.Post) :
  touches_only known_key (Blog.home_article post).
Proof. unfold Blog.home_article. frame. Qed.
Hint Resolve touches_home_article : frame.

Lemma touches_renderHomepagePosts (posts : list Blog.Post) :
  touches_only known_key (Blog.renderHomepagePosts posts).
Proof. unfold Blog.renderHomepagePosts. frame. Qed.
Hint Resolve touches_renderHomepagePosts : frame.

Lemma touches_showError (message : string) :
  touches_only known_key (Blog.showError message).
Proof. unfold Blog.showError. frame. Qed.
Hint Resolve touches_showError : frame.

Lemma touches_fetchPosts (o : Outcome Blog.Body) :
  touches_only known_key (Blog.fetchPosts o).
Proof. unfold Blog.fetchPosts. frame. Qed.
Hint Resolve touches_fetchPosts : frame.

Lemma touches_init (o : Outcome Blog.Body) : touches_only known_key (Blog.init o).
Proof. unfold Blog.init. frame. Qed.

Lemma touches_search_submit (input : string) (o : Outcome Blog.Body) :
  touches_only known_key (Blog.search_submit input o).
Proof. unfold Blog.search_submit. frame. Qed.

(** *** The Scholar widget *)

Section Scholar.
Variables options_apiUrl options_containerId : option string.
Local Abbreviation this := (ScholarStatsWidget.new options_apiUrl options_containerId).

Lemma touches_getCachedData (ignoreExpiry : bool) :
  touches_only known_key (ScholarStatsWidget.getCachedData this ignoreExpiry).
Proof.
  unfold ScholarStatsWidget.getCachedData, ScholarStatsWidget.parse. frame.
Qed.

Lemma touches_cacheData (metrics : value) :
  touches_only known_key (ScholarStatsWidget.cacheData this metrics).
Proof. unfold ScholarStatsWidget.cacheData. frame. Qed.

Lemma touches_attempt (o : Outcome value) :
  touches_only known_key (ScholarStatsWidget.attempt this o).
Proof.
  pose proof touches_cacheData.
  unfold ScholarStatsWidget.attempt. frame.
Qed.

Lemma touches_retry (net : nat -> Outcome value) (fuel : nat) (n : Z) :
  touches_only known_key (ScholarStatsWidget.retry this net fuel n).
Proof.
  pose proof touches_attempt. pose proof touches_getCachedData.
  revert n. induction fuel as [|fuel IH]; intros n; simpl; frame.
Qed.

Lemma touches_fetchStats (net : nat -> Outcome value) :
  touches_only known_key (ScholarStatsWidget.fetchStats this net).
Proof.
  pose proof touches_retry. pose proof touches_getCachedData.
  unfold ScholarStatsWidget.fetchStats. frame.
Qed.

End Scholar.

(** *** The chat widget *)

Lemma touches_saveChatHistory : touches_only known_key ChatWidget.saveChatHistory.
Proof. unfold ChatWidget.saveChatHistory. frame. apply known_history_key. Qed.
Hint Resolve touches_saveChatHistory : frame.

Lemma touches_addMessage (content sender : string) (options : ChatWidget.Options) :
  touches_only known_key (ChatWidget.addMessage content sender options).
Proof. unfold ChatWidget.addMessage. frame. Qed.
Hint Resolve touches_addMessage : frame.

Lemma touches_send_try (message : string) (o : Outcome ChatWidget.Body) :
  touches_only known_key (ChatWidget.send_try message o).
Proof.
  unfold ChatWidget.send_try, ChatWidget.updateConnectionStatus, ChatWidget.getContext,
    ChatWidget.hideBotTyping.
  frame.
Qed.

Lemma touches_send_catch (error : JsError) :
  touches_only known_key (ChatWidget.send_catch error).
Proof.
  unfold ChatWidget.send_catch, ChatWidget.handleConnectionError,
    ChatWidget.updateConnectionStatus, ChatWidget.hideBotTyping.
  frame.
Qed.

Lemma touches_sendMessage (o : Outcome ChatWidget.Body) :
  touches_only known_key (ChatWidget.sendMessage o).
Proof.
  pose proof touches_send_try. pose proof touches_send_catch.
  unfold ChatWidget.sendMessage, ChatWidget.setInputDisabled, ChatWidget.showBotTyping.
  frame.
Qed.

Lemma touches_replay (l : list ChatWidget.Message) :
  touches_only known_key (ChatWidget.replay l).
Proof. induction l as [|m l IH]; simpl; frame. Qed.

Lemma touches_loadChatHistory : touches_only known_key ChatWidget.loadChatHistory.
Proof.
  pose proof touches_replay.
  unfold ChatWidget.loadChatHistory. frame. apply known_history_key.
Qed.

Lemma touches_clearHistory : touches_only known_key ChatWidget.clearHistory.
Proof. unfold ChatWidget.clearHistory. frame. apply known_history_key. Qed.

Lemma touches_chat_init : touches_only known_key ChatWidget.init.
Proof.
  pose proof touches_loadChatHistory.
  unfold ChatWidget.init, ChatWidget.addConnectionStatusIndicator. frame.
Qed.

(** *** The application controller *)

Lemma touches_validateToken (token : string) (o : Outcome value) :
  touches_only known_key (VikasYadavApp.validateToken token o).
Proof.
  unfold VikasYadavApp.validateToken, VikasYadavApp.updateUIForAuthenticatedUser.
  frame.
Qed.

Lemma touches_checkAuthentication (o : Outcome value) :
  touches_only known_key (VikasYadavApp.checkAuthentication o).
Proof.
  pose proof touches_validateToken.
  unfold VikasYadavApp.checkAuthentication. frame.
Qed.

Lemma touches_fetchWithAuth {B} (url method : string) (headers : list (string * string))
    (body : ReqBody) (o : Outcome B) :
  touches_only known_key (VikasYadavApp.fetchWithAuth url method headers body o).
Proof. unfold VikasYadavApp.fetchWithAuth. frame. Qed.

(** *** The OCR tool *)

Lemma touches_ocr_showError (message : string) :
  touches_only known_key (OCRTool.showError message).
Proof. unfold OCRTool.showError. frame. Qed.
Hint Resolve touches_ocr_showError : frame.

Lemma touches_validateFile (file : OCRTool.File) :
  touches_only known_key (OCRTool.validateFile file).
Proof. unfold OCRTool.validateFile. frame. Qed.
Hint Resolve touches_validateFile : frame.

Lemma touches_handleFileSelection (file : option OCRTool.File) :
  touches_only known_key (OCRTool.handleFileSelection file).
Proof. unfold OCRTool.handleFileSelection. frame. Qed.

Lemma touches_loadProcessingHistory :
  touches_only known_key OCRTool.loadProcessingHistory.
Proof. unfold OCRTool.loadProcessingHistory. frame. Qed.

Lemma touches_saveProcessingHistory :
  touches_only known_key OCRTool.saveProcessingHistory.
Proof. unfold OCRTool.saveProcessingHistory. frame. Qed.
Hint Resolve touches_saveProcessingHistory : frame.

Lemma touches_renderProcessingHistory :
  touches_only known_key OCRTool.renderProcessingHistory.
Proof. unfold OCRTool.renderProcessingHistory. frame. Qed.
Hint Resolve touches_renderProcessingHistory : frame.

Lemma touches_addToHistory (result : OCRTool.Result) :
  touches_only known_key (OCRTool.addToHistory result).
Proof. unfold OCRTool.addToHistory. frame. Qed.
Hint Resolve touches_addToHistory : frame.

Lemma touches_track (eventType : string) (data : list (string * value)) :
  touches_only known_key (OCRTool.track eventType data).
Proof.
  unfold OCRTool.track. frame.
  eapply touches_event; [intros ? ?; reflexivity|done].
Qed.
Hint Resolve touches_track : frame.

Lemma touches_handleFileUpload (file : option OCRTool.File) (includeDetails : bool)
    (o : Outcome OCRTool.Result) :
  touches_only known_key (OCRTool.handleFileUpload file includeDetails o).
Proof.
  unfold OCRTool.handleFileUpload, OCRTool.showProcessing, OCRTool.hideResults,
    OCRTool.hideError, OCRTool.displayResults.
  frame.
Qed.

(** C3 (amended).  Every access to the local storage by the blog loader,
    the Scholar widget, the chat widget, the application controller and
    the OCR tool is to [chat_history_<session>], [scholar_stats_cache],
    [blog_rotation_index], [blog_last_rotation], [ocr_processing_history],
    [auth_token] or [blog_post_<slug>]. *)
Theorem widgets_touch_known_keys_only :
  ((forall o, touches_only known_key (Blog.init o))
   /\ (forall input o, touches_only known_key (Blog.search_submit input o))
   /\ (forall posts page, touches_only known_key (Blog.renderPosts posts page))
   /\ (forall posts, touches_only known_key (Blog.renderHomepagePosts posts))
   /\ (forall post slug, touches_only known_key (Blog.storePostData post slug)))
  /\ (forall options_apiUrl options_containerId,
        let this := ScholarStatsWidget.new options_apiUrl options_containerId in
        (forall net, touches_only known_key (ScholarStatsWidget.fetchStats this net))
        /\ (forall ignoreExpiry,
              touches_only known_key (ScholarStatsWidget.getCachedData this ignoreExpiry))
        /\ (forall metrics, touches_only known_key (ScholarStatsWidget.cacheData this metrics)))
  /\ (touches_only known_key ChatWidget.init
      /\ touches_only known_key ChatWidget.loadChatHistory
      /\ touches_only known_key ChatWidget.saveChatHistory
      /\ (forall content sender options,
            touches_only known_key (ChatWidget.addMessage content sender options))
      /\ (forall o, touches_only known_key (ChatWidget.sendMessage o))
      /\ touches_only known_key ChatWidget.clearHistory)
  /\ ((forall o, touches_only known_key (VikasYadavApp.checkAuthentication o))
      /\ (forall token o, touches_only known_key (VikasYadavApp.validateToken token o))
      /\ (forall B url method headers body (o : Outcome B),
            touches_only known_key (VikasYadavApp.fetchWithAuth url method headers body o)))
  /\ (touches_only known_key OCRTool.loadProcessingHistory
      /\ touches_only known_key OCRTool.saveProcessingHistory
      /\ (forall result, touches_only known_key (OCRTool.addToHistory result))
      /\ (forall file, touches_only known_key (OCRTool.handleFileSelection file))
      /\ (forall file includeDetails o,
            touches_only known_key (OCRTool.handleFileUpload file includeDetails o))).
Proof.
  repeat split; intros.
  - apply touches_init.
  - apply touches_search_submit.
  - apply touches_renderPosts.
  - apply touches_renderHomepagePosts.
  - apply touches_storePostData.
  - apply touches_fetchStats.
  - apply touches_getCachedData.
  - apply touches_cacheData.
  - apply touches_chat_init.
  - apply touches_loadChatHistory.
  - apply touches_saveChatHistory.
  - apply touches_addMessage.
  - apply touches_sendMessage.
  - apply touches_clearHistory.
  - apply touches_checkAuthentication.
  - apply touches_validateToken.
  - apply touches_fetchWithAuth.
  - apply touches_loadProcessingHistory.
  - apply touches_saveProcessingHistory.
  - apply touches_addToHistory.
  - apply touches_handleFileSelection.
  - apply touches_handleFileUpload.
Qed.

End Widgets.

(** C3, counterexample.  Rendering one post on the blog page writes the
    post data under [blog_post_hello-world], which is none of the six
    listed keys. *)
Lemma renderPosts_writes_unlisted_key :
  exists s' b' data,
    Blog.renderPosts (H:=RefPlatform.platform)
      [BlogFacts.post_of "Hello World" "ready"] 1
      (Blog.initial BlogFacts.blog_page) BlogFacts.browser0
    = (Ret tt, s', b')
    /\ trace b' = [EvSetItem "blog_post_hello-world" data]
    /\ listed_key "blog_post_hello-world" = false.
Proof.
  eexists _, _, _. split; [vm_compute; reflexivity|].
  split; [reflexivity|]. vm_compute. reflexivity.
Qed.

End Frame.

(** ** The OCR tool: validation of the file *)

Module OCRFacts.
Import OCRTool.

(** The description of the accepted files: at most 10 MB, of one of the
    five types. *)
Definition accepted (file : File) : Prop :=
  size file <= 10485760
  /\ type file ∈ ["image/jpeg"; "image/png"; "image/webp"; "image/tiff"; "application/pdf"].

(** The tool as the constructor leaves its constants, with any history,
    tracker and page. *)
Definition tool (history : value) (an : option string) (d : Dom) : t :=
  mk "https://api.vikasyadav.live" (10 * 1024 * 1024)
     ["image/jpeg"; "image/png"; "image/webp"; "image/tiff"; "application/pdf"]
     history an d.

(** The message for a rejected file. *)
Definition rejection (file : File) : string :=
  if 10485760 <? size file then "File size exceeds 10MB limit"
  else "Unsupported file type. Please use JPEG, PNG, WebP, TIFF, or PDF files.".

Section Facts.
Context `{Platform}.

Lemma ocr_showError_run (message : string) (w : t) (b : Browser) :
  exists w',
    showError message w b = (Ret tt, w', b)
    /\ (is_Some (error_section (dom w)) -> is_Some (error_message (dom w)) ->
        error_message (dom w') = Some message
        /\ error_section (dom w') = Some "block").
Proof.
  unfold showError, bind, get_self, modify_self.
  destruct (error_section (dom w)), (error_message (dom w));
    eexists; (split; [reflexivity|]); intros [? ?] [? ?]; try done.
Qed.

Lemma validateFile_run
    (history : value) (an : option string) (d : Dom) (file : File) (b : Browser) :
  let w := tool history an d in
  exists w',
    validateFile file w b = (Ret (bool_decide (accepted file)), w', b)
    /\ (accepted file -> w' = w)
    /\ (~ accepted file ->
        showError (rejection file) w b = (Ret tt, w', b)
        /\ (is_Some (error_section d) -> is_Some (error_message d) ->
            error_message (dom w') = Some (rejection file)
            /\ error_section (dom w') = Some "block")).
Proof.
  intros w. unfold validateFile, accepted, rejection.
  unfold bind at 1, get_self. cbn [maxFileSize supportedTypes tool w].
  change (10 * 1024 * 1024) with 10485760.
  destruct (Z.ltb_spec 10485760 (size file)) as [Hbig|Hsmall].
  - destruct (ocr_showError_run (too_large 10485760) w b) as (w' & Hrun & Hdom).
    exists w'. unfold bind. rewrite Hrun.
    rewrite bool_decide_eq_false_2 by (intros [? _]; lia).
    split; [reflexivity|]. split; [intros [? _]; lia|]. intros _.
    split; [exact Hrun|exact Hdom].
  - destruct (decide (type file ∈ supportedTypes w)) as [Hin|Hout].
    + rewrite (bool_decide_eq_true_2 _ Hin). cbn [negb].
      exists w. rewrite bool_decide_eq_true_2 by done.
      split; [reflexivity|]. split; [done|]. intros Hno. by destruct Hno.
    + rewrite (bool_decide_eq_false_2 _ Hout). cbn [negb].
      destruct (ocr_showError_run unsupported w b) as (w' & Hrun & Hdom).
      exists w'. unfold bind. rewrite Hrun.
      rewrite bool_decide_eq_false_2 by (by intros [_ ?]).
      split; [reflexivity|]. split; [by intros [_ ?]|]. intros _.
      split; [exact Hrun|exact Hdom].
Qed.

(** C10.  [validateFile] returns [true] exactly for the files of at most
    10485760 bytes whose type is one of the five supported types, and then
    changes nothing.  For a rejected file it returns [false] after
    [showError] with the message of the rejection: on a page with the error
    elements the message is written and the error section displayed; and
    [handleFileUpload] returns with the trace of the browser as it was: no
    request is sent. *)
Theorem validateFile_accepts_iff
    (history : value) (an : option string) (d : Dom) (file : File) (b : Browser) :
  let w := tool history an d in
  exists w',
    validateFile file w b = (Ret (bool_decide (accepted file)), w', b)
    /\ (accepted file -> w' = w)
    /\ (~ accepted file ->
        showError (rejection file) w b = (Ret tt, w', b)
        /\ (is_Some (error_section d) -> is_Some (error_message d) ->
            error_message (dom w') = Some (rejection file)
            /\ error_section (dom w') = Some "block")
        /\ forall includeDetails o,
             handleFileUpload (Some file) includeDetails o w b = (Ret tt, w', b)).
Proof.
  intros w.
  destruct (validateFile_run history an d file b) as (w' & Hrun & Hyes & Hno).
  exists w'. split; [exact Hrun|]. split; [exact Hyes|].
  intros Hrejected. destruct (Hno Hrejected) as [Hshow Hdom].
  split; [exact Hshow|]. split; [exact Hdom|].
  intros includeDetails o. unfold handleFileUpload.
  rewrite (bind_ret _ _ _ _ _ _ _ Hrun).
  by rewrite bool_decide_eq_false_2.
Qed.

End Facts.

(** *** Runs on the reference platform *)

Local Existing Instance RefPlatform.platform.

(** The page of the tool, with its error elements. *)
Definition page0 : Dom :=
  mkDom (Some "none") (Some "") (Some "none") (Some "") (Some None) (Some (VArr []))
        (Some (mkButton "Process Document" false)) (Some (mkButton "Process" false)).

Definition browser0 : Browser := mkBrowser 1700000000000 ∅ [].

Definition scan_pdf : File := mkFile "scan.pdf" 10485760 "application/pdf" 1699999999000.
Definition photo_png : File := mkFile "photo.png" 10485761 "image/png" 1699999999000.

Definition any_answer : Outcome Result :=
  mkOutcome 900 (inr (mkResponse true 200 "OK"
    (Some (mkResult (VBool true) None (Some "photo.png") (Some "text") (VNum 93) (VNum 1))))).

(** C10, witness: a PDF of exactly 10 MB is accepted; a PNG of one byte
    more is rejected, the message is shown and nothing is sent. *)
Lemma validateFile_accepts_iff_witness :
  validateFile scan_pdf (tool (VArr []) None page0) browser0
  = (Ret true, tool (VArr []) None page0, browser0)
  /\ exists w',
      validateFile photo_png (tool (VArr []) None page0) browser0 = (Ret false, w', browser0)
      /\ error_message (dom w') = Some "File size exceeds 10MB limit"
      /\ error_section (dom w') = Some "block"
      /\ handleFileUpload (Some photo_png) true any_answer (tool (VArr []) None page0) browser0
         = (Ret tt, w', browser0).
Proof.
  assert (Hpdf : accepted scan_pdf).
  { split; [simpl; lia|]. simpl. set_solver. }
  assert (Hpng : ~ accepted photo_png).
  { intros [Hsize _]. simpl in Hsize. lia. }
  split.
  - destruct (validateFile_accepts_iff (VArr []) None page0 scan_pdf browser0)
      as (w' & Hrun & Hsame & _).
    rewrite Hrun, (Hsame Hpdf). by rewrite bool_decide_eq_true_2.
  - destruct (validateFile_accepts_iff (VArr []) None page0 photo_png browser0)
      as (w' & Hrun & _ & Hrejected).
    destruct (Hrejected Hpng) as (_ & Hdom & Hupload).
    destruct Hdom as [Hmessage Hsection]; [by eexists|by eexists|].
    exists w'. rewrite Hrun. rewrite bool_decide_eq_false_2 by done.
    split; [reflexivity|]. split; [exact Hmessage|]. split; [exact Hsection|].
    apply Hupload.
Defined.

End OCRFacts.

(** ** Strings *)

Module StringFacts.

(** Every character of the string is in the class. *)
Fixpoint all_chars (cls : ascii -> bool) (s : string) : bool :=
  match s with
  | String c s' => cls c && all_chars cls s'
  | EmptyString => true
  end.

Lemma all_chars_impl (P Q : ascii -> bool) (s : string) :
  (forall c, P c = true -> Q c = true) ->
  all_chars P s = true -> all_chars Q s = true.
Proof.
  intros HPQ. induction s as [|c s IH]; simpl; [done|].
  rewrite !andb_true_iff. intros [? ?]. auto.
Qed.


Lemma length_trimStart (s : string) :
  (String.length (JsString.trimStart s) <= String.length s)%nat.
Proof.
  induction s as [|c s IH]; simpl; [done|].
  destruct (JsString.is_space c); simpl; lia.
Qed.

Lemma length_trimEnd (s : string) :
  (String.length (JsString.trimEnd s) <= String.length s)%nat.
Proof.
  induction s as [|c s IH]; simpl; [done|].
  destruct (JsString.trimEnd s) as [|d t]; simpl in *.
  - destruct (JsString.is_space c); simpl; lia.
  - lia.
Qed.

Lemma length_trim (s : string) :
  (String.length (JsString.trim s) <= String.length s)%nat.
Proof.
  unfold JsString.trim.
  pose proof (length_trimEnd (JsString.trimStart s)).
  pose proof (length_trimStart s). lia.
Qed.

(** A string that [trimStart] leaves alone: it is empty or starts with a
    character that is not a space. *)
Definition starts_clean (s : string) : bool :=
  match s with
  | String c _ => negb (JsString.is_space c)
  | EmptyString => true
  end.

Lemma trimStart_clean (s : string) : starts_clean (JsString.trimStart s) = true.
Proof.
  induction s as [|c s IH]; simpl; [done|].
  destruct (JsString.is_space c) eqn:E; [done|]. simpl. by rewrite E.
Qed.

Lemma trimStart_id (s : string) : starts_clean s = true -> JsString.trimStart s = s.
Proof. destruct s as [|c s]; simpl; [done|]. by destruct (JsString.is_space c). Qed.

Lemma trimEnd_idem (s : string) :
  JsString.trimEnd (JsString.trimEnd s) = JsString.trimEnd s.
Proof.
  induction s as [|c s IH]; simpl; [done|].
  destruct (JsString.trimEnd s) as [|d t] eqn:E.
  - destruct (JsString.is_space c) eqn:Ec; simpl; [done|]. by rewrite Ec.
  - simpl in *. rewrite IH. done.
Qed.

Lemma trimEnd_clean (s : string) :
  starts_clean s = true -> starts_clean (JsString.trimEnd s) = true.
Proof.
  destruct s as [|c s]; simpl; [done|].
  destruct (JsString.trimEnd s); [|done].
  destruct (JsString.is_space c) eqn:E; simpl; [done|]. by rewrite E.
Qed.

Lemma trim_idem (s : string) : JsString.trim (JsString.trim s) = JsString.trim s.
Proof.
  unfold JsString.trim.
  rewrite (trimStart_id (JsString.trimEnd _)).
  - apply trimEnd_idem.
  - apply trimEnd_clean, trimStart_clean.
Qed.

Lemma length_take (n : nat) (s : string) :
  (String.length (JsString.take n s) <= n)%nat.
Proof.
  unfold JsString.take. revert s.
  induction n as [|n IH]; intros [|c s]; simpl; try lia.
  specialize (IH s). lia.
Qed.

Lemma take_short (n : nat) (s : string) :
  (String.length s <= n)%nat -> JsString.take n s = s.
Proof.
  unfold JsString.take. revert s.
  induction n as [|n IH]; intros [|c s]; simpl; try done; try lia.
  intros Hn. f_equal. apply IH. lia.
Qed.

Lemma all_chars_take (P : ascii -> bool) (n : nat) (s : string) :
  all_chars P s = true -> all_chars P (JsString.take n s) = true.
Proof.
  unfold JsString.take. revert s.
  induction n as [|n IH]; intros [|c s]; simpl; try done.
  rewrite !andb_true_iff. intros [? ?]. auto.
Qed.

Lemma length_append (s t : string) :
  String.length (s +:+ t) = (String.length s + String.length t)%nat.
Proof. induction s as [|c s IH]; simpl; [done|]. by rewrite IH. Qed.

Lemma prefix_cons (a b : ascii) (p s : string) :
  String.prefix (String a p) (String b s) = bool_decide (a = b) && String.prefix p s.
Proof.
  cbn [String.prefix]. destruct (ascii_dec a b) as [->|Hne].
  - by rewrite bool_decide_eq_true_2.
  - by rewrite bool_decide_eq_false_2.
Qed.

Lemma append_cons (c : ascii) (s t : string) : String c s +:+ t = String c (s +:+ t).
Proof. reflexivity. Qed.

Lemma append_nil_l (t : string) : "" +:+ t = t.
Proof. reflexivity. Qed.

Lemma append_snoc (cur : string) (c : ascii) (s : string) :
  (cur +:+ String c EmptyString) +:+ s = cur +:+ String c s.
Proof.
  induction cur as [|d cur IH]; [done|].
  rewrite !append_cons. by rewrite IH.
Qed.

Lemma append_nil_r (s : string) : s +:+ "" = s.
Proof. induction s as [|c s IH]; [done|]. by rewrite append_cons, IH. Qed.

Lemma prefix_cons_ne (a b : ascii) (p s : string) :
  Ascii.eqb a b = false -> String.prefix (String a p) (String b s) = false.
Proof.
  intros Hne. cbn [String.prefix]. destruct (ascii_dec a b) as [->|]; [|done].
  by rewrite Ascii.eqb_refl in Hne.
Qed.

Lemma prefix_cons_eq (a : ascii) (p s : string) :
  String.prefix (String a p) (String a s) = String.prefix p s.
Proof. cbn [String.prefix]. by destruct (ascii_dec a a). Qed.

Lemma prefix_nil (s : string) : String.prefix "" s = true.
Proof. by destruct s. Qed.

Lemma includes_cons (c : ascii) (s p : string) :
  JsString.includes (String c s) p
  = String.prefix p (String c s) || JsString.includes s p.
Proof. reflexivity. Qed.

(** Could [p] be a prefix of [x +:+ t] for a string [x] of the class? *)
Fixpoint prefix_past (cls : ascii -> bool) (p t : string) : bool :=
  String.prefix p t
  || match p with
     | String a p' => cls a && prefix_past cls p' t
     | EmptyString => false
     end.

Lemma prefix_past_complete (cls : ascii -> bool) (x p t : string) :
  all_chars cls x = true -> String.prefix p (x +:+ t) = true ->
  prefix_past cls p t = true.
Proof.
  revert p. induction x as [|c x IH]; intros p Hx Hp.
  { rewrite append_nil_l in Hp. destruct p; simpl; by rewrite Hp. }
  destruct p as [|a p]; [by destruct t|].
  rewrite append_cons, prefix_cons in Hp. cbn [all_chars] in Hx.
  apply andb_true_iff in Hx as [Hc Hx]. apply andb_true_iff in Hp as [Hac Hp].
  apply bool_decide_eq_true in Hac as ->. cbn [prefix_past].
  rewrite Hc, (IH p Hx Hp). apply orb_true_r.
Qed.

Lemma includes_class_app (cls : ascii -> bool) (x p t : string) :
  all_chars cls x = true -> prefix_past cls p t = false ->
  JsString.includes (x +:+ t) p = JsString.includes t p.
Proof.
  intros Hx Hpast. induction x as [|c x IH]; [done|].
  rewrite append_cons, includes_cons.
  cbn [all_chars] in Hx. apply andb_true_iff in Hx as [Hc Hx].
  rewrite (IH Hx).
  destruct (String.prefix p (String c (x +:+ t))) eqn:Hp; [|done].
  rewrite <- append_cons in Hp.
  apply (prefix_past_complete cls) in Hp; [congruence|].
  cbn [all_chars]. by rewrite Hc, Hx.
Qed.

Lemma trimEnd_app (s t : string) :
  JsString.trimEnd t <> "" -> JsString.trimEnd (s +:+ t) = s +:+ JsString.trimEnd t.
Proof.
  intros Ht. induction s as [|c s IH]; [done|].
  rewrite !append_cons. cbn [JsString.trimEnd]. rewrite IH.
  destruct (s +:+ JsString.trimEnd t) eqn:E; [|done].
  destruct s; [|done]. by rewrite append_nil_l in E.
Qed.

Lemma trimEnd_no_space (s : string) :
  all_chars (fun c => negb (JsString.is_space c)) s = true -> JsString.trimEnd s = s.
Proof.
  induction s as [|c s IH]; [done|]. cbn [all_chars JsString.trimEnd].
  rewrite andb_true_iff, negb_true_iff. intros [Hc Hs]. rewrite (IH Hs), Hc.
  by destruct s.
Qed.

End StringFacts.

(** ** The blog: slugs *)

Module SlugFacts.
Import Blog StringFacts.

(** The characters of a slug: [a-z0-9-]. *)
Definition slug_char (c : ascii) : bool := Regex.is_lower_alnum c || Regex.is_dash c.

(** No dash follows a dash; [prev_dash] tells whether a dash precedes the
    string. *)
Fixpoint single_dashes (prev_dash : bool) (s : string) : bool :=
  match s with
  | String c s' =>
      if Regex.is_dash c then negb prev_dash && single_dashes true s'
      else single_dashes false s'
  | EmptyString => true
  end.

Lemma is_dash_eq (c : ascii) : Regex.is_dash c = true -> c = "-"%char.
Proof.
  unfold Regex.is_dash. intros Hc. apply Nat.eqb_eq in Hc.
  rewrite <- (ascii_nat_embedding c), Hc. reflexivity.
Qed.

Lemma keep_all (cls : ascii -> bool) (s : string) :
  all_chars cls (Regex.keep cls s) = true.
Proof.
  induction s as [|c s IH]; simpl; [done|].
  destruct (cls c) eqn:E; simpl; [|done]. by rewrite E.
Qed.

Lemma collapse_all (P Q cls : ascii -> bool) (r : bool) (s : string) :
  (forall c, P c = true -> cls c = false -> Q c = true) ->
  Q "-"%char = true ->
  all_chars P s = true -> all_chars Q (Regex.collapse cls r s) = true.
Proof.
  intros HPQ Hdash. revert r.
  induction s as [|c s IH]; intros r; simpl; [done|].
  rewrite andb_true_iff. intros [Hc Hs].
  destruct (cls c) eqn:E.
  - destruct r; simpl; [by apply IH|]. rewrite Hdash. by apply IH.
  - simpl. rewrite (HPQ c Hc E). by apply IH.
Qed.

Lemma collapse_single_dashes (r : bool) (s : string) :
  single_dashes r (Regex.collapse Regex.is_dash r s) = true.
Proof.
  revert r. induction s as [|c s IH]; intros r; simpl; [done|].
  destruct (Regex.is_dash c) eqn:E.
  - destruct r; [apply IH|]. simpl. apply IH.
  - simpl. rewrite E. apply IH.
Qed.

Lemma single_dashes_weaken (r : bool) (s : string) :
  single_dashes r s = true -> single_dashes false s = true.
Proof.
  destruct s as [|c s]; simpl; [done|].
  destruct (Regex.is_dash c); [|done]. by destruct r.
Qed.

Lemma single_dashes_take (r : bool) (n : nat) (s : string) :
  single_dashes r s = true -> single_dashes r (JsString.take n s) = true.
Proof.
  unfold JsString.take. revert r s.
  induction n as [|n IH]; intros r [|c s]; simpl; try done.
  destruct (Regex.is_dash c).
  - rewrite !andb_true_iff. intros [? ?]. auto.
  - apply IH.
Qed.

Lemma single_dashes_includes (s : string) :
  single_dashes false s = true -> JsString.includes s "--" = false.
Proof.
  induction s as [|c s IH]; [done|].
  cbn [single_dashes JsString.includes]. rewrite prefix_cons.
  destruct (Regex.is_dash c) eqn:E.
  - cbn [negb andb]. intros Hs. rewrite (IH (single_dashes_weaken _ _ Hs)).
    destruct s as [|d s]; [by rewrite andb_false_r|].
    rewrite prefix_cons. cbn [single_dashes] in Hs.
    destruct (Regex.is_dash d) eqn:Ed; [done|].
    rewrite (bool_decide_eq_false_2 ("-"%char = d)); [by rewrite andb_false_r|].
    intros <-. by vm_compute in Ed.
  - intros Hs. rewrite (IH Hs).
    rewrite (bool_decide_eq_false_2 ("-"%char = c)); [done|].
    intros <-. by vm_compute in E.
Qed.

Lemma createSlug_shape (title : string) :
  (String.length (utils.createSlug title) <= 100)%nat
  /\ all_chars slug_char (utils.createSlug title) = true
  /\ JsString.includes (utils.createSlug title) "--" = false.
Proof.
  unfold utils.createSlug.
  split; [apply length_take|]. split.
  - apply all_chars_take.
    apply (collapse_all slug_char slug_char); [by intros c ? _|done|].
    eapply collapse_all; [| |apply keep_all]; [|done].
    intros c Hc Hsp. unfold slug_char. simpl in Hc. rewrite Hsp in Hc.
    by rewrite orb_false_r in Hc.
  - apply single_dashes_includes, single_dashes_take, collapse_single_dashes.
Qed.

Lemma lower_slug_char (c : ascii) : slug_char c = true -> JsString.lower_char c = c.
Proof. destruct c as [[] [] [] [] [] [] [] []]; vm_compute; congruence. Qed.

Lemma space_slug_char (c : ascii) : slug_char c = true -> JsString.is_space c = false.
Proof. destruct c as [[] [] [] [] [] [] [] []]; vm_compute; congruence. Qed.

Lemma toLowerCase_slug (s : string) :
  all_chars slug_char s = true -> JsString.toLowerCase s = s.
Proof.
  induction s as [|c s IH]; simpl; [done|].
  rewrite andb_true_iff. intros [Hc Hs]. by rewrite (lower_slug_char c Hc), IH.
Qed.

Lemma keep_id (cls : ascii -> bool) (s : string) :
  all_chars cls s = true -> Regex.keep cls s = s.
Proof.
  induction s as [|c s IH]; simpl; [done|].
  rewrite andb_true_iff. intros [Hc Hs]. by rewrite Hc, IH.
Qed.

Lemma collapse_none (cls : ascii -> bool) (r : bool) (s : string) :
  all_chars (fun c => negb (cls c)) s = true -> Regex.collapse cls r s = s.
Proof.
  revert r. induction s as [|c s IH]; intros r; simpl; [done|].
  rewrite andb_true_iff, negb_true_iff. intros [Hc Hs]. by rewrite Hc, IH.
Qed.

Lemma collapse_single (r : bool) (s : string) :
  single_dashes r s = true -> Regex.collapse Regex.is_dash r s = s.
Proof.
  revert r. induction s as [|c s IH]; intros r; simpl; [done|].
  destruct (Regex.is_dash c) eqn:E.
  - rewrite andb_true_iff, negb_true_iff. intros [-> Hs].
    by rewrite (is_dash_eq c E), IH.
  - intros Hs. by rewrite IH.
Qed.

Lemma includes_single_dashes (s : string) :
  JsString.includes s "--" = false -> single_dashes false s = true.
Proof.
  induction s as [|c s IH]; [done|].
  cbn [single_dashes JsString.includes]. rewrite prefix_cons.
  rewrite orb_false_iff. intros [Hp Hs]. specialize (IH Hs).
  destruct (Regex.is_dash c) eqn:E; [|done]. cbn [negb andb].
  apply is_dash_eq in E as ->.
  rewrite bool_decide_eq_true_2 in Hp by done.
  destruct s as [|d s]; [done|]. rewrite prefix_cons in Hp.
  cbn [single_dashes] in *.
  destruct (Regex.is_dash d) eqn:Ed; [|done].
  apply is_dash_eq in Ed as ->. rewrite bool_decide_eq_true_2 in Hp by done.
  by destruct s.
Qed.

(** X1.  A slug is made of the characters [a-z0-9-], no two of its dashes
    are adjacent, and it has 100 characters at most. *)
Theorem createSlug_url_safe (title : string) :
  let slug := utils.createSlug title in
  (String.length slug <= 100)%nat
  /\ all_chars slug_char slug = true
  /\ JsString.includes slug "--" = false.
Proof. exact (createSlug_shape title). Qed.

(** X2.  A slug is its own slug. *)
Theorem createSlug_idempotent (title : string) :
  utils.createSlug (utils.createSlug title) = utils.createSlug title.
Proof.
  destruct (createSlug_shape title) as (Hlen & Hchars & Hdashes).
  set (slug := utils.createSlug title) in *.
  unfold utils.createSlug at 1.
  rewrite (toLowerCase_slug slug Hchars).
  rewrite keep_id.
  2:{ apply (all_chars_impl slug_char); [|done].
      intros c Hc. unfold slug_char in Hc.
      destruct (Regex.is_lower_alnum c); [reflexivity|]. cbn [orb] in *.
      rewrite Hc. apply orb_true_r. }
  rewrite (collapse_none JsString.is_space).
  2:{ apply (all_chars_impl slug_char); [|done].
      intros c Hc. by rewrite (space_slug_char c Hc). }
  rewrite collapse_single by by apply includes_single_dashes.
  by apply take_short.
Qed.

End SlugFacts.

(** ** The blog: titles and excerpts *)

Module TextFacts.
Import Blog StringFacts.

Definition good_title (title : string) : Prop :=
  (0 < String.length title < 200)%nat /\ JsString.trim title = title.

Lemma title_from_idea (o : option string) :
  good_title
    (default "Untitled Post"
       (match o with
        | Some idea =>
            if JsString.nonempty idea then
              let firstLine := JsString.trim (Regex.first_line idea) in
              if (0 <? String.length firstLine)%nat && (String.length firstLine <? 200)%nat
              then Some firstLine else None
            else None
        | None => None
        end)).
Proof.
  assert (Hdefault : good_title "Untitled Post") by (split; [simpl; lia|reflexivity]).
  destruct o as [idea|]; [|done].
  destruct (JsString.nonempty idea); [|done]. cbv zeta.
  destruct (_ && _) eqn:Eb; [|done].
  apply andb_true_iff in Eb as [E1 E2]. apply Nat.ltb_lt in E1, E2.
  split; [done|apply trim_idem].
Qed.

(** X3.  A title is never empty, has fewer than 200 characters and has no
    white space at its ends. *)
Theorem getTitle_bounds (post : Post) :
  let title := utils.getTitle post in
  (0 < String.length title < 200)%nat /\ JsString.trim title = title.
Proof.
  cbv zeta. unfold utils.getTitle.
  destruct (post !! "name") as [name|]; [|apply title_from_idea].
  destruct (JsString.nonempty name); [|apply title_from_idea].
  destruct (JsString.nonempty (JsString.trim name)) eqn:Et; [|apply title_from_idea].
  destruct (String.length name <? 200)%nat eqn:El; [|apply title_from_idea].
  cbn [andb]. apply Nat.ltb_lt in El. pose proof (length_trim name).
  split; [|apply trim_idem]. split; [|lia].
  destruct (JsString.trim name); [done|simpl; lia].
Qed.

(** The text of an excerpt that is taken from [e]. *)
Definition shortened (e : string) : string :=
  if (200 <? String.length e)%nat
  then JsString.trim (JsString.take 200 e) +:+ "..."
  else JsString.trim e.

Lemma length_shortened (e : string) : (String.length (shortened e) <= 203)%nat.
Proof.
  unfold shortened. destruct (200 <? String.length e)%nat eqn:E.
  - rewrite length_append. pose proof (length_trim (JsString.take 200 e)).
    pose proof (length_take 200 e). simpl. lia.
  - apply Nat.ltb_ge in E. pose proof (length_trim e). lia.
Qed.

(** X4.  An excerpt has 203 characters at most. *)
Theorem getExcerpt_bounded (idea : option string) :
  (String.length (utils.getExcerpt idea) <= 203)%nat.
Proof.
  unfold utils.getExcerpt. destruct idea as [i|]; [|simpl; lia].
  destruct (negb (JsString.nonempty i)); [simpl; lia|].
  cbv zeta. apply length_shortened.
Qed.

(** The line feed, and the separator of two paragraphs. *)
Definition nl : string := String (ascii_of_nat 10) EmptyString.
Definition blank_line : string :=
  String (ascii_of_nat 10) (String (ascii_of_nat 10) EmptyString).

(** No blank line inside the text. *)
Definition one_paragraph (s : string) : Prop := JsString.includes s blank_line = false.

(** The text starts with a character that is not a line feed. *)
Definition starts_with_text (s : string) : Prop :=
  match s with
  | String c _ => Regex.is_newline c = false
  | EmptyString => False
  end.

Lemma is_newline_eq (c : ascii) : Regex.is_newline c = true -> c = ascii_of_nat 10.
Proof.
  unfold Regex.is_newline. intros Hc. apply Nat.eqb_eq in Hc.
  by rewrite <- (ascii_nat_embedding c), Hc.
Qed.

Lemma one_paragraph_cons (c : ascii) (s : string) :
  one_paragraph (String c s) ->
  one_paragraph s
  /\ (Regex.is_newline c = true ->
      match s with String d _ => Regex.is_newline d = false | EmptyString => True end).
Proof.
  unfold one_paragraph, blank_line. cbn [JsString.includes].
  rewrite orb_false_iff. intros [Hp Hs]. split; [done|].
  intros Hc. apply is_newline_eq in Hc as ->.
  destruct s as [|d s]; [done|].
  rewrite !prefix_cons in Hp. rewrite bool_decide_eq_true_2 in Hp by done.
  destruct (Regex.is_newline d) eqn:Ed; [|done].
  apply is_newline_eq in Ed as ->. rewrite bool_decide_eq_true_2 in Hp by done.
  by destruct s.
Qed.

Lemma split_one_paragraph (s cur : string) :
  one_paragraph s -> Regex.split_paragraphs s cur false = [cur +:+ s].
Proof.
  revert cur. induction s as [|c s IH]; intros cur Hs.
  { cbn [Regex.split_paragraphs]. by rewrite append_nil_r. }
  apply one_paragraph_cons in Hs as [Hs Hc]. cbn [Regex.split_paragraphs].
  destruct (Regex.is_newline c) eqn:E.
  - specialize (Hc eq_refl). destruct s as [|d s].
    + done.
    + rewrite Hc. rewrite IH by done. by rewrite append_snoc.
  - rewrite IH by done. by rewrite append_snoc.
Qed.

Lemma split_after_separator (s : string) :
  starts_with_text s ->
  Regex.split_paragraphs s EmptyString true = Regex.split_paragraphs s EmptyString false.
Proof. destruct s as [|c s]; [done|]. simpl. by intros ->. Qed.

Lemma split_two_paragraphs (t body cur : string) :
  one_paragraph t -> one_paragraph body -> starts_with_text body ->
  exists p, Regex.split_paragraphs (t +:+ blank_line +:+ body) cur false = [p; body].
Proof.
  intros Ht Hbody Hstart. revert cur Ht.
  assert (Hrest : Regex.split_paragraphs body EmptyString true = [body]).
  { rewrite split_after_separator by done. by rewrite split_one_paragraph. }
  assert (Hsep : forall cur,
    Regex.split_paragraphs (blank_line +:+ body) cur false = [cur; body]).
  { intros cur. unfold blank_line. rewrite !append_cons, append_nil_l.
    cbn [Regex.split_paragraphs].
    change (Regex.is_newline (ascii_of_nat 10)) with true. cbv iota.
    by rewrite Hrest. }
  induction t as [|c t IH]; intros cur Ht.
  { exists cur. apply Hsep. }
  apply one_paragraph_cons in Ht as [Ht Hc].
  rewrite append_cons. cbn [Regex.split_paragraphs].
  destruct (Regex.is_newline c) eqn:E.
  - specialize (Hc eq_refl). destruct t as [|d t].
    + exists cur. rewrite append_nil_l. unfold blank_line.
      rewrite !append_cons, append_nil_l.
      change (Regex.is_newline (ascii_of_nat 10)) with true. cbv iota.
      cbn [Regex.split_paragraphs].
      change (Regex.is_newline (ascii_of_nat 10)) with true. cbv iota.
      by rewrite Hrest.
    + rewrite append_cons. rewrite Hc. rewrite <- append_cons. apply (IH _ Ht).
  - apply (IH _ Ht).
Qed.

(** X5.  The excerpt of a text that is one paragraph is taken from the
    text; the excerpt of a text with a first paragraph, a blank line and a
    second paragraph is taken from the second paragraph.  It is cut after
    200 characters, with an ellipsis. *)
Theorem getExcerpt_paragraph (t body : string) :
  one_paragraph t -> one_paragraph body -> starts_with_text body ->
  utils.getExcerpt (Some t) = shortened t
  /\ utils.getExcerpt (Some (t +:+ blank_line +:+ body)) = shortened body.
Proof.
  intros Ht Hbody Hstart. split.
  - unfold utils.getExcerpt. destruct t as [|c t]; [done|].
    cbn [JsString.nonempty negb]. rewrite split_one_paragraph by done.
    reflexivity.
  - unfold utils.getExcerpt.
    destruct (split_two_paragraphs t body EmptyString Ht Hbody Hstart) as [p Hp].
    replace (negb (JsString.nonempty (t +:+ blank_line +:+ body))) with false
      by (by destruct t).
    rewrite Hp. cbn [length Nat.ltb Nat.leb lookup list_lookup].
    destruct body as [|d body]; [done|]. reflexivity.
Qed.

(** X5, witness: a text of one paragraph, and the same text as title of a
    second paragraph. *)
Lemma getExcerpt_paragraph_witness :
  utils.getExcerpt (Some "A day in the lab") = "A day in the lab"
  /\ utils.getExcerpt (Some ("A day in the lab" +:+ blank_line +:+ "We measured twice.  "))
     = "We measured twice.".
Proof.
  exact (getExcerpt_paragraph "A day in the lab" "We measured twice.  "
           eq_refl eq_refl eq_refl).
Defined.

End TextFacts.

(** ** The blog: Google Drive links *)

Module DriveFacts.
Import Blog StringFacts.

Lemma run_class_app (cls : ascii -> bool) (x t : string) :
  all_chars cls x = true ->
  match t with String c _ => cls c = false | EmptyString => True end ->
  Regex.run cls (x +:+ t) = x.
Proof.
  intros Hx Ht. induction x as [|c x IH].
  - rewrite append_nil_l. destruct t as [|d t]; [done|]. simpl. by rewrite Ht.
  - cbn [all_chars] in Hx. apply andb_true_iff in Hx as [Hc Hx].
    rewrite append_cons. cbn [Regex.run]. by rewrite Hc, (IH Hx).
Qed.

Lemma drop_chars_length_app (x t : string) :
  Regex.drop_chars (String.length x) (x +:+ t) = t.
Proof. induction x as [|c x IH]; [by destruct t|]. apply IH. Qed.

Lemma search_cons (lit : string) (cls : ascii -> bool) (suffix : string)
    (c : ascii) (s : string) :
  Regex.search lit cls suffix (String c s)
  = match Regex.match_here lit cls suffix (String c s) with
    | Some g => Some g
    | None => Regex.search lit cls suffix s
    end.
Proof. reflexivity. Qed.

Lemma match_here_miss (lit : string) (cls : ascii -> bool) (suffix s : string) :
  String.prefix lit s = false -> Regex.match_here lit cls suffix s = None.
Proof. unfold Regex.match_here. by intros ->. Qed.

(** A pattern whose first character is outside the class has no match
    that starts inside a string of the class. *)
Lemma search_class_app (a : ascii) (lit : string) (cls cls' : ascii -> bool)
    (suffix x t : string) :
  all_chars cls x = true -> cls a = false ->
  Regex.search (String a lit) cls' suffix (x +:+ t)
  = Regex.search (String a lit) cls' suffix t.
Proof.
  intros Hx Ha. induction x as [|c x IH]; [done|].
  cbn [all_chars] in Hx. apply andb_true_iff in Hx as [Hc Hx].
  rewrite append_cons, search_cons, match_here_miss; [by apply IH|].
  rewrite prefix_cons. rewrite bool_decide_eq_false_2; [done|]. congruence.
Qed.

(** Evaluation of [includes] and [search] over the literal start of a
    string. *)
Ltac skip_includes :=
  repeat (rewrite includes_cons;
          repeat rewrite prefix_cons_eq;
          rewrite prefix_cons_ne by reflexivity;
          cbn [orb]).

Ltac skip_search :=
  repeat (rewrite search_cons, match_here_miss
            by (repeat rewrite prefix_cons_eq; by apply prefix_cons_ne)).

Ltac literal_start := rewrite ?append_cons, ?append_nil_l.

Lemma id_char_no_space (c : ascii) :
  Regex.is_id_char c = true -> negb (JsString.is_space c) = true.
Proof. destruct c as [[] [] [] [] [] [] [] []]; vm_compute; congruence. Qed.

Definition thumbnail (id : string) : string :=
  "https://drive.google.com/thumbnail?id=" +:+ id +:+ "&sz=w800".

Section Links.
Variable id : string.
Hypothesis id_chars : all_chars Regex.is_id_char id = true.
Hypothesis id_filled : id <> "".

Lemma trim_link (start tail : string) :
  StringFacts.starts_clean start = true -> start <> "" ->
  JsString.trimEnd tail = tail ->
  JsString.trim (start +:+ id +:+ tail) = start +:+ id +:+ tail.
Proof.
  intros Hstart Hfilled Htail. unfold JsString.trim.
  rewrite trimStart_id by (destruct start; [done|exact Hstart]).
  assert (Hid : JsString.trimEnd (id +:+ tail) = id +:+ tail).
  { destruct tail as [|c tail].
    - rewrite append_nil_r. apply trimEnd_no_space.
      apply (all_chars_impl Regex.is_id_char); [apply id_char_no_space|done].
    - rewrite trimEnd_app; [by rewrite Htail|]. by rewrite Htail. }
  rewrite trimEnd_app; [by rewrite Hid|]. rewrite Hid.
  destruct id; [done|discriminate].
Qed.

Lemma prefix_self (p x : string) : String.prefix p (p +:+ x) = true.
Proof.
  induction p as [|c p IH]; [apply prefix_nil|]. by rewrite append_cons, prefix_cons_eq.
Qed.

Lemma group_is_id (lit tail : string) :
  match tail with String c _ => Regex.is_id_char c = false | EmptyString => True end ->
  Regex.match_here lit Regex.is_id_char "" (lit +:+ id +:+ tail) = Some id.
Proof.
  intros Htail. unfold Regex.match_here. rewrite prefix_self.
  rewrite drop_chars_length_app.
  rewrite run_class_app by done. rewrite drop_chars_length_app, prefix_nil.
  destruct id; [done|reflexivity].
Qed.

Lemma search_hit (lit tail s : string) :
  s = lit +:+ id +:+ tail ->
  match tail with String c _ => Regex.is_id_char c = false | EmptyString => True end ->
  Regex.search lit Regex.is_id_char "" s = Some id.
Proof.
  intros -> Htail.
  assert (Hunfold : forall s,
    Regex.search lit Regex.is_id_char "" s
    = match Regex.match_here lit Regex.is_id_char "" s with
      | Some g => Some g
      | None => match s with
                | String _ s' => Regex.search lit Regex.is_id_char "" s'
                | EmptyString => None
                end
      end) by (by intros []).
  by rewrite Hunfold, group_is_id.
Qed.

Lemma no_direct_marker (tail : string) :
  prefix_past Regex.is_id_char "drive.google.com/uc?" tail = false ->
  JsString.includes tail "drive.google.com/uc?" = false ->
  JsString.includes (id +:+ tail) "drive.google.com/uc?" = false.
Proof. intros Hpast Htail. by rewrite (includes_class_app Regex.is_id_char). Qed.

Lemma share_link :
  utils.convertDriveUrl
    (Some ("https://drive.google.com/file/d/" +:+ id +:+ "/view?usp=sharing"))
  = Some (thumbnail id).
Proof.
  unfold utils.convertDriveUrl.
  rewrite (trim_link "https://drive.google.com/file/d/") by done.
  literal_start. cbn [JsString.nonempty negb orb].
  skip_includes. rewrite no_direct_marker by reflexivity.
  unfold utils.drive_file_id. skip_search.
  match goal with
  | |- context [Regex.search "/file/d/" Regex.is_id_char "" ?s] =>
      rewrite (search_hit "/file/d/" "/view?usp=sharing" s eq_refl eq_refl)
  end.
  reflexivity.
Qed.

Lemma open_link :
  utils.convertDriveUrl (Some ("https://drive.google.com/open?id=" +:+ id))
  = Some (thumbnail id).
Proof.
  unfold utils.convertDriveUrl.
  rewrite <- (append_nil_r id).
  rewrite (trim_link "https://drive.google.com/open?id=") by done.
  literal_start. cbn [JsString.nonempty negb orb].
  skip_includes. rewrite no_direct_marker by reflexivity.
  unfold utils.drive_file_id. skip_search.
  rewrite !(search_class_app _ _ Regex.is_id_char) by done.
  change (Regex.search "/file/d/" Regex.is_id_char "" "") with (@None string).
  change (Regex.search "/d/" Regex.is_id_char "/view" "") with (@None string).
  match goal with
  | |- context [Regex.search "id=" Regex.is_id_char "" ?s] =>
      rewrite (search_hit "id=" "" s eq_refl I)
  end.
  by rewrite !append_nil_r.
Qed.

Lemma thumbnail_link :
  utils.convertDriveUrl (Some (thumbnail id)) = Some (thumbnail id).
Proof.
  unfold utils.convertDriveUrl, thumbnail.
  rewrite (trim_link "https://drive.google.com/thumbnail?id=") by done.
  literal_start. cbn [JsString.nonempty negb orb].
  skip_includes. rewrite no_direct_marker by reflexivity.
  unfold utils.drive_file_id. skip_search.
  rewrite !(search_class_app _ _ Regex.is_id_char) by done.
  change (Regex.search "/file/d/" Regex.is_id_char "" "&sz=w800") with (@None string).
  change (Regex.search "/d/" Regex.is_id_char "/view" "&sz=w800") with (@None string).
  match goal with
  | |- context [Regex.search "id=" Regex.is_id_char "" ?s] =>
      rewrite (search_hit "id=" "&sz=w800" s eq_refl eq_refl)
  end.
  reflexivity.
Qed.

End Links.

(** X6.  The two usual forms of a Google Drive share link, for a file
    whose identifier is made of the characters [a-zA-Z0-9_-], are
    converted to the thumbnail address of the same file, and converting a
    thumbnail address gives the same address. *)
Theorem convertDriveUrl_share_links (id : string) :
  all_chars Regex.is_id_char id = true -> id <> "" ->
  let thumb := "https://drive.google.com/thumbnail?id=" +:+ id +:+ "&sz=w800" in
  utils.convertDriveUrl
    (Some ("https://drive.google.com/file/d/" +:+ id +:+ "/view?usp=sharing"))
  = Some thumb
  /\ utils.convertDriveUrl (Some ("https://drive.google.com/open?id=" +:+ id))
     = Some thumb
  /\ utils.convertDriveUrl (Some thumb) = Some thumb.
Proof.
  intros Hchars Hfilled thumb.
  split; [by apply share_link|]. split; [by apply open_link|].
  by apply thumbnail_link.
Qed.

(** X6, witness. *)
Lemma convertDriveUrl_share_links_witness :
  utils.convertDriveUrl
    (Some "https://drive.google.com/file/d/1AbC_d-9xyz/view?usp=sharing")
  = Some "https://drive.google.com/thumbnail?id=1AbC_d-9xyz&sz=w800"
  /\ utils.convertDriveUrl (Some "https://drive.google.com/open?id=1AbC_d-9xyz")
     = Some "https://drive.google.com/thumbnail?id=1AbC_d-9xyz&sz=w800"
  /\ utils.convertDriveUrl
       (Some "https://drive.google.com/thumbnail?id=1AbC_d-9xyz&sz=w800")
     = Some "https://drive.google.com/thumbnail?id=1AbC_d-9xyz&sz=w800".
Proof.
  apply (convertDriveUrl_share_links "1AbC_d-9xyz"); [reflexivity|discriminate].
Defined.

End DriveFacts.

(** ** The blog: the image of a post *)

Module ImageFacts.
Import Blog StringFacts.

Lemma convertDriveUrl_trim (f : string) :
  JsString.nonempty f = true -> JsString.nonempty (JsString.trim f) = true ->
  utils.convertDriveUrl (Some (JsString.trim f)) = utils.convertDriveUrl (Some f).
Proof.
  intros Hf Ht. unfold utils.convertDriveUrl. by rewrite trim_idem, Hf, Ht.
Qed.

Lemma usable_image_source (o : option string) (c : string) :
  utils.usable_image o = Some c ->
  c <> "" /\ exists url, o = Some url /\ utils.convertDriveUrl (Some url) = Some c.
Proof.
  unfold utils.usable_image. destruct o as [u|]; [|done].
  destruct (_ && _); [|done].
  destruct (utils.convertDriveUrl (Some u)) as [c'|] eqn:Ec; [|done].
  destruct (JsString.nonempty c') eqn:E; [|done]. intros [= <-].
  split; [intros ->; discriminate E|]. by exists u.
Qed.

Lemma first_image_source (post : Post) (keys : list string) (c : string) :
  utils.first_image post keys = Some c ->
  c <> "" /\ exists key url,
    post !! key = Some url /\ utils.convertDriveUrl (Some url) = Some c.
Proof.
  induction keys as [|k keys IH]; [done|]. simpl.
  destruct (utils.usable_image (post !! k)) as [c'|] eqn:E; [|exact IH].
  intros [= <-]. apply usable_image_source in E as (Hc & url & Hurl & Hconv).
  split; [done|]. by exists k, url.
Qed.

Definition sourced (post : Post) (image : string) : Prop :=
  image <> ""
  /\ (image = "../images/default-blog.jpg"
      \/ exists key url,
           post !! key = Some url /\ utils.convertDriveUrl (Some url) = Some image).

Lemma fallback_source (post : Post) (numbered : option string) :
  (forall c, numbered = Some c ->
     c <> "" /\ exists key url,
       post !! key = Some url /\ utils.convertDriveUrl (Some url) = Some c) ->
  sourced post
    match numbered with
    | Some c => c
    | None =>
        match utils.first_image post ["image1"; "image2"; "image3"; "image4"] with
        | Some c => c
        | None => "../images/default-blog.jpg"
        end
    end.
Proof.
  intros Hnum. destruct numbered as [c|].
  { destruct (Hnum c eq_refl) as [Hc Hsrc]. split; [done|by right]. }
  destruct (utils.first_image _ _) as [c|] eqn:E.
  - apply first_image_source in E as [Hc Hsrc]. split; [done|by right].
  - split; [done|by left].
Qed.

(** X7.  The image of a post is never the empty string.  It is the default
    image, or the address that [convertDriveUrl] gives for one of the
    fields of the post. *)
Theorem getPostImage_source (post : Post) :
  let image := utils.getPostImage post in
  image <> ""
  /\ (image = "../images/default-blog.jpg"
      \/ exists key url,
           post !! key = Some url /\ utils.convertDriveUrl (Some url) = Some image).
Proof.
  cbv zeta. change (sourced post (utils.getPostImage post)).
  unfold utils.getPostImage.
  set (finalImage := match post !! "Final_Image" with
                     | Some f => if JsString.nonempty f then JsString.trim f else ""
                     | None => ""
                     end).
  assert (Hrest : forall numbered : option string,
    numbered = (if JsString.nonempty finalImage then
                  match Regex.search "image" Regex.is_digit ""
                          (JsString.toLowerCase finalImage) with
                  | Some imageNum => utils.usable_image (post !! ("image" +:+ imageNum))
                  | None => None
                  end
                else None) ->
    forall c, numbered = Some c ->
      c <> "" /\ exists key url,
        post !! key = Some url /\ utils.convertDriveUrl (Some url) = Some c).
  { intros numbered -> c. destruct (JsString.nonempty finalImage); [|done].
    destruct (Regex.search _ _ _ _) as [imageNum|]; [|done].
    intros Hc. apply usable_image_source in Hc as (Hc & url & Hurl & Hconv).
    split; [done|]. by exists ("image" +:+ imageNum), url. }
  destruct (JsString.nonempty finalImage && JsString.startsWith finalImage "http") eqn:Ed;
    [|by apply fallback_source, Hrest].
  apply andb_true_iff in Ed as [Hne _].
  destruct (utils.convertDriveUrl (Some finalImage)) as [c|] eqn:Ec;
    [|by apply fallback_source, Hrest].
  destruct (JsString.nonempty c) eqn:Hc; [|by apply fallback_source, Hrest].
  split; [intros ->; discriminate Hc|]. right. exists "Final_Image".
  subst finalImage. destruct (post !! "Final_Image") as [f|]; [|done].
  destruct (JsString.nonempty f) eqn:Hf; [|done].
  exists f. split; [done|]. by rewrite <- convertDriveUrl_trim.
Qed.

End ImageFacts.

(** ** The blog: the pagination list *)

Module PaginationFacts.
Import Blog.

(** The targets of the numbered links, and those of the links marked
    active. *)
Definition page_numbers (items : list PageItem) : list Z :=
  omap (fun item => match item with PageLink i _ => Some i | _ => None end) items.

Definition active_pages (items : list PageItem) : list Z :=
  omap (fun item => match item with PageLink i true => Some i | _ => None end) items.

Lemma page_numbers_window (c : Z) (l : list Z) :
  page_numbers (map (fun i => PageLink i (i =? c)) l) = l.
Proof. induction l as [|i l IH]; [done|]. simpl. by rewrite IH. Qed.

Lemma active_pages_none (c : Z) (l : list Z) :
  Forall (fun i => i <> c) l ->
  active_pages (map (fun i => PageLink i (i =? c)) l) = [].
Proof.
  induction 1 as [|i l Hi _ IH]; [done|]. simpl.
  by destruct (Z.eqb_spec i c).
Qed.

Lemma active_pages_app (l1 l2 : list PageItem) :
  active_pages (l1 ++ l2) = active_pages l1 ++ active_pages l2.
Proof. apply omap_app. Qed.

Lemma active_pages_window (c first n : Z) :
  first <= c < first + n ->
  active_pages (map (fun i => PageLink i (i =? c)) (seqZ first n)) = [c].
Proof.
  intros Hc.
  assert (Hsplit : seqZ first n
                   = seqZ first (c - first) ++ [c] ++ seqZ (c + 1) (first + n - c - 1)).
  { replace n with ((c - first) + (1 + (first + n - c - 1))) at 1 by lia.
    rewrite seqZ_app by lia. rewrite (seqZ_app _ 1) by lia.
    rewrite (seqZ_cons _ 1), (seqZ_nil _ (Z.pred 1)) by lia.
    by replace (first + (c - first)) with c by lia. }
  rewrite Hsplit, !map_app, !active_pages_app.
  rewrite (active_pages_none c (seqZ first (c - first))) by (apply Forall_seqZ; lia).
  rewrite (active_pages_none c (seqZ (c + 1) _)) by (apply Forall_seqZ; lia).
  simpl. by rewrite Z.eqb_refl.
Qed.

(** X8.  The pagination list of page [c] among [t >= 2] pages.  Its
    numbered links are a window of [min 5 t] consecutive pages that holds
    [c], preceded by page 1 and followed by page [t] when the window does
    not hold them: every target is a page from 1 to [t], no page is listed
    twice, and exactly the link of [c] is marked active.  The list starts
    with the link to page [c - 1], disabled on page 1, and ends with the
    link to page [c + 1], disabled on page [t]. *)
Theorem pagination_items_window (c t : Z) :
  1 <= c <= t -> 2 <= t ->
  let items := pagination_items c t in
  (exists first last,
      1 <= first <= c /\ c <= last <= t /\ last - first = Z.min 4 (t - 1)
      /\ page_numbers items
         = (if 1 <? first then [1] else [])
           ++ seqZ first (last - first + 1)
           ++ (if last <? t then [t] else []))
  /\ Forall (fun i => 1 <= i <= t) (page_numbers items)
  /\ NoDup (page_numbers items)
  /\ 1 ∈ page_numbers items /\ c ∈ page_numbers items /\ t ∈ page_numbers items
  /\ active_pages items = [c]
  /\ head items = Some (if c =? 1 then PrevDisabled else PrevLink (c - 1))
  /\ last items = Some (if c =? t then NextDisabled else NextLink (c + 1)).
Proof.
  intros Hc Ht items. subst items. unfold pagination_items.
  change (5 / 2) with 2.
  set (start0 := Z.max 1 (c - 2)).
  set (stop := Z.min t (start0 + 5 - 1)).
  set (start := if stop - start0 <? 5 - 1 then Z.max 1 (stop - 5 + 1) else start0).
  assert (Hwin : 1 <= start <= c /\ c <= stop <= t /\ stop - start = Z.min 4 (t - 1)).
  { subst start stop start0. destruct (_ <? _) eqn:E; lia. }
  destruct Hwin as (Hstart & Hstop & Hsize).
  set (prev := if 1 <? c then [PrevLink (c - 1)] else [PrevDisabled]).
  set (next := if c <? t then [NextLink (c + 1)] else [NextDisabled]).
  set (window := map (fun i => PageLink i (i =? c)) (seqZ start (stop - start + 1))).
  set (lead := if 1 <? start
               then PageLink 1 false :: (if 2 <? start then [Ellipsis] else []) else []).
  set (trail := if stop <? t
                then (if stop <? t - 1 then [Ellipsis] else []) ++ [PageLink t false]
                else []).
  assert (Hpages : page_numbers (prev ++ lead ++ window ++ trail ++ next)
                   = (if 1 <? start then [1] else [])
                     ++ seqZ start (stop - start + 1)
                     ++ (if stop <? t then [t] else [])).
  { unfold page_numbers. rewrite !omap_app.
    fold (page_numbers window). unfold window. rewrite page_numbers_window.
    subst prev lead trail next.
    destruct (1 <? c), (1 <? start), (2 <? start), (stop <? t), (stop <? t - 1),
      (c <? t); simpl; by rewrite ?app_nil_r. }
  assert (Hactive : active_pages (prev ++ lead ++ window ++ trail ++ next) = [c]).
  { rewrite !active_pages_app. unfold window.
    rewrite active_pages_window by lia.
    subst prev lead trail next.
    destruct (1 <? c), (1 <? start), (2 <? start), (stop <? t), (stop <? t - 1),
      (c <? t); reflexivity. }
  split; [by exists start, stop|].
  rewrite Hpages, Hactive.
  split.
  { rewrite !Forall_app. split; [destruct (1 <? start); repeat constructor; lia|].
    split; [apply Forall_seqZ; lia|].
    destruct (stop <? t); repeat constructor; lia. }
  split.
  { rewrite !NoDup_app. split; [destruct (1 <? start); repeat constructor; set_solver|].
    split.
    { intros x Hx Hin. apply elem_of_app in Hin as [Hin|Hin].
      - apply elem_of_seqZ in Hin.
        destruct (Z.ltb_spec 1 start); [|set_solver].
        apply list_elem_of_singleton in Hx. lia.
      - destruct (Z.ltb_spec 1 start); [|set_solver].
        destruct (Z.ltb_spec stop t); [|set_solver].
        apply list_elem_of_singleton in Hx, Hin. lia. }
    split; [apply NoDup_seqZ|]. split.
    { intros x Hx Hin. apply elem_of_seqZ in Hx.
      destruct (Z.ltb_spec stop t); [|set_solver].
      apply list_elem_of_singleton in Hin. lia. }
    destruct (stop <? t); repeat constructor; set_solver. }
  split.
  { destruct (Z.ltb_spec 1 start); [apply elem_of_app; left; by apply list_elem_of_singleton|].
    apply elem_of_app. right. apply elem_of_app. left. apply elem_of_seqZ. lia. }
  split.
  { apply elem_of_app. right. apply elem_of_app. left. apply elem_of_seqZ. lia. }
  split.
  { destruct (Z.ltb_spec stop t).
    - apply elem_of_app. right. apply elem_of_app. right. by apply list_elem_of_singleton.
    - apply elem_of_app. right. apply elem_of_app. left. apply elem_of_seqZ. lia. }
  split; [done|]. split.
  - subst prev. destruct (Z.ltb_spec 1 c), (Z.eqb_spec c 1); try lia; reflexivity.
  - rewrite !app_assoc. subst next.
    destruct (Z.ltb_spec c t), (Z.eqb_spec c t); try lia; by rewrite last_snoc.
Qed.

(** X8, witness: page 4 of 10. *)
Lemma pagination_items_window_witness :
  page_numbers (pagination_items 4 10) = [1; 2; 3; 4; 5; 6; 10]
  /\ active_pages (pagination_items 4 10) = [4]
  /\ head (pagination_items 4 10) = Some (PrevLink 3)
  /\ last (pagination_items 4 10) = Some (NextLink 5).
Proof.
  destruct (pagination_items_window 4 10 ltac:(lia) ltac:(lia))
    as (_ & _ & _ & _ & _ & _ & Hactive & Hhead & Hlast).
  split; [reflexivity|]. split; [exact Hactive|]. split; [exact Hhead|exact Hlast].
Defined.

End PaginationFacts.

(** ** Numerals *)

Module NumberFacts.
Import StringFacts.






End NumberFacts.

(** ** The home page: two calls within two hours *)

Module RotationFacts.
Import Blog BlogFacts NumberFacts.

Section Facts.
Context `{Platform}.




End Facts.

Local Existing Instance RefPlatform.platform.



End RotationFacts.

(** ** The Scholar widget: the cache and the validation *)

Module ScholarCacheFacts.
Import ScholarStatsWidget ScholarFacts.

Section Facts.
Context `{Platform}.
Variables options_apiUrl options_containerId : option string.

Local Abbreviation this := (new options_apiUrl options_containerId).
Local Abbreviation key := "scholar_stats_cache".

(** X10.  What [cacheData] stores, [getCachedData] reads back, on a
    platform whose [JSON.parse] reads the entry that [JSON.stringify]
    wrote: at any later time when the expiry is ignored, and during the
    three days that follow otherwise; after three days [getCachedData()]
    gives [null]. *)
Theorem cacheData_getCachedData (m : value) (b : Browser) (later : Z) :
  JSON_parse (JSON_stringify (cache_entry m (now b))) = Some (cache_entry m (now b)) ->
  exists b1,
    cacheData this m tt b = (Ret tt, tt, b1)
    /\ let b2 := mkBrowser later (storage b1) (trace b1) in
       (getCachedData this true tt b2).1.1 = Ret m
       /\ (getCachedData this false tt b2).1.1
          = Ret (if later - now b <? 259200000 then m else VNull).
Proof.
  intros Hparse. eexists. split; [reflexivity|]. cbv zeta.
  pose proof (stored_parse_nonempty _ _ Hparse) as Hfilled.
  split.
  - rewrite getCachedData_stale. cbn [fst storage].
    change (cacheKey this) with key.
    rewrite lookup_insert_eq, Hparse. reflexivity.
  - unfold getCachedData, try_catch, bind, getItem, parse, lift, ret, throw,
      Date_now, is_fresh.
    change (cacheKey this) with key. cbn [storage now emit].
    rewrite lookup_insert_eq.
    cbn [JsString.truthy_str from_option id]. rewrite Hfilled, Hparse.
    cbn [negb].
    cbn. change (3 * 24 * 60 * 60 * 1000) with 259200000.
    by destruct (later - now b <? 259200000).
Qed.

(** The metrics that [extract_metrics] accepts: truthy, with a truthy
    [All]. *)
Definition valid_metrics (m : value) : Prop :=
  truthy m = true /\ exists all, prop m "All" = Ret all /\ truthy all = true.

Lemma extract_metrics_valid (data m : value) :
  extract_metrics data = Ret m -> valid_metrics m.
Proof.
  unfold extract_metrics.
  destruct (prop data "response") as [response|]; [|done].
  destruct (truthy (metrics_of_response response)) eqn:Em; [|done]. cbn [negb].
  destruct (prop (metrics_of_response response) "All") as [all|] eqn:Ea; [|done].
  destruct (truthy all) eqn:Et; [|done]. cbn [negb]. intros [= <-].
  split; [done|]. by exists all.
Qed.

Ltac only_write Hin :=
  repeat (apply elem_of_cons in Hin as [Hin|Hin]; [try discriminate Hin|]);
  try (by apply elem_of_nil in Hin).

(** X11.  Whatever the network answers, [fetchStats] writes to the storage
    only under the cache key, and only an entry of metrics that passed the
    validation, which are then the result and stay stored when it
    returns. *)
Theorem fetchStats_caches_valid_metrics (net : nat -> Outcome value) (b : Browser) :
  exists r b' events,
    fetchStats this net tt b = (r, tt, b')
    /\ trace b' = trace b ++ events
    /\ forall k v,
         EvSetItem k v ∈ events ->
         k = "scholar_stats_cache"
         /\ storage b' !! "scholar_stats_cache" = Some v
         /\ exists m t,
              r = Ret m /\ v = JSON_stringify (cache_entry m t) /\ valid_metrics m.
Proof.
  destruct (fresh_metrics b) as [m|] eqn:Hfresh.
  { rewrite (fetchStats_fresh _ _ net b m Hfresh).
    eexists _, _, _. split; [reflexivity|]. split; [reflexivity|].
    intros k v Hin. only_write Hin. }
  rewrite (fetchStats_no_fresh _ _ net b Hfresh), retry_run.
  assert (Hvalid : forall o m,
    attempt_result o = Ret m -> valid_metrics m).
  { intros o m. unfold attempt_result. destruct (answer o) as [|response]; [done|].
    destruct (negb (ok response)); [done|].
    destruct (json response) as [data|]; [|done]. apply extract_metrics_valid. }
  destruct (attempt_result (net 0%nat)) as [m0|e0] eqn:E0.
  { eexists _, _, _. split; [reflexivity|]. simpl. rewrite <- !app_assoc.
    split; [reflexivity|]. intros k v Hin. only_write Hin.
    injection Hin as -> ->. split; [done|]. split; [by rewrite lookup_insert_eq|].
    eexists _, _. split; [done|]. split; [done|]. by apply (Hvalid (net 0%nat)). }
  destruct (attempt_result (net 1%nat)) as [m1|e1] eqn:E1.
  { eexists _, _, _. split; [reflexivity|]. simpl. rewrite <- !app_assoc.
    split; [reflexivity|]. intros k v Hin. only_write Hin.
    injection Hin as -> ->. split; [done|]. split; [by rewrite lookup_insert_eq|].
    eexists _, _. split; [done|]. split; [done|]. by apply (Hvalid (net 1%nat)). }
  rewrite last_attempt_run.
  destruct (attempt_result (net 2%nat)) as [m2|e2] eqn:E2.
  { eexists _, _, _. split; [reflexivity|]. simpl. rewrite <- !app_assoc.
    split; [reflexivity|]. intros k v Hin. only_write Hin.
    injection Hin as -> ->. split; [done|]. split; [by rewrite lookup_insert_eq|].
    eexists _, _. split; [done|]. split; [done|]. by apply (Hvalid (net 2%nat)). }
  eexists _, _, _. split; [reflexivity|]. simpl. rewrite <- !app_assoc.
  split; [reflexivity|]. intros k v Hin. only_write Hin.
Qed.

(** [v.output.metrics], read with optional chaining. *)
Definition nested_metrics (v : value) : value :=
  optprop (optprop v "output") "metrics".

(** The shapes of [data.response] that hold the metrics [m]: an object
    with [output.metrics], an array whose first element is such an object,
    or a string that is the JSON text of one of the two. *)
Inductive holds_metrics (m : value) : value -> Prop :=
| holds_object (fields : list (string * value)) :
    nested_metrics (VObj fields) = m -> holds_metrics m (VObj fields)
| holds_array (x : value) (rest : list value) :
    nested_metrics x = m -> holds_metrics m (VArr (x :: rest))
| holds_object_text (s : string) (fields : list (string * value)) :
    JSON_parse s = Some (VObj fields) -> nested_metrics (VObj fields) = m ->
    holds_metrics m (VStr s)
| holds_array_text (s : string) (x : value) (rest : list value) :
    JSON_parse s = Some (VArr (x :: rest)) -> nested_metrics x = m ->
    holds_metrics m (VStr s).

(** X12.  The body of the answer is accepted in each of the shapes of its
    [response], and gives the metrics that the shape holds, when these
    are valid.  On a body that is not [null], the only error is the one
    for an invalid format. *)
Theorem extract_metrics_formats (data response m : value) :
  prop data "response" = Ret response ->
  (valid_metrics m -> holds_metrics m response -> extract_metrics data = Ret m)
  /\ forall e, extract_metrics data = Throw e ->
               e = Error "Invalid metrics format in response".
Proof.
  intros Hresp. split.
  - intros (Hm & all & Hall & Htruthy) Hshape.
    assert (Hmetrics : metrics_of_response response = m).
    { unfold metrics_of_response.
      destruct Hshape as [fields Hn|x rest Hn|s fields Hs Hn|s x rest Hs Hn].
      - cbn [truthy negb]. fold (nested_metrics (VObj fields)). by rewrite Hn, Hm.
      - cbn [truthy negb optprop]. cbn [truthy]. unfold first. cbn [head default from_option id].
        fold (nested_metrics x). by rewrite Hn, Hm.
      - cbn [truthy]. rewrite (stored_parse_nonempty _ _ Hs). cbn [negb].
        rewrite Hs. unfold metrics_of_parsed. cbn [isArray andb prop].
        change (default VUndef (assoc "output" fields)) with (optprop (VObj fields) "output").
        fold (nested_metrics (VObj fields)). by rewrite Hn, Hm.
      - cbn [truthy]. rewrite (stored_parse_nonempty _ _ Hs). cbn [negb].
        rewrite Hs. unfold metrics_of_parsed. cbn [isArray andb]. unfold first.
        cbn [head default from_option id]. fold (nested_metrics x). by rewrite Hn, Hm. }
    unfold extract_metrics. by rewrite Hresp, Hmetrics, Hm, Hall, Htruthy.
  - intros e. unfold extract_metrics. rewrite Hresp.
    destruct (truthy (metrics_of_response response)) eqn:Em; cbn [negb]; [|by intros [= <-]].
    destruct (prop (metrics_of_response response) "All") as [all|e'] eqn:Ea.
    + destruct (truthy all); cbn [negb]; [done|by intros [= <-]].
    + by destruct (metrics_of_response response).
Qed.

End Facts.

Local Existing Instance RefPlatform.platform.

(** X10, witness: metrics cached and read four days later. *)
Lemma cacheData_getCachedData_witness :
  exists b1,
    cacheData (new None None) metrics0 tt (mkBrowser 1700000000000 ∅ []) = (Ret tt, tt, b1)
    /\ let b2 := mkBrowser 1700345600000 (storage b1) (trace b1) in
       (getCachedData (new None None) true tt b2).1.1 = Ret metrics0
       /\ (getCachedData (new None None) false tt b2).1.1 = Ret VNull.
Proof.
  apply (cacheData_getCachedData None None metrics0 (mkBrowser 1700000000000 ∅ [])
           1700345600000).
  vm_compute. reflexivity.
Defined.

(** X12, witness: the metrics in the text of an array. *)
Lemma extract_metrics_formats_witness :
  extract_metrics
    (VObj [("success", VBool true);
           ("response",
            VStr (JSON_stringify (VArr [VObj [("output", VObj [("metrics", metrics0)])]])))])
  = Ret metrics0.
Proof.
  destruct (extract_metrics_formats
              (VObj [("success", VBool true);
                     ("response",
                      VStr (JSON_stringify
                              (VArr [VObj [("output", VObj [("metrics", metrics0)])]])))])
              (VStr (JSON_stringify (VArr [VObj [("output", VObj [("metrics", metrics0)])]])))
              metrics0 eq_refl) as [Hok _].
  apply Hok.
  - split; [reflexivity|]. eexists. split; reflexivity.
  - apply (holds_array_text _ _ (VObj [("output", VObj [("metrics", metrics0)])]) []).
    + vm_compute. reflexivity.
    + reflexivity.
Defined.

End ScholarCacheFacts.

(** ** The chat widget: failures, empty messages and the history *)

Module ChatErrorFacts.
Import ChatWidget ChatFacts.

Section Facts.
Context `{Platform}.

Ltac run_widget :=
  lazy beta iota zeta delta
    [sendMessage send_try send_catch addMessage saveChatHistory updateConnectionStatus
     showBotTyping hideBotTyping setInputDisabled getContext handleConnectionError
     sendMessageProgrammatically clearHistory
     bind ret throw try_catch finally lift get_self put_self modify_self emit
     Date_now getItem setItem removeItem sleep fetch json_of
     with_dom set_sessionId set_history set_reconnectAttempts set_input set_messages
     set_send set_status
     apiUrl sessionId isOpen isTyping messageHistory reconnectAttempts
     maxReconnectAttempts dom chat_input chat_messages chat_send chat_header
     connection_status pathname referrer input_value disabled
     now storage trace answer latency ok status statusText json
     fmap option_fmap option_map negb mbind option_bind].

(** The answers of the network that [sendMessage] treats as a failure: a
    rejected request, a response that is not ok, a body that is not JSON or
    is [null], or a body without a truthy [success]. *)
Definition failed (o : Outcome Body) : Prop :=
  match answer o with
  | inl _ => True
  | inr resp =>
      ok resp = false
      \/ match json resp with
         | Some (BodyOf reply) => truthy (success reply) = false
         | _ => True
         end
  end.

Lemma remove_typing_none (l : list Node) : TypingNode ∉ l -> remove_typing l = l.
Proof.
  induction l as [|n l IH]; [done|]. rewrite not_elem_of_cons. intros [Hn Hl].
  destruct n; [|done]. simpl. by rewrite IH.
Qed.

Lemma remove_typing_last (l : list Node) :
  TypingNode ∉ l -> remove_typing (l ++ [TypingNode]) = l.
Proof.
  induction l as [|n l IH]; [done|]. rewrite not_elem_of_cons. intros [Hn Hl].
  destruct n; [|done]. simpl. by rewrite IH.
Qed.

(** X13.  A message that is not empty and an answer that is a failure:
    [sendMessage] returns normally, keeps the session id, counts one more
    reconnect attempt and shows the status [offline] when the count has
    reached the maximum, [connecting] otherwise.  The input is emptied and
    enabled again, the send button is enabled, and the page shows the
    message of the user followed by the error message of the assistant,
    with no typing indicator left. *)
Theorem sendMessage_failure
    (o : Outcome Body) (w : t) (b : Browser) (input : Input) :
  chat_input (dom w) = Some input ->
  let message := JsString.trim (input_value input) in
  JsString.nonempty message = true ->
  failed o ->
  (forall children, chat_messages (dom w) = Some children -> TypingNode ∉ children) ->
  exists w' b',
    sendMessage o w b = (Ret tt, w', b')
    /\ now b' = now b + latency o
    /\ sessionId w' = sessionId w
    /\ reconnectAttempts w' = reconnectAttempts w + 1
    /\ connection_status (dom w')
       = (fun _ => if maxReconnectAttempts w <=? reconnectAttempts w + 1
                   then "offline" else "connecting") <$> connection_status (dom w)
    /\ chat_input (dom w') = Some (mkInput "" false)
    /\ chat_send (dom w') = (fun _ => false) <$> chat_send (dom w)
    /\ chat_messages (dom w')
       = (fun children =>
            children ++ [MessageNode "user" false message [] (toISOString (now b));
                         MessageNode "bot" true trouble [] (toISOString (now b'))])
         <$> chat_messages (dom w)
    /\ messageHistory w'
       = messageHistory w
         ++ (if chat_messages (dom w) is Some _
             then [mkMessage message "user" (toISOString (now b)) no_options;
                   mkMessage trouble "bot" (toISOString (now b'))
                     (mkOptions None None (Some true))]
             else []).
Proof.
  intros Hinput message Hmessage Hfailed Htyping.
  destruct w as [api sid open typing hist rec maxrec
                   [inp msgs send header status path ref]].
  destruct b as [t_now store tr].
  simpl in Hinput. subst inp.
  assert (Hgo : forall X (x y : X),
            (if negb (JsString.nonempty (JsString.trim (input_value input)))
             then x else y) = y).
  { intros X x y. fold message. by rewrite Hmessage. }
  assert (Hclean : forall children s e c bs ts,
            msgs = Some children ->
            let n := MessageNode s e c bs ts in
            remove_typing ((children ++ [n]) ++ [TypingNode]) = children ++ [n]
            /\ remove_typing (children ++ [n]) = children ++ [n]).
  { intros children s e c bs ts -> n.
    assert (TypingNode ∉ children ++ [n]).
    { rewrite not_elem_of_app. split; [by apply Htyping|].
      subst n. rewrite not_elem_of_cons. split; [done|apply not_elem_of_nil]. }
    split; [by apply remove_typing_last|by apply remove_typing_none]. }
  unfold failed in Hfailed.
  destruct o as [lat [e|[okb st stt body]]]; cbn [answer ok json] in Hfailed.
  2: destruct okb;
       [destruct body as [[|reply]|];
        [| destruct (truthy (success reply)) eqn:Esuccess;
           [by destruct Hfailed|] |] |].
  all: destruct msgs as [children|], status as [status|], send as [send|].
  all: destruct (maxrec <=? rec + 1) eqn:Emax.
  all: eexists _, _.
  all: split;
    [run_widget; rewrite Hgo; run_widget; rewrite ?Esuccess; run_widget; rewrite ?Emax;
     reflexivity|].
  all: run_widget; rewrite ?Emax.
  all: split; [reflexivity|]; split; [reflexivity|]; split; [reflexivity|].
  all: split; [reflexivity|]; split; [reflexivity|]; split; [reflexivity|].
  all: split; [|by rewrite ?app_nil_r, <- ?app_assoc].
  all: try reflexivity.
  all: destruct (Hclean children "user" false message [] (toISOString t_now) eq_refl)
         as [Hlast Hnone].
  all: unfold message in Hlast, Hnone.
  all: match goal with
       | |- context [remove_typing (?l ++ [TypingNode])] =>
           change l with
             (children ++ [MessageNode "user" false
                             (JsString.trim (input_value input)) []
                             (toISOString t_now)])
       end.
  all: rewrite Hlast, ?Hnone, <- app_assoc; reflexivity.
Qed.


(** The entry and the node that the replay of a stored message adds at
    time [t_now]. *)
Definition replayed (t_now : Z) (m : Message) : Message :=
  mkMessage (content m) (sender m) (stamp (options m) t_now) (options m).

Definition replayed_node (t_now : Z) (m : Message) : Node :=
  node_of (content m) (sender m) (options m) t_now.

Lemma replay_run (l : list Message) (w : t) (b : Browser) (children : list Node) :
  chat_messages (dom w) = Some children ->
  exists w' b',
    replay l w b = (Ret tt, w', b')
    /\ messageHistory w' = messageHistory w ++ map (replayed (now b)) l
    /\ chat_messages (dom w') = Some (children ++ map (replayed_node (now b)) l)
    /\ sessionId w' = sessionId w.
Proof.
  revert w b children. induction l as [|m l IH]; intros w b children Hc.
  { exists w, b. by rewrite !app_nil_r. }
  cbn [replay]. unfold bind at 1. rewrite addMessage_run, Hc. cbv zeta.
  set (w1 := added (content m) (sender m) (options m) (now b) children w).
  destruct (IH w1 (saved w1 b) (children ++ [replayed_node (now b) m]) eq_refl)
    as (w' & b' & Hrun & Hhist & Hnodes & Hsid).
  exists w', b'. split; [exact Hrun|]. split; [|split].
  - rewrite Hhist. subst w1. cbn [map added messageHistory set_history now saved].
    by rewrite <- app_assoc.
  - rewrite Hnodes. cbn [map now saved]. by rewrite <- app_assoc.
  - by rewrite Hsid.
Qed.

(** The values that [JSON.parse] gives for a history that the widget has
    stored: an array of objects with the strings [content], [sender] and
    [timestamp] and the object [options], whose [suggestions], [timestamp]
    and [isError] are an array of strings, a string and a boolean, or are
    absent. *)
Definition stored_options (o : Options) (v : value) : Prop :=
  (exists fields, v = VObj fields)
  /\ optprop v "suggestions" = of_opt (fun l => VArr (map VStr l)) (suggestions o)
  /\ optprop v "timestamp" = of_opt VStr (opt_timestamp o)
  /\ optprop v "isError" = of_opt VBool (isError o).

Definition stored_message (m : Message) (v : value) : Prop :=
  (exists fields, v = VObj fields)
  /\ optprop v "content" = VStr (content m)
  /\ optprop v "sender" = VStr (sender m)
  /\ optprop v "timestamp" = VStr (timestamp m)
  /\ stored_options (options m) (optprop v "options").

Definition stored_history (h : list Message) (v : value) : Prop :=
  exists l, v = VArr l /\ Forall2 stored_message h l.

Lemma strings_of_map (l : list string) : strings_of (map VStr l) = Some l.
Proof. induction l as [|s l IH]; [done|]. simpl. by rewrite IH. Qed.

Lemma stored_options_of (o : Options) (v : value) :
  stored_options o v -> options_of v = o.
Proof.
  intros (_ & Hs & Ht & He). unfold options_of. rewrite Hs, Ht, He.
  destruct o as [[l|] [t0|] [e|]]; cbn [of_opt suggestions opt_timestamp isError string_of];
    by rewrite ?strings_of_map.
Qed.

Lemma stored_message_of (m : Message) (v : value) :
  stored_message m v -> message_of v = Some m.
Proof.
  intros (_ & Hc & Hs & Ht & Ho). unfold message_of.
  rewrite Hc, Hs, Ht, (stored_options_of _ _ Ho). by destruct m.
Qed.

Lemma stored_history_of (h : list Message) (v : value) :
  stored_history h v -> history_of v = Some h.
Proof.
  intros (l & -> & Hl). cbn [history_of].
  induction Hl as [|m x h l Hm _ IH]; [done|].
  cbn [messages_of]. by rewrite (stored_message_of _ _ Hm), IH.
Qed.

(** X15.  [loadChatHistory] on a page that has the container of the
    messages, when the storage holds under the key of the session the
    JSON text of a history [h] as the widget stores it: every message of
    [h] is shown once, and the history in memory holds every message
    twice, [h] followed by the entries that the replay of [h] has
    added. *)
Theorem loadChatHistory_doubles
    (w : t) (b : Browser) (children : list Node) (text : string) (v : value)
    (h : list Message) :
  chat_messages (dom w) = Some children ->
  storage b !! ("chat_history_" +:+ sessionId w) = Some text ->
  JSON_parse text = Some v ->
  stored_history h v ->
  exists w' b',
    loadChatHistory w b = (Ret tt, w', b')
    /\ messageHistory w' = h ++ map (replayed (now b)) h
    /\ length (messageHistory w') = (2 * length h)%nat
    /\ chat_messages (dom w') = Some (children ++ map (replayed_node (now b)) h).
Proof.
  intros Hc Hstored Hparse Hh. apply stored_history_of in Hh.
  pose proof (ScholarFacts.stored_parse_nonempty _ _ Hparse) as Hfilled.
  destruct (replay_run h (set_history h w) (emit (EvGetItem (history_key (sessionId w))) b)
              children Hc) as (w' & b' & Hrun & Hhist & Hnodes & Hsid).
  exists w', b'.
  split.
  - unfold loadChatHistory, try_catch, bind at 1, get_self.
    unfold bind at 1, getItem.
    change (storage b !! history_key (sessionId w)) with
      (storage b !! ("chat_history_" +:+ sessionId w)).
    rewrite Hstored.
    cbn [JsString.truthy_str from_option id]. rewrite Hfilled, Hparse, Hh.
    unfold bind, modify_self. by rewrite Hrun.
  - split; [exact Hhist|]. split; [|exact Hnodes].
    rewrite Hhist. cbn [messageHistory set_history]. rewrite length_app, length_map. lia.
Qed.

(** X16.  [clearHistory] empties the history in memory and the list of
    messages on the page, and removes the entry of the session from the
    storage, leaving the other keys as they are; [loadChatHistory] then
    finds nothing and changes nothing.  The timer that [clearHistory]
    starts for the welcome message then makes this message the only one
    on the page, in the history and in the stored entry. *)
Theorem clearHistory_forgets (w : t) (b : Browser) :
  exists w1 b1 b2,
    clearHistory w b = (Ret tt, w1, b1)
    /\ messageHistory w1 = []
    /\ chat_messages (dom w1) = (fun _ => []) <$> chat_messages (dom w)
    /\ sessionId w1 = sessionId w
    /\ storage b1 = delete ("chat_history_" +:+ sessionId w) (storage b)
    /\ loadChatHistory w1 b1 = (Ret tt, w1, b2)
    /\ storage b2 = storage b1
    /\ forall later,
         let greeting :=
           mkMessage welcome "bot" (toISOString later)
                     (mkOptions (Some welcome_suggestions) None None) in
         exists w2 b3,
           welcome_timer w1 (mkBrowser later (storage b1) (trace b1)) = (Ret tt, w2, b3)
           /\ messageHistory w2
              = (if chat_messages (dom w) is Some _ then [greeting] else [])
           /\ chat_messages (dom w2)
              = (fun _ => [MessageNode "bot" false welcome welcome_suggestions
                             (toISOString later)]) <$> chat_messages (dom w)
           /\ storage b3
              = (if chat_messages (dom w) is Some _
                 then <["chat_history_" +:+ sessionId w :=
                          JSON_stringify (history_value [greeting])]> (storage b1)
                 else storage b1).
Proof.
  destruct w as [api sid open typing hist rec maxrec
                   [inp [msgs|] send header status path ref]].
  all: eexists _, _, _; split; [reflexivity|].
  all: split; [reflexivity|]; split; [reflexivity|]; split; [reflexivity|].
  all: split; [reflexivity|]; apply and_assoc; split.
  1,3: unfold loadChatHistory, try_catch, bind, get_self, getItem;
       cbn [sessionId set_history with_dom dom storage emit clearHistory modify_self
            removeItem fst snd];
       unfold history_key; cbn; unfold history_key; rewrite lookup_delete_eq;
       split; reflexivity.
  all: intros later greeting; unfold welcome_timer; rewrite addMessage_run;
       eexists _, _; (split; [reflexivity|]); by repeat split.
Qed.

End Facts.

Local Existing Instance RefPlatform.platform.

Definition no_network : Outcome Body :=
  mkOutcome 250 (inl (NetworkError "Failed to fetch")).

(** X13, witness: the third failure in a row. *)
Lemma sendMessage_failure_witness :
  exists w' b',
    sendMessage no_network widget0 browser0 = (Ret tt, w', b')
    /\ reconnectAttempts w' = 3
    /\ connection_status (dom w') = Some "offline"
    /\ chat_input (dom w') = Some (mkInput "" false)
    /\ chat_messages (dom w')
       = Some [MessageNode "user" false "Hello there" [] (toISOString 1700000000000);
               MessageNode "bot" true trouble [] (toISOString 1700000000250)].
Proof.
  destruct (sendMessage_failure no_network widget0 browser0
              (mkInput "  Hello there  " false) eq_refl eq_refl I)
    as (w' & b' & Hrun & Hnow & _ & Hrec & Hstatus & Hinput & _ & Hnodes & _).
  { intros children [= <-]. apply not_elem_of_nil. }
  exists w', b'. split; [exact Hrun|]. split; [exact Hrec|].
  split; [exact Hstatus|]. split; [exact Hinput|].
  rewrite Hnodes, Hnow. reflexivity.
Defined.


Definition two_messages : list Message :=
  [mkMessage "Hi" "user" "2023-11-14T22:13:20.000Z" no_options;
   mkMessage "Hello!" "bot" "2023-11-14T22:13:21.000Z"
     (mkOptions (Some ["Blog"]) (Some "2023-11-14T22:13:21.000Z") None)].

Definition browser_with_history : Browser :=
  mkBrowser 1700000100000
    (<["chat_history_chat_1700000000000_k3v9x0001" :=
         JSON_stringify (history_value two_messages)]> ∅) [].

(** X15, witness: a stored history of two messages. *)
Lemma loadChatHistory_doubles_witness :
  exists w' b',
    loadChatHistory widget0 browser_with_history = (Ret tt, w', b')
    /\ length (messageHistory w') = 4%nat
    /\ chat_messages (dom w')
       = Some [MessageNode "user" false "Hi" [] (toISOString 1700000100000);
               MessageNode "bot" false "Hello!" ["Blog"] "2023-11-14T22:13:21.000Z"].
Proof.
  eassert (Hparse : JSON_parse (JSON_stringify (history_value two_messages)) = Some _)
    by (vm_compute; reflexivity).
  destruct (loadChatHistory_doubles widget0 browser_with_history []
              (JSON_stringify (history_value two_messages)) _ two_messages
              eq_refl eq_refl Hparse)
    as (w' & b' & Hrun & _ & Hlen & Hnodes).
  - eexists. split; [reflexivity|].
    repeat constructor; by eexists.
  - exists w', b'. split; [exact Hrun|]. split; [exact Hlen|]. exact Hnodes.
Defined.

End ChatErrorFacts.

(** ** The OCR tool: the processing history *)

Module OCRHistoryFacts.
Import OCRTool OCRFacts.

Section Facts.
Context `{Platform}.


(** The entry that [addToHistory] makes of a result at time [t_now]. *)
Definition history_item (result : Result) (text : string) (t_now : Z) : value :=
  VObj [("id", VNum t_now);
        ("filename", VStr (if JsString.truthy_str (filename result)
                           then default "" (filename result)
                           else "URL Processing"));
        ("extractedText", VStr (JsString.take 100 text +:+ "..."));
        ("confidence", confidence result);
        ("wordCount", wordCount result);
        ("processedAt", VStr (toISOString t_now))].


(** X18.  [loadProcessingHistory] never throws.  It gives the empty
    history when the storage has no entry or an entry that is not JSON,
    and it gives back the history that [saveProcessingHistory] wrote, on a
    platform whose [JSON.parse] reads what [JSON.stringify] wrote for
    it. *)
Theorem processingHistory_round_trip (w : t) (b : Browser) :
  (exists v, loadProcessingHistory w b = (Ret v, w, emit (EvGetItem "ocr_processing_history") b))
  /\ (storage b !! "ocr_processing_history" = None
      \/ (exists s, storage b !! "ocr_processing_history" = Some s /\ JSON_parse s = None) ->
      (loadProcessingHistory w b).1.1 = Ret (VArr []))
  /\ (JSON_parse (JSON_stringify (processingHistory w)) = Some (processingHistory w) ->
      exists b1,
        saveProcessingHistory w b = (Ret tt, w, b1)
        /\ forall w2 later events,
             (loadProcessingHistory w2 (mkBrowser later (storage b1) events)).1.1
             = Ret (processingHistory w)).
Proof.
  assert (Hrun : forall w b,
    loadProcessingHistory w b
    = (Ret (match storage b !! "ocr_processing_history" with
            | Some s => if JsString.nonempty s then default (VArr []) (JSON_parse s)
                        else VArr []
            | None => VArr []
            end), w, emit (EvGetItem "ocr_processing_history") b)).
  { intros w0 b0. unfold loadProcessingHistory, try_catch, bind, getItem.
    destruct (storage b0 !! "ocr_processing_history") as [s|]; [|reflexivity].
    cbn [JsString.truthy_str from_option id].
    destruct (JsString.nonempty s); [|reflexivity].
    by destruct (JSON_parse s). }
  split; [eexists; apply Hrun|]. split.
  - rewrite Hrun. cbn [fst]. intros [->|(s & -> & Hs)]; [done|].
    rewrite Hs. by destruct (JsString.nonempty s).
  - intros Hparse. eexists. split; [reflexivity|]. intros w2 later events.
    rewrite Hrun. cbn [fst storage]. rewrite lookup_insert_eq.
    by rewrite (ScholarFacts.stored_parse_nonempty _ _ Hparse), Hparse.
Qed.

End Facts.

Local Existing Instance RefPlatform.platform.

Definition photo_result : Result :=
  mkResult (VBool true) None (Some "photo.png") (Some "text") (VNum 93) (VNum 1).


(** X18, witness: nothing stored, then a history of one entry saved and
    loaded. *)
Lemma processingHistory_round_trip_witness :
  (loadProcessingHistory (tool (VArr []) None page0) browser0).1.1 = Ret (VArr [])
  /\ exists b1,
      saveProcessingHistory
        (tool (VArr [history_item photo_result "text" 1700000000000]) None page0) browser0
      = (Ret tt, tool (VArr [history_item photo_result "text" 1700000000000]) None page0, b1)
      /\ (loadProcessingHistory (tool (VArr []) None page0)
            (mkBrowser 1700000500000 (storage b1) [])).1.1
         = Ret (VArr [history_item photo_result "text" 1700000000000]).
Proof.
  split.
  - destruct (processingHistory_round_trip (tool (VArr []) None page0) browser0)
      as (_ & Hnone & _).
    apply Hnone. by left.
  - destruct (processingHistory_round_trip
                (tool (VArr [history_item photo_result "text" 1700000000000]) None page0)
                browser0) as (_ & _ & Hsaved).
    destruct Hsaved as (b1 & Hrun & Hload); [vm_compute; reflexivity|].
    exists b1. split; [exact Hrun|]. apply Hload.
Defined.

End OCRHistoryFacts.


(** ** The OCR tool: the two forms *)

Module OCRFlowFacts.
Import OCRTool OCRToolUrl OCRFacts.

Section Facts.
Context `{Platform}.

(** The requests of the two forms: the upload of a file, which has a form
    as body, and the request for an image address. *)
Definition main_request (r : Request) : bool :=
  match req_body r with
  | FormBody => true
  | JsonBody (VObj (("imageUrl", _) :: _)) => true
  | _ => false
  end.

Definition main_requests (events : list Event) : list Request :=
  omap (fun e => match e with
                 | EvFetch r => if main_request r then Some r else None
                 | _ => None
                 end) events.

(** An event that is not a request of one of the forms. *)
Definition background (e : Event) : Prop :=
  match e with EvFetch r => main_request r = false | _ => True end.

Lemma main_requests_background (events : list Event) :
  Forall background events -> main_requests events = [].
Proof.
  induction 1 as [|e events He _ IH]; [done|].
  change (main_requests (e :: events))
    with (match (match e with
                 | EvFetch r => if main_request r then Some r else None
                 | _ => None
                 end) with
          | Some r => r :: main_requests events
          | None => main_requests events
          end).
  rewrite IH. destruct e as [| | |r|]; try done. cbn in He. by rewrite He.
Qed.

Lemma main_requests_app (l1 l2 : list Event) :
  main_requests (l1 ++ l2) = main_requests l1 ++ main_requests l2.
Proof. apply omap_app. Qed.

(** What a step of the tool leaves alone: the two submit buttons and the
    address of the API; and the trace grows by background events. *)
Definition keeps (w : t) (b : Browser) (w' : t) (b' : Browser) : Prop :=
  submit_btn (dom w') = submit_btn (dom w)
  /\ url_submit_btn (dom w') = url_submit_btn (dom w)
  /\ apiUrl w' = apiUrl w
  /\ exists events, trace b' = trace b ++ events /\ Forall background events.

Definition steady {A} (m : M t A) : Prop :=
  forall w b r w' b', m w b = (r, w', b') -> keeps w b w' b'.

Lemma keeps_refl (w : t) (b : Browser) : keeps w b w b.
Proof. repeat split. exists []. by rewrite app_nil_r. Qed.

Lemma keeps_trans (w1 w2 w3 : t) (b1 b2 b3 : Browser) :
  keeps w1 b1 w2 b2 -> keeps w2 b2 w3 b3 -> keeps w1 b1 w3 b3.
Proof.
  intros (Hs & Hu & Ha & ev & Ht & Hb) (Hs' & Hu' & Ha' & ev' & Ht' & Hb').
  split; [congruence|]. split; [congruence|]. split; [congruence|].
  exists (ev ++ ev'). split; [by rewrite Ht', Ht, app_assoc|]. by apply Forall_app.
Qed.

Lemma steady_bind {A B} (m : M t A) (k : A -> M t B) :
  steady m -> (forall a, steady (k a)) -> steady (bind m k).
Proof.
  intros Hm Hk w b r w' b'. unfold bind.
  destruct (m w b) as [[[a|e] w1] b1] eqn:E.
  - intros Hrun. eapply keeps_trans; [by eapply Hm|by eapply Hk].
  - intros [= <- <- <-]. by eapply Hm.
Qed.

Lemma steady_try_catch {A} (m : M t A) (h : JsError -> M t A) :
  steady m -> (forall e, steady (h e)) -> steady (try_catch m h).
Proof.
  intros Hm Hh w b r w' b'. unfold try_catch.
  destruct (m w b) as [[[a|e] w1] b1] eqn:E.
  - intros [= <- <- <-]. by eapply Hm.
  - intros Hrun. eapply keeps_trans; [by eapply Hm|by eapply Hh].
Qed.

Lemma steady_pure {A} (m : M t A) :
  (forall w b, exists r w', m w b = (r, w', b)
                /\ submit_btn (dom w') = submit_btn (dom w)
                /\ url_submit_btn (dom w') = url_submit_btn (dom w)
                /\ apiUrl w' = apiUrl w) ->
  steady m.
Proof.
  intros Hm w b r w' b' Hrun.
  destruct (Hm w b) as (r0 & w0 & Hrun0 & Hs & Hu & Ha).
  rewrite Hrun0 in Hrun. injection Hrun as <- <- <-.
  split; [done|]. split; [done|]. split; [done|]. exists []. by rewrite app_nil_r.
Qed.

Lemma steady_ret {A} (a : A) : steady (ret a).
Proof. apply steady_pure. intros w b. by exists (Ret a), w. Qed.

Lemma steady_json_of {B} (r : Response B) : steady (json_of (S:=t) r).
Proof.
  apply steady_pure. intros w b. unfold json_of.
  destruct (json r); by eexists _, w.
Qed.

Lemma steady_showError (message : string) : steady (showError message).
Proof.
  apply steady_pure. intros w b. unfold showError, bind, get_self, modify_self.
  destruct (error_section (dom w)), (error_message (dom w)); by eexists _, _.
Qed.

Lemma steady_track (eventType : string) (data : list (string * value)) :
  steady (track eventType data).
Proof.
  intros w b r w' b'. unfold track, bind, get_self, Date_now.
  destruct (analytics w); intros [= <- <- <-]; [|apply keeps_refl].
  repeat split. eexists. split; [reflexivity|]. by repeat constructor.
Qed.

Lemma steady_displayResults (result : Result) : steady (displayResults result).
Proof.
  apply steady_pure. intros w b.
  unfold displayResults, bind, modify_self, get_self. cbn.
  destruct (results_section (dom w)); by eexists _, _.
Qed.

Lemma steady_addToHistory (result : Result) : steady (addToHistory result).
Proof.
  intros w b r w' b'. unfold addToHistory, bind at 1, Date_now.
  destruct (extractedText result) as [text|]; [|intros [= <- <- <-]; apply keeps_refl].
  unfold bind at 1, get_self.
  destruct (processingHistory w) as [| | | | |items|] eqn:Eh;
    try (intros [= <- <- <-]; apply keeps_refl).
  unfold bind, modify_self, saveProcessingHistory, try_catch, bind, get_self, setItem,
    renderProcessingHistory, bind, get_self, modify_self. cbn.
  destruct (processing_history (dom w)); intros [= <- <- <-]; repeat split;
    eexists; (split; [reflexivity|]); by repeat constructor.
Qed.

(** What follows the answer, in both forms. *)
Definition handle_result (result : Result) : M t unit :=
  if truthy (success result) then
    displayResults result >> addToHistory result
  else
    showError (if JsString.truthy_str (message result)
               then default "" (message result)
               else "Processing failed").

Lemma steady_handle_result (result : Result) : steady (handle_result result).
Proof.
  unfold handle_result. destruct (truthy (success result)).
  - apply steady_bind; [apply steady_displayResults|]. intros _. apply steady_addToHistory.
  - apply steady_showError.
Qed.

(** The processing of a form after its validation: [before] runs first,
    then the request that [build] makes from the address of the API is
    sent and its answer handled; [handler] is the [catch] block. *)
Definition processing (before : M t unit) (build : string -> Res Request)
    (o : Outcome Result) (handler : JsError -> M t unit) : M t unit :=
  showProcessing true >>
  hideResults >>
  hideError >>
  finally
    (try_catch
       (before >>
        let! w := get_self in
        let! request := lift (build (apiUrl w)) in
        let! response := fetch request o in
        let! result := json_of response in
        handle_result result)
       handler)
    (showProcessing false).

Lemma processing_run
    (before : M t unit) (build : string -> Res Request) (o : Outcome Result)
    (handler : JsError -> M t unit) (w : t) (b : Browser) :
  steady before -> (forall e, steady (handler e)) ->
  (forall e w b, exists w' b', handler e w b = (Ret tt, w', b')) ->
  (forall request, build (apiUrl w) = Ret request -> main_request request = true) ->
  exists w' b' events,
    processing before build o handler w b = (Ret tt, w', b')
    /\ trace b' = trace b ++ events
    /\ main_requests events
       = match before (with_dom (set_error_display "none")
                        (with_dom (set_results_display "none")
                           (with_dom (set_buttons "Processing..." "Processing..." true) w))) b,
               build (apiUrl w) with
         | (Ret _, _, _), Ret request => [request]
         | _, _ => []
         end
    /\ submit_btn (dom w')
       = (fun _ => mkButton "Process Document" false) <$> submit_btn (dom w)
    /\ url_submit_btn (dom w')
       = (fun _ => mkButton "Process" false) <$> url_submit_btn (dom w).
Proof.
  intros Hbefore Hhandler Hreturns Hmain. unfold processing.
  unfold bind at 1, showProcessing at 1, modify_self at 1.
  unfold bind at 1, hideResults, modify_self at 1.
  unfold bind at 1, hideError, modify_self at 1.
  set (w0 := with_dom (set_error_display "none") _).
  assert (Hw0 : submit_btn (dom w0)
                = (fun _ => mkButton "Processing..." true) <$> submit_btn (dom w)
                /\ url_submit_btn (dom w0)
                  = (fun _ => mkButton "Processing..." true) <$> url_submit_btn (dom w)
                /\ apiUrl w0 = apiUrl w).
  { subst w0. by destruct w as [api maxsize types hist an [es em rs et fi ph sb ub]]. }
  destruct Hw0 as (Hsb0 & Hub0 & Hapi0).
  (* the [try] block and its [catch] *)
  assert (Htry : exists w1 b1 events,
    try_catch
      (before >>
       let! w := get_self in
       let! request := lift (build (apiUrl w)) in
       let! response := fetch request o in
       let! result := json_of response in
       handle_result result) handler w0 b = (Ret tt, w1, b1)
    /\ submit_btn (dom w1) = submit_btn (dom w0)
    /\ url_submit_btn (dom w1) = url_submit_btn (dom w0)
    /\ trace b1 = trace b ++ events
    /\ main_requests events
       = match before w0 b, build (apiUrl w) with
         | (Ret _, _, _), Ret request => [request]
         | _, _ => []
         end).
  { assert (Hcatch : forall e w2 b2 events2,
      keeps w0 b w2 b2 -> trace b2 = trace b ++ events2 ->
      exists w1 b1 events,
        handler e w2 b2 = (Ret tt, w1, b1)
        /\ submit_btn (dom w1) = submit_btn (dom w0)
        /\ url_submit_btn (dom w1) = url_submit_btn (dom w0)
        /\ trace b1 = trace b ++ events
        /\ main_requests events = main_requests events2).
    { intros e w2 b2 events2 (Hs2 & Hu2 & _ & _) Ht2.
      destruct (Hreturns e w2 b2) as (w1 & b1 & Hrun).
      destruct (Hhandler e _ _ _ _ _ Hrun) as (Hs1 & Hu1 & _ & ev & Ht1 & Hb1).
      exists w1, b1, (events2 ++ ev). split; [done|].
      split; [congruence|]. split; [congruence|].
      split; [by rewrite Ht1, Ht2, app_assoc|].
      by rewrite main_requests_app, (main_requests_background ev), app_nil_r. }
    unfold try_catch, bind at 1.
    destruct (before w0 b) as [[[[]|e] w2] b2] eqn:Ebefore.
    2:{ destruct (Hbefore _ _ _ _ _ Ebefore) as (Hs2 & Hu2 & Ha2 & ev2 & Ht2 & Hb2).
        destruct (Hcatch e w2 b2 ev2) as (w1 & b1 & events & Hrun & ? & ? & ? & Hm);
          [by repeat split; [..|exists ev2]|done|].
        exists w1, b1, events. split; [done|]. split; [done|]. split; [done|].
        split; [done|]. by rewrite Hm, main_requests_background. }
    destruct (Hbefore _ _ _ _ _ Ebefore) as (Hs2 & Hu2 & Ha2 & ev2 & Ht2 & Hb2).
    assert (Hk2 : keeps w0 b w2 b2) by (by repeat split; [..|exists ev2]).
    unfold bind at 1, get_self. unfold bind at 1, lift.
    rewrite Ha2, Hapi0.
    destruct (build (apiUrl w)) as [request|e] eqn:Ebuild.
    2:{ destruct (Hcatch e w2 b2 ev2 Hk2 Ht2) as (w1 & b1 & events & Hrun & ? & ? & ? & Hm).
        exists w1, b1, events. split; [done|]. split; [done|]. split; [done|].
        split; [done|]. by rewrite Hm, main_requests_background. }
    specialize (Hmain request eq_refl).
    set (b3 := mkBrowser (now b2 + latency o) (storage b2) (trace b2 ++ [EvFetch request])).
    assert (Ht3 : trace b3 = trace b ++ (ev2 ++ [EvFetch request])).
    { subst b3. cbn [trace]. by rewrite Ht2, app_assoc. }
    assert (Hm3 : main_requests (ev2 ++ [EvFetch request]) = [request]).
    { rewrite main_requests_app, (main_requests_background ev2) by done.
      cbn. by rewrite Hmain. }
    assert (Hrest : forall r w4 b4,
      (let! result := json_of r in handle_result result) w2 b3 = (Ret tt, w4, b4) ->
      exists events,
        submit_btn (dom w4) = submit_btn (dom w0)
        /\ url_submit_btn (dom w4) = url_submit_btn (dom w0)
        /\ trace b4 = trace b ++ events
        /\ main_requests events = [request]).
    { intros r w4 b4 Hrun.
      assert (Hsteady : steady (let! result := json_of r in handle_result result)).
      { apply steady_bind; [apply steady_json_of|]. intros result. apply steady_handle_result. }
      destruct (Hsteady _ _ _ _ _ Hrun) as (Hs4 & Hu4 & _ & ev & Ht4 & Hb4).
      exists ((ev2 ++ [EvFetch request]) ++ ev).
      split; [congruence|]. split; [congruence|].
      split; [by rewrite Ht4, Ht3, <- app_assoc|].
      by rewrite main_requests_app, Hm3, (main_requests_background ev). }
    assert (Hfail : forall e w4 b4,
      keeps w2 b3 w4 b4 ->
      exists w1 b1 events,
        handler e w4 b4 = (Ret tt, w1, b1)
        /\ submit_btn (dom w1) = submit_btn (dom w0)
        /\ url_submit_btn (dom w1) = url_submit_btn (dom w0)
        /\ trace b1 = trace b ++ events
        /\ main_requests events = [request]).
    { intros e w4 b4 (Hs4 & Hu4 & _ & ev4 & Ht4 & Hb4).
      destruct (Hreturns e w4 b4) as (w1 & b1 & Hrun).
      destruct (Hhandler e _ _ _ _ _ Hrun) as (Hs1 & Hu1 & _ & ev & Ht1 & Hb1).
      exists w1, b1, (((ev2 ++ [EvFetch request]) ++ ev4) ++ ev). split; [done|].
      split; [congruence|]. split; [congruence|].
      split; [by rewrite Ht1, Ht4, Ht3, <- !app_assoc|].
      by rewrite main_requests_app, main_requests_app, Hm3,
        (main_requests_background ev4), (main_requests_background ev). }
    unfold bind at 1, fetch. fold b3.
    destruct (answer o) as [e|response].
    { apply Hfail. apply keeps_refl. }
    destruct ((let! result := json_of response in handle_result result) w2 b3)
      as [[[[]|e] w4] b4] eqn:Erest.
    - destruct (Hrest _ _ _ Erest) as (events & ? & ? & ? & ?).
      by exists w4, b4, events.
    - apply Hfail.
      assert (Hsteady : steady (let! result := json_of response in handle_result result)).
      { apply steady_bind; [apply steady_json_of|]. intros result. apply steady_handle_result. }
      by eapply Hsteady. }
  destruct Htry as (w1 & b1 & events & Hrun & Hs1 & Hu1 & Ht1 & Hm1).
  unfold finally. rewrite Hrun. unfold showProcessing, modify_self.
  eexists _, _, events. split; [reflexivity|]. split; [exact Ht1|]. split; [exact Hm1|].
  cbn [dom with_dom set_buttons submit_btn url_submit_btn].
  rewrite Hs1, Hu1, Hsb0, Hub0.
  by destruct (submit_btn (dom w)), (url_submit_btn (dom w)).
Qed.

Lemma returns_showError (message : string) (w : t) (b : Browser) :
  exists w', showError message w b = (Ret tt, w', b).
Proof. destruct (ocr_showError_run message w b) as (w' & Hrun & _). by exists w'. Qed.

Lemma returns_track (eventType : string) (data : list (string * value))
    (w : t) (b : Browser) :
  exists b', track eventType data w b = (Ret tt, w, b').
Proof. unfold track, bind, get_self, Date_now. destruct (analytics w); by eexists. Qed.

(** X19.  The upload of an accepted file, whatever the network answers:
    [handleFileUpload] returns normally, the upload is the only request
    that it sends to the OCR endpoints, and the two submit buttons of the
    page are enabled again with their labels. *)
Theorem handleFileUpload_completes
    (history : value) (an : option string) (d : Dom) (file : File)
    (includeDetails : bool) (o : Outcome Result) (b : Browser) :
  accepted file ->
  exists w' b' events,
    handleFileUpload (Some file) includeDetails o (tool history an d) b = (Ret tt, w', b')
    /\ trace b' = trace b ++ events
    /\ main_requests events
       = [mkRequest "https://api.vikasyadav.live/api/ocr/extract" "POST" [] FormBody]
    /\ submit_btn (dom w') = (fun _ => mkButton "Process Document" false) <$> submit_btn d
    /\ url_submit_btn (dom w') = (fun _ => mkButton "Process" false) <$> url_submit_btn d.
Proof.
  intros Haccepted. set (w := tool history an d).
  set (before := track "ocr_file_upload"
                   [("file_size", VNum (size file)); ("file_type", VStr (type file));
                    ("include_details", VBool includeDetails)]).
  set (handler := fun error : JsError =>
         showError "Failed to process document. Please try again." >>
         track "error"
           [("message", VStr (match error with
                              | Error m | TypeError m | SyntaxError m
                              | NetworkError m => m
                              end));
            ("context", VObj [("context", VStr "ocr_file_upload")])]).
  destruct (processing_run before (fun api => Ret (upload_request api)) o handler w b)
    as (w' & b' & events & Hrun & Htrace & Hmain & Hsb & Hub).
  { apply steady_track. }
  { intros e. apply steady_bind; [apply steady_showError|]. intros _. apply steady_track. }
  { intros e w0 b0. unfold handler, bind.
    destruct (returns_showError "Failed to process document. Please try again." w0 b0)
      as (w1 & ->).
    destruct (returns_track "error"
                [("message", VStr (match e with
                                   | Error m | TypeError m | SyntaxError m
                                   | NetworkError m => m
                                   end));
                 ("context", VObj [("context", VStr "ocr_file_upload")])] w1 b0)
      as (b1 & ->).
    by eexists _, _. }
  { by intros request [= <-]. }
  exists w', b', events.
  split.
  - rewrite <- Hrun. unfold handleFileUpload.
    destruct (validateFile_run history an d file b) as (w0 & Hvalid & Hsame & _).
    rewrite (Hsame Haccepted) in Hvalid. fold w in Hvalid.
    rewrite (bind_ret _ _ _ _ _ _ _ Hvalid).
    rewrite bool_decide_eq_true_2 by done. reflexivity.
  - split; [exact Htrace|]. split; [|by split].
    rewrite Hmain.
    destruct (returns_track "ocr_file_upload"
                [("file_size", VNum (size file)); ("file_type", VStr (type file));
                 ("include_details", VBool includeDetails)]
                (with_dom (set_error_display "none")
                   (with_dom (set_results_display "none")
                      (with_dom (set_buttons "Processing..." "Processing..." true) w))) b)
      as (b1 & Hb1).
    unfold before. by rewrite Hb1.
Qed.

(** X20.  The processing of an image address.  An address that is empty
    after trimming changes nothing and sends nothing.  Otherwise
    [handleUrlProcessing] returns normally, whatever the network answers,
    with the two submit buttons enabled again; it sends one request to the
    OCR endpoints, a POST of the trimmed address and the state of the
    check box, and none when the page has no check box. *)
Theorem handleUrlProcessing_completes
    (v : string) (include_details : option bool) (o : Outcome Result)
    (w : t) (b : Browser) :
  (JsString.nonempty (JsString.trim v) = false ->
   handleUrlProcessing (Some v) include_details o w b = (Ret tt, w, b))
  /\ (JsString.nonempty (JsString.trim v) = true ->
      exists w' b' events,
        handleUrlProcessing (Some v) include_details o w b = (Ret tt, w', b')
        /\ trace b' = trace b ++ events
        /\ main_requests events
           = match include_details with
             | Some checked =>
                 [mkRequest (apiUrl w +:+ "/api/ocr/extract-url") "POST" json_headers
                    (JsonBody (VObj [("imageUrl", VStr (JsString.trim v));
                                     ("includeDetails", VBool checked)]))]
             | None => []
             end
        /\ submit_btn (dom w')
           = (fun _ => mkButton "Process Document" false) <$> submit_btn (dom w)
        /\ url_submit_btn (dom w')
           = (fun _ => mkButton "Process" false) <$> url_submit_btn (dom w)).
Proof.
  split.
  { intros Hblank. unfold handleUrlProcessing. by rewrite Hblank. }
  intros Hfilled.
  set (build := fun api : string =>
         match include_details with
         | Some checked => Ret (url_request api (JsString.trim v) checked)
         | None => Throw (TypeError "Cannot read properties of null: checked")
         end).
  set (handler := fun _ : JsError =>
         showError "Failed to process image URL. Please try again.").
  destruct (processing_run (ret tt) build o handler w b)
    as (w' & b' & events & Hrun & Htrace & Hmain & Hsb & Hub).
  { apply steady_ret. }
  { intros e. apply steady_showError. }
  { intros e w0 b0. unfold handler.
    destruct (returns_showError "Failed to process image URL. Please try again." w0 b0)
      as (w1 & ->). by eexists _, _. }
  { unfold build. destruct include_details; [|done]. by intros request [= <-]. }
  exists w', b', events.
  split.
  - rewrite <- Hrun. unfold handleUrlProcessing. rewrite Hfilled.
    unfold build. by destruct include_details.
  - split; [exact Htrace|]. split; [|by split].
    rewrite Hmain. unfold build. by destruct include_details.
Qed.

End Facts.

Local Existing Instance RefPlatform.platform.

(** X19, witness: the upload of a PDF of 10 MB. *)
Lemma handleFileUpload_completes_witness :
  exists w' b' events,
    handleFileUpload (Some scan_pdf) true any_answer (tool (VArr []) None page0) browser0
    = (Ret tt, w', b')
    /\ trace b' = events
    /\ main_requests events
       = [mkRequest "https://api.vikasyadav.live/api/ocr/extract" "POST" [] FormBody]
    /\ submit_btn (dom w') = Some (mkButton "Process Document" false)
    /\ url_submit_btn (dom w') = Some (mkButton "Process" false).
Proof.
  apply (handleFileUpload_completes (VArr []) None page0 scan_pdf true any_answer browser0).
  split; [simpl; lia|]. simpl. set_solver.
Defined.

(** X20, witness: an address between spaces, and the check box checked. *)
Lemma handleUrlProcessing_completes_witness :
  exists w' b' events,
    handleUrlProcessing (Some "  https://example.org/scan.png ") (Some true) any_answer
      (tool (VArr []) None page0) browser0
    = (Ret tt, w', b')
    /\ trace b' = events
    /\ main_requests events
       = [mkRequest "https://api.vikasyadav.live/api/ocr/extract-url" "POST" json_headers
            (JsonBody (VObj [("imageUrl", VStr "https://example.org/scan.png");
                             ("includeDetails", VBool true)]))]
    /\ submit_btn (dom w') = Some (mkButton "Process Document" false)
    /\ url_submit_btn (dom w') = Some (mkButton "Process" false).
Proof.
  apply (proj2 (handleUrlProcessing_completes "  https://example.org/scan.png " (Some true)
                  any_answer (tool (VArr []) None page0) browser0)).
  reflexivity.
Defined.

End OCRFlowFacts.

(** ** The application controller: the stored token *)

Module AuthFacts.
Import VikasYadavApp.

Section Facts.
Context `{Platform}.

(** The answers that [validateToken] accepts: an ok response whose body
    is JSON and is not [null]. *)
Definition confirms (o : Outcome value) : bool :=
  match answer o with
  | inr r => ok r && match json r with
                     | Some data => negb (nullish data)
                     | None => false
                     end
  | inl _ => false
  end.

(** The ok answers whose body is [null]. *)
Definition confirms_nothing (o : Outcome value) : bool :=
  match answer o with
  | inr r => ok r && match json r with
                     | Some data => nullish data
                     | None => false
                     end
  | inl _ => false
  end.

(** X21.  [checkAuthentication] never throws.  Without a stored token it
    only reads the storage.  With a token it sends one request, which
    carries the token, and then: when the response is ok with a body that
    is not [null], the token stays stored, the application is
    authenticated with the [user] of the body, and the elements for
    authenticated users are shown and those for guests hidden; in every
    other case the token is removed from the storage and the user and the
    page stay as they were, but the application is still marked
    authenticated when the response was ok with the body [null]. *)
Theorem checkAuthentication_outcome (o : Outcome value) (a : t) (b : Browser) :
  (storage b !! "auth_token" = None \/ storage b !! "auth_token" = Some "" ->
   checkAuthentication o a b = (Ret tt, a, emit (EvGetItem "auth_token") b))
  /\ forall token,
       storage b !! "auth_token" = Some token -> token <> "" ->
       exists a' b' events,
         checkAuthentication o a b = (Ret tt, a', b')
         /\ trace b' = trace b ++ events
         /\ omap (fun e => match e with EvFetch r => Some r | _ => None end) events
            = [mkRequest (apiUrl a +:+ "/api/auth/me") "GET"
                 [("Authorization", "Bearer " +:+ token)] NoBody]
         /\ storage b' = (if confirms o then storage b
                          else delete "auth_token" (storage b))
         /\ apiUrl a' = apiUrl a
         /\ isAuthenticated a'
            = (isAuthenticated a || confirms o || confirms_nothing o)
         /\ if confirms o then
              (exists r data,
                 answer o = inr r /\ json r = Some data
                 /\ prop data "user" = Ret (currentUser a'))
              /\ auth_required a' = map (fun _ => "block") (auth_required a)
              /\ guest_only a' = map (fun _ => "none") (guest_only a)
            else
              currentUser a' = currentUser a
              /\ auth_required a' = auth_required a
              /\ guest_only a' = guest_only a.
Proof.
  split.
  { unfold checkAuthentication, bind, getItem. by intros [->| ->]. }
  intros token Htoken Hfilled.
  assert (Htruthy : JsString.truthy_str (Some token) = true) by (by destruct token).
  destruct a as [api auth user required guest].
  unfold checkAuthentication, bind at 1, getItem. rewrite Htoken, Htruthy.
  cbn [from_option id]. unfold confirms, confirms_nothing.
  unfold validateToken, try_catch, bind, get_self, fetch, json_of, lift, modify_self,
    updateUIForAuthenticatedUser, removeItem, ret, throw.
  cbn [apiUrl isAuthenticated currentUser auth_required guest_only now storage trace emit].
  destruct (answer o) as [e|[okr st stt body]]; cbn [ok json].
  { eexists _, _, _. split; [reflexivity|]. cbn [trace].
    split; [by rewrite <- !app_assoc|]. split; [reflexivity|].
    split; [reflexivity|]. split; [reflexivity|].
    split; [by rewrite !orb_false_r|]. done. }
  destruct okr; cbn [andb].
  2:{ eexists _, _, _. split; [reflexivity|]. cbn [trace].
      split; [by rewrite <- !app_assoc|]. split; [reflexivity|].
      split; [reflexivity|]. split; [reflexivity|].
      split; [by rewrite !orb_false_r|]. done. }
  destruct body as [data|].
  2:{ eexists _, _, _. split; [reflexivity|]. cbn [trace].
      split; [by rewrite <- !app_assoc|]. split; [reflexivity|].
      split; [reflexivity|]. split; [reflexivity|].
      split; [by rewrite !orb_false_r|]. done. }
  destruct data as [| |bv|n|s|l|fields]; cbn [nullish negb prop].
  all: eexists _, _, _; (split; [reflexivity|]); cbn [trace].
  all: split; [by rewrite <- ?app_assoc|]; split; [reflexivity|].
  all: split; [reflexivity|]; split; [reflexivity|].
  all: split; [by rewrite ?orb_true_r, ?orb_false_r|].
  all: try done.
  all: split; [|done]; by eexists _, _.
Qed.

End Facts.

Local Existing Instance RefPlatform.platform.

Definition signed_in : Outcome value :=
  mkOutcome 80 (inr (mkResponse true 200 "OK"
    (Some (VObj [("user", VObj [("name", VStr "vikas")])])))).

Definition browser_with_token : Browser :=
  mkBrowser 1700000000000 (<["auth_token" := "tok123"]> ∅) [].

(** X21, witness: a token that the endpoint confirms. *)
Lemma checkAuthentication_outcome_witness :
  exists a' b',
    checkAuthentication signed_in (new ["none"] ["block"; "inline"]) browser_with_token
    = (Ret tt, a', b')
    /\ storage b' = storage browser_with_token
    /\ isAuthenticated a' = true
    /\ currentUser a' = VObj [("name", VStr "vikas")]
    /\ auth_required a' = ["block"]
    /\ guest_only a' = ["none"; "none"].
Proof.
  destruct (proj2 (checkAuthentication_outcome signed_in (new ["none"] ["block"; "inline"])
                     browser_with_token) "tok123" eq_refl ltac:(discriminate))
    as (a' & b' & events & Hrun & _ & _ & Hstorage & _ & Hauth & Hrest).
  change (confirms signed_in) with true in Hstorage, Hauth, Hrest.
  cbv iota in Hstorage, Hrest.
  destruct Hrest as ((r & data & [= <-] & [= <-] & [= Huser]) & Hshown & Hhidden).
  exists a', b'. split; [exact Hrun|]. split; [exact Hstorage|].
  split; [exact Hauth|]. split; [by rewrite <- Huser|]. split; [exact Hshown|exact Hhidden].
Defined.

End AuthFacts.

(** ** The analytics tracker: the queue *)

Module AnalyticsFacts.
Import Analytics.

Section Facts.
Context `{Platform}.

(** What happens to the tracker of a page: calls of [track] and [init],
    the events of the browser that its listeners handle, the settlement of
    one of its requests, and the passing of time. *)
Inductive Op : Type :=
| Track (env : Env) (eventType : string) (data : list (string * value))
| Init (config : Config) (env : Env)
| Online
| Offline
| Visibility (env : Env) (hidden : bool)
| Settle (n : nat) (rejected : bool)
| Tick (ms : Z).

Definition run_op (o : Op) : M t unit :=
  match o with
  | Track env eventType data => track env eventType data
  | Init config env => init config env
  | Online => online
  | Offline => offline
  | Visibility env hidden => visibilitychange env hidden
  | Settle n rejected => settle n rejected
  | Tick ms => fun a b => (Ret tt, a, mkBrowser (now b + ms) (storage b) (trace b))
  end.

Fixpoint run (ops : list Op) : M t unit :=
  match ops with
  | [] => ret tt
  | o :: rest => run_op o >> run rest
  end.

(** The events that an operation creates, and the events whose request
    it settles as fulfilled. *)
Definition creates (o : Op) (a : t) (b : Browser) : list value :=
  match o with
  | Track env eventType data => [event_of env eventType data (sessionId a) (now b)]
  | Init config env =>
      if default false (config_autoTrack config)
      then [event_of env "page_view"
              [("url", VStr (href env)); ("title", VStr (doc_title env));
               ("referrer", VStr (doc_referrer env))]
              (sessionId a) (now b)]
      else []
  | Visibility env hidden =>
      [event_of env (if hidden then "page_hidden" else "page_visible") []
         (sessionId a) (now b)]
  | _ => []
  end.

Definition delivers (o : Op) (a : t) : list value :=
  match o with
  | Settle n false => option_list (awaiting a !! n)
  | _ => []
  end.

Fixpoint created (ops : list Op) (a : t) (b : Browser) : list value :=
  match ops with
  | [] => []
  | o :: rest =>
      creates o a b ++ created rest (run_op o a b).1.2 (run_op o a b).2
  end.

Fixpoint delivered (ops : list Op) (a : t) (b : Browser) : list value :=
  match ops with
  | [] => []
  | o :: rest =>
      delivers o a ++ delivered rest (run_op o a b).1.2 (run_op o a b).2
  end.

(** The requests for a list of events. *)
Definition requests_of (api sid : string) (events : list value) : list Event :=
  map (fun event => EvFetch (event_request api sid event)) events.

Lemma send_all_run (events : list value) (a : t) (b : Browser) :
  send_all events a b
  = (Ret tt, set_awaiting (awaiting a ++ events) a,
     mkBrowser (now b) (storage b)
       (trace b ++ requests_of (apiUrl a) (sessionId a) events)).
Proof.
  revert a b. induction events as [|event events IH]; intros a b.
  - destruct a, b. cbn. by rewrite !app_nil_r.
  - cbn [send_all]. unfold bind, sendEvent. rewrite IH.
    destruct a, b. cbn. by rewrite <- !app_assoc.
Qed.

(** [track] puts the event in the queue, or starts its request. *)
Definition tracked (event : value) (a : t) (b : Browser) : t * Browser :=
  if isOnline a && JsString.nonempty (apiUrl a)
  then (set_awaiting (awaiting a ++ [event]) a,
        mkBrowser (now b) (storage b)
          (trace b ++ requests_of (apiUrl a) (sessionId a) [event]))
  else (push event a, b).

Lemma track_run (env : Env) (eventType : string) (data : list (string * value))
    (a : t) (b : Browser) :
  track env eventType data a b
  = (Ret tt, (tracked (event_of env eventType data (sessionId a) (now b)) a b).1,
     (tracked (event_of env eventType data (sessionId a) (now b)) a b).2).
Proof.
  unfold track, tracked, bind, get_self, Date_now.
  destruct (isOnline a && JsString.nonempty (apiUrl a)); reflexivity.
Qed.

(** [processQueue] starts the requests of the queue, or does nothing. *)
Definition processed (a : t) (b : Browser) : t * Browser :=
  if isOnline a && JsString.nonempty (apiUrl a)
  then (set_awaiting (awaiting a ++ queue a) (set_queue [] a),
        mkBrowser (now b) (storage b)
          (trace b ++ requests_of (apiUrl a) (sessionId a) (queue a)))
  else (a, b).

Lemma processQueue_run (a : t) (b : Browser) :
  processQueue a b = (Ret tt, (processed a b).1, (processed a b).2).
Proof.
  unfold processQueue, processed, bind, get_self.
  destruct (isOnline a), (JsString.nonempty (apiUrl a)); cbn [negb orb andb]; try done.
  destruct (queue a) as [|event q] eqn:Hq.
  - cbn. destruct a, b. cbn in *. subst. by rewrite !app_nil_r.
  - cbn [length Nat.eqb]. unfold modify_self. rewrite send_all_run.
    destruct a, b. cbn in *. by subst.
Qed.

(** The events whose request an operation starts. *)
Definition sends (o : Op) (a : t) (b : Browser) : list value :=
  match o with
  | Track _ _ _ | Visibility _ _ =>
      if isOnline a && JsString.nonempty (apiUrl a) then creates o a b else []
  | Init _ _ => if isOnline a then creates o a b ++ queue a else []
  | Online => if JsString.nonempty (apiUrl a) then queue a else []
  | _ => []
  end.

(** The address after an operation. *)
Definition address (o : Op) (a : t) : string :=
  match o with
  | Init config _ =>
      if JsString.truthy_str (config_apiUrl config)
      then default "" (config_apiUrl config)
      else "https://api.vikasyadav.live"
  | _ => apiUrl a
  end.

Definition connected (o : Op) (a : t) : bool :=
  match o with
  | Online => true
  | Offline => false
  | _ => isOnline a
  end.

Lemma address_init (config : Config) (env : Env) (a : t) :
  JsString.nonempty (address (Init config env) a) = true.
Proof.
  unfold address. destruct (config_apiUrl config) as [s|]; [|done].
  cbn [JsString.truthy_str from_option id default].
  by destruct (JsString.nonempty s) eqn:E.
Qed.

Lemma delete_lookup_perm {A} (l : list A) (n : nat) (x : A) :
  l !! n = Some x -> l ≡ₚ x :: delete n l.
Proof.
  revert n. induction l as [|y l IH]; intros [|n]; cbn; try done.
  - by intros [= ->].
  - intros Hn. rewrite (IH _ Hn) at 1. apply Permutation_swap.
Qed.

Ltac perm :=
  first [ reflexivity
        | apply Permutation_cons_append
        | symmetry; apply Permutation_cons_append
        | apply Permutation_app_comm
        | apply Permutation_app_head; perm
        | apply Permutation_middle
        | symmetry; apply Permutation_middle ].

Ltac fin :=
  cbn; rewrite ?app_nil_r, <- ?app_assoc; cbn;
  repeat match goal with |- _ /\ _ => split end;
  rewrite ?app_nil_r, <- ?app_assoc; try reflexivity; try done; try perm.

Lemma run_op_spec (o : Op) (a : t) (b : Browser) :
  exists a' b',
    run_op o a b = (Ret tt, a', b')
    /\ sessionId a' = sessionId a
    /\ apiUrl a' = address o a
    /\ isOnline a' = connected o a
    /\ beacons a' = beacons a
    /\ storage b' = storage b
    /\ trace b' = trace b ++ requests_of (address o a) (sessionId a) (sends o a b)
    /\ queue a' ++ awaiting a' ++ delivers o a ≡ₚ queue a ++ awaiting a ++ creates o a b.
Proof.
  destruct o as [env eventType data|config env| | |env hidden|n rejected|ms].
  - cbn [run_op]. rewrite track_run. unfold tracked. eexists _, _. split; [reflexivity|].
    cbn [sends creates delivers address connected].
    destruct a as [api sid auto q on aw bc], b as [t_now st tr].
    cbn [isOnline apiUrl sessionId queue awaiting beacons now storage trace].
    destruct (on && JsString.nonempty api); fin.
  - cbn [run_op]. unfold init, bind at 1, modify_self. unfold bind at 1, get_self.
    destruct a as [api sid auto q on aw bc], b as [t_now st tr].
    cbn [autoTrack sessionId queue isOnline awaiting beacons].
    pose proof (address_init config env (mk api sid auto q on aw bc)) as Haddr.
    cbn [address] in Haddr.
    set (api' := if JsString.truthy_str (config_apiUrl config)
                 then default "" (config_apiUrl config)
                 else "https://api.vikasyadav.live") in *.
    cbn [sends creates delivers address connected isOnline sessionId queue awaiting
         beacons now storage trace].
    fold api'.
    destruct (default false (config_autoTrack config)).
    + unfold bind, startAutoTracking. rewrite track_run. unfold tracked.
      cbn [isOnline apiUrl sessionId now]. rewrite Haddr, andb_true_r.
      rewrite processQueue_run. unfold processed.
      destruct on; cbn; rewrite ?Haddr; cbn; eexists _, _;
        (split; [reflexivity|]); fin.
      by rewrite (Permutation_app_comm q), <- app_assoc.
    + unfold bind, ret. rewrite processQueue_run. unfold processed.
      destruct on; cbn; rewrite ?Haddr; cbn; eexists _, _;
        (split; [reflexivity|]); fin.
  - cbn [run_op]. unfold online, bind, modify_self. rewrite processQueue_run.
    unfold processed.
    destruct a as [api sid auto q on aw bc], b as [t_now st tr].
    cbn [sends creates delivers address connected isOnline sessionId queue awaiting
         beacons now storage trace apiUrl set_isOnline andb].
    destruct (JsString.nonempty api); cbn; eexists _, _; (split; [reflexivity|]); fin.
  - destruct a, b. eexists _, _. split; [reflexivity|]. fin.
  - cbn [run_op]. unfold visibilitychange.
    assert (Hrun : (if hidden then track env "page_hidden" [] else track env "page_visible" [])
                   = track env (if hidden then "page_hidden" else "page_visible") [])
      by (by destruct hidden).
    rewrite Hrun, track_run. unfold tracked. eexists _, _. split; [reflexivity|].
    cbn [sends creates delivers address connected].
    destruct a as [api sid auto q on aw bc], b as [t_now st tr].
    cbn [isOnline apiUrl sessionId queue awaiting beacons now storage trace].
    destruct (on && JsString.nonempty api); fin.
  - cbn [run_op]. unfold settle, bind at 1, get_self.
    destruct a as [api sid auto q on aw bc], b as [t_now st tr].
    cbn [awaiting sends creates delivers address connected isOnline sessionId queue
         beacons now storage trace apiUrl].
    destruct (aw !! n) as [event|] eqn:Hn.
    + pose proof (delete_lookup_perm _ _ _ Hn) as Hperm.
      destruct rejected; eexists _, _; (split; [reflexivity|]); fin.
      * apply Permutation_app_head. by symmetry.
      * apply Permutation_app_head. etrans; [|symmetry; exact Hperm].
        symmetry. apply Permutation_cons_append.
    + eexists _, _; (split; [reflexivity|]). destruct rejected; fin.
  - destruct a, b. eexists _, _. split; [reflexivity|]. fin.
Qed.

Lemma sends_known (o : Op) (a : t) (b : Browser) :
  sends o a b ⊆ queue a ++ creates o a b.
Proof.
  intros event. destruct o; cbn [sends creates];
    repeat match goal with |- context [if ?c then _ else _] => destruct c end;
    rewrite ?app_nil_r, ?elem_of_app; auto; try (by intros ?%elem_of_nil);
    try tauto.
  intros [?%elem_of_nil|?]; tauto.
Qed.

Lemma sends_connected (o : Op) (a : t) (b : Browser) :
  sends o a b <> [] ->
  connected o a = true /\ JsString.nonempty (address o a) = true.
Proof.
  destruct o as [env eventType data|config env| | |env hidden|n rejected|ms];
    cbn [sends connected]; try done.
  - cbn [address]. by destruct (isOnline a), (JsString.nonempty (apiUrl a)).
  - rewrite address_init. by destruct (isOnline a).
  - cbn [address]. by destruct (JsString.nonempty (apiUrl a)).
  - cbn [address]. by destruct (isOnline a), (JsString.nonempty (apiUrl a)).
Qed.

(** A request of the tracker with session [sid], for one of [events]. *)
Definition tracker_request (sid : string) (events : list value) (e : Event) : Prop :=
  exists api event,
    JsString.nonempty api = true
    /\ e = EvFetch (event_request api sid event)
    /\ event ∈ events.

Definition is_init (o : Op) : bool :=
  match o with Init _ _ => true | _ => false end.

Definition is_online (o : Op) : bool :=
  match o with Online => true | _ => false end.

Lemma ledger_step {X} (q' aw' del D q1 aw1 C q aw cr : list X) :
  q' ++ aw' ++ D ≡ₚ q1 ++ aw1 ++ C ->
  q1 ++ aw1 ++ del ≡ₚ q ++ aw ++ cr ->
  q' ++ aw' ++ del ++ D ≡ₚ q ++ aw ++ cr ++ C.
Proof.
  intros H1 H2.
  rewrite (app_assoc q' aw'), Permutation_app_swap_app, <- (app_assoc q' aw'), H1.
  rewrite (app_assoc q1 aw1), Permutation_app_swap_app, <- (app_assoc q1 aw1).
  rewrite (app_assoc aw1 del C), (app_assoc q1 (aw1 ++ del) C), H2.
  by rewrite <- !app_assoc.
Qed.

Lemma run_cons (o : Op) (rest : list Op) (a a1 : t) (b b1 : Browser) :
  run_op o a b = (Ret tt, a1, b1) ->
  run (o :: rest) a b = run rest a1 b1
  /\ created (o :: rest) a b = creates o a b ++ created rest a1 b1
  /\ delivered (o :: rest) a b = delivers o a ++ delivered rest a1 b1.
Proof. intros Hrun. cbn [run created delivered]. unfold bind. by rewrite Hrun. Qed.

Lemma run_spec (ops : list Op) (a : t) (b : Browser) :
  exists a' b' events,
    run ops a b = (Ret tt, a', b')
    /\ sessionId a' = sessionId a
    /\ beacons a' = beacons a
    /\ storage b' = storage b
    /\ trace b' = trace b ++ events
    /\ queue a' ++ awaiting a' ++ delivered ops a b
       ≡ₚ queue a ++ awaiting a ++ created ops a b
    /\ Forall (tracker_request (sessionId a) (queue a ++ awaiting a ++ created ops a b))
              events
    /\ (isOnline a = false -> forallb (fun o => negb (is_online o)) ops = true ->
        events = [] /\ isOnline a' = false)
    /\ (apiUrl a = "" -> forallb (fun o => negb (is_init o)) ops = true ->
        events = [] /\ apiUrl a' = "").
Proof.
  revert a b. induction ops as [|o rest IH]; intros a b.
  { exists a, b, []. cbn. rewrite !app_nil_r. by repeat split. }
  destruct (run_op_spec o a b)
    as (a1 & b1 & Hrun & Hsid & Hapi & Hon & Hbc & Hst & Htr & Hperm).
  destruct (run_cons o rest a a1 b b1 Hrun) as (-> & -> & ->).
  destruct (IH a1 b1)
    as (a' & b' & events & Hrun' & Hsid' & Hbc' & Hst' & Htr' & Hperm' & Hreq' & Hoff' & Huninit').
  exists a', b', (requests_of (address o a) (sessionId a) (sends o a b) ++ events).
  split; [exact Hrun'|]. split; [congruence|]. split; [congruence|].
  split; [congruence|]. split; [by rewrite Htr', Htr, <- app_assoc|].
  assert (Hin : forall event, event ∈ queue a1 ++ awaiting a1 ->
                              event ∈ queue a ++ awaiting a ++ creates o a b).
  { intros event Hevent. rewrite <- Hperm, (app_assoc (queue a1)), elem_of_app. by left. }
  split; [|split; [|split]].
  - by apply (ledger_step _ _ _ _ (queue a1) (awaiting a1)).
  - apply Forall_app. split.
    + destruct (sends o a b) as [|e0 l0] eqn:Hsends; [constructor|].
      destruct (sends_connected o a b) as [_ Haddr]; [by rewrite Hsends|].
      rewrite <- Hsends. apply Forall_forall. intros e He.
      apply list_elem_of_fmap in He as (event & -> & Hevent).
      exists (address o a), event. split; [done|]. split; [done|].
      apply sends_known in Hevent. apply elem_of_app in Hevent.
      repeat setoid_rewrite elem_of_app. destruct Hevent as [?|?]; auto.
    + rewrite Hsid in Hreq'. eapply Forall_impl; [exact Hreq'|].
      intros e (api & event & Hapi' & -> & Hevent). exists api, event.
      split; [done|]. split; [done|].
      specialize (Hin event). repeat setoid_rewrite elem_of_app.
      repeat setoid_rewrite elem_of_app in Hin.
      repeat setoid_rewrite elem_of_app in Hevent.
      destruct Hevent as [Hq|[Ha|Hc]]; [| |by auto];
        (destruct Hin as [?|[?|?]]; [by auto|by auto|by auto|by auto]).
  - intros Hoffline Hquiet. cbn [forallb] in Hquiet.
    apply andb_true_iff in Hquiet as [Ho Hrest].
    assert (Hon1 : isOnline a1 = false).
    { rewrite Hon. destruct o; cbn in *; done. }
    destruct (Hoff' Hon1 Hrest) as [-> Hon'].
    split; [|done]. rewrite app_nil_r.
    destruct (sends o a b) as [|e0 l0] eqn:Hsends; [done|].
    destruct (sends_connected o a b) as [Hc _]; [by rewrite Hsends|].
    destruct o; cbn in *; congruence.
  - intros Huninit Hquiet. cbn [forallb] in Hquiet.
    apply andb_true_iff in Hquiet as [Ho Hrest].
    assert (Hapi1 : apiUrl a1 = "").
    { rewrite Hapi. destruct o; cbn in *; done. }
    destruct (Huninit' Hapi1 Hrest) as [-> Hapi'].
    split; [|done]. rewrite app_nil_r.
    destruct (sends o a b) as [|e0 l0] eqn:Hsends; [done|].
    destruct (sends_connected o a b) as [_ Haddr]; [by rewrite Hsends|].
    destruct o; cbn in *; try done; by rewrite Huninit in Haddr.
Qed.

(** X22.  Whatever happens to the tracker, in whatever order (calls of
    [track] and [init], the browser going online or offline, the page
    becoming hidden or visible, requests being fulfilled or rejected, time
    passing): nothing throws, and no event is lost or duplicated.  The
    events in the queue, the events whose request is not settled and the
    events whose request was fulfilled are, together, the events that
    were in the queue or in a request at the start and the events created
    since. *)
Theorem tracker_conserves_events (ops : list Op) (a : t) (b : Browser) :
  exists a' b',
    run ops a b = (Ret tt, a', b')
    /\ queue a' ++ awaiting a' ++ delivered ops a b
       ≡ₚ queue a ++ awaiting a ++ created ops a b.
Proof.
  destruct (run_spec ops a b) as (a' & b' & events & Hrun & _ & _ & _ & _ & Hperm & _).
  by exists a', b'.
Qed.

(** X23.  Whatever happens to the tracker, it leaves [localStorage] as it
    is and keeps its session id, and all that it sends are requests to
    the tracking endpoint of an address that is not empty, each a POST of
    one of its events with the session id in a header.  It sends nothing
    as long as the browser stays offline, and nothing before [init]. *)
Theorem tracker_sends_tracked_events (ops : list Op) (a : t) (b : Browser) :
  exists a' b' events,
    run ops a b = (Ret tt, a', b')
    /\ sessionId a' = sessionId a
    /\ storage b' = storage b
    /\ trace b' = trace b ++ events
    /\ Forall (tracker_request (sessionId a) (queue a ++ awaiting a ++ created ops a b))
              events
    /\ (isOnline a = false -> forallb (fun o => negb (is_online o)) ops = true ->
        events = [])
    /\ (apiUrl a = "" -> forallb (fun o => negb (is_init o)) ops = true ->
        events = []).
Proof.
  destruct (run_spec ops a b)
    as (a' & b' & events & Hrun & Hsid & _ & Hst & Htr & _ & Hreq & Hoff & Huninit).
  exists a', b', events. repeat (split; [done|]). split.
  - intros Ha Hops. by destruct (Hoff Ha Hops).
  - intros Ha Hops. by destruct (Huninit Ha Hops).
Qed.

(** The operations that neither initialise the tracker nor bring it
    online nor settle a request. *)
Definition is_quiet (o : Op) : bool :=
  match o with
  | Track _ _ _ | Visibility _ _ | Tick _ | Offline => true
  | _ => false
  end.

Lemma run_offline (ops : list Op) (a : t) (b : Browser) :
  isOnline a = false -> forallb is_quiet ops = true ->
  exists a' b',
    run ops a b = (Ret tt, a', b')
    /\ queue a' = queue a ++ created ops a b
    /\ awaiting a' = awaiting a
    /\ apiUrl a' = apiUrl a
    /\ sessionId a' = sessionId a
    /\ isOnline a' = false
    /\ trace b' = trace b.
Proof.
  revert a b. induction ops as [|o rest IH]; intros a b Hoff Hquiet.
  { exists a, b. cbn. by rewrite app_nil_r. }
  cbn [forallb] in Hquiet. apply andb_true_iff in Hquiet as [Ho Hrest].
  assert (Hstep : exists a1 b1,
    run_op o a b = (Ret tt, a1, b1)
    /\ queue a1 = queue a ++ creates o a b /\ awaiting a1 = awaiting a
    /\ apiUrl a1 = apiUrl a /\ sessionId a1 = sessionId a /\ isOnline a1 = false
    /\ trace b1 = trace b).
  { destruct o as [env eventType data|config env| | |env hidden|n rejected|ms]; try done.
    - cbn [run_op]. rewrite track_run. unfold tracked. rewrite Hoff. cbn [andb].
      eexists _, _. split; [reflexivity|]. by destruct a.
    - destruct a, b. cbn in *. subst. eexists _, _. split; [reflexivity|].
      cbn. by rewrite app_nil_r.
    - cbn [run_op]. unfold visibilitychange.
      destruct hidden; rewrite track_run; unfold tracked; rewrite Hoff; cbn [andb];
        (eexists _, _; split; [reflexivity|]); by destruct a.
    - destruct a, b. cbn in *. subst. eexists _, _. split; [reflexivity|].
      cbn. by rewrite app_nil_r. }
  destruct Hstep as (a1 & b1 & Hrun & Hq & Haw & Hapi & Hsid & Hon & Htr).
  destruct (run_cons o rest a a1 b b1 Hrun) as (-> & -> & _).
  destruct (IH a1 b1 Hon Hrest) as (a' & b' & Hrun' & Hq' & Haw' & Hapi' & Hsid' & Hon' & Htr').
  exists a', b'. split; [done|]. rewrite Hq', Hq, Haw', Haw, Hapi', Hapi, Hsid', Hsid, Htr', Htr.
  by rewrite <- app_assoc.
Qed.

Lemma run_app (ops1 ops2 : list Op) (a a1 : t) (b b1 : Browser) :
  run ops1 a b = (Ret tt, a1, b1) -> run (ops1 ++ ops2) a b = run ops2 a1 b1.
Proof.
  revert a b. induction ops1 as [|o rest IH]; intros a b; cbn [run app].
  { by intros [= -> ->]. }
  unfold bind. destruct (run_op o a b) as [[[[]|e] a2] b2]; [|done].
  apply IH.
Qed.

(** X24.  The events that are tracked while the browser is offline are
    queued and nothing is sent.  When the browser comes online, the
    tracker (with an address) starts a request for each event of the
    queue, in the order in which the events were tracked, and empties the
    queue. *)
Theorem offline_events_sent_in_order (ops : list Op) (a : t) (b : Browser) :
  isOnline a = false ->
  JsString.nonempty (apiUrl a) = true ->
  forallb is_quiet ops = true ->
  exists a1 b1 a' b',
    run ops a b = (Ret tt, a1, b1)
    /\ trace b1 = trace b
    /\ queue a1 = queue a ++ created ops a b
    /\ run (ops ++ [Online]) a b = (Ret tt, a', b')
    /\ trace b' = trace b ++ requests_of (apiUrl a) (sessionId a) (queue a ++ created ops a b)
    /\ queue a' = []
    /\ awaiting a' = awaiting a ++ queue a ++ created ops a b.
Proof.
  intros Hoff Hapi Hquiet.
  destruct (run_offline ops a b Hoff Hquiet)
    as (a1 & b1 & Hrun & Hq & Haw & Hapi1 & Hsid & Hon & Htr).
  assert (Honline :
    run [Online] a1 b1
    = (Ret tt,
       set_awaiting (awaiting a1 ++ queue a1) (set_queue [] (set_isOnline true a1)),
       mkBrowser (now b1) (storage b1)
         (trace b1 ++ requests_of (apiUrl a1) (sessionId a1) (queue a1)))).
  { cbn [run]. unfold bind at 1. cbn [run_op]. unfold online, bind, modify_self.
    rewrite processQueue_run. unfold processed, ret.
    destruct a1 as [api1 sid1 auto1 q1 on1 aw1 bc1]. cbn in Hapi1. subst api1.
    cbn [isOnline apiUrl set_isOnline andb]. by rewrite Hapi. }
  eexists a1, b1, _, _. split; [exact Hrun|]. split; [exact Htr|]. split; [exact Hq|].
  rewrite (run_app ops [Online] a a1 b b1 Hrun), Honline.
  split; [reflexivity|]. cbn. rewrite Htr, Hapi1, Hsid, Hq, Haw. by repeat split.
Qed.

(** X25.  When the page is left: a tracker that is online and has an
    address starts a request for the [page_unload] event and hands to
    [sendBeacon] the events of the queue, if there are any, without the
    [page_unload] event and without emptying the queue; otherwise the
    event is queued and nothing is sent, by request or by beacon. *)
Theorem beforeunload_beacon (env : Env) (a : t) (b : Browser) :
  let event := event_of env "page_unload" [] (sessionId a) (now b) in
  exists a' b',
    beforeunload env a b = (Ret tt, a', b')
    /\ sessionId a' = sessionId a
    /\ if isOnline a && JsString.nonempty (apiUrl a) then
         queue a' = queue a
         /\ awaiting a' = awaiting a ++ [event]
         /\ trace b' = trace b ++ requests_of (apiUrl a) (sessionId a) [event]
         /\ beacons a'
            = beacons a
              ++ (if queue a is [] then []
                  else [(apiUrl a +:+ "/api/analytics/track",
                         VObj [("events", VArr (queue a));
                               ("session_id", VStr (sessionId a))])])
       else
         queue a' = queue a ++ [event]
         /\ awaiting a' = awaiting a
         /\ b' = b
         /\ beacons a' = beacons a.
Proof.
  intros event. unfold beforeunload, bind at 1. rewrite track_run. fold event.
  unfold tracked, flush, bind, get_self.
  destruct a as [api sid auto q on aw bc], b as [t_now st tr].
  cbn [isOnline apiUrl sessionId queue awaiting beacons now storage trace].
  destruct (on && JsString.nonempty api) eqn:Hc.
  - apply andb_true_iff in Hc as [-> Hn].
    cbn [fst snd set_awaiting queue isOnline apiUrl sessionId awaiting beacons andb].
    rewrite Hn.
    destruct q as [|e0 q]; cbn; eexists _, _; (split; [reflexivity|]); cbn;
      rewrite ?app_nil_r; by repeat split.
  - cbn [fst snd push set_queue queue isOnline apiUrl sessionId awaiting beacons].
    assert (Hlen : (0 <? length (q ++ [event]))%nat = true).
    { by destruct q. }
    rewrite Hlen. cbn [andb].
    replace (on && JsString.nonempty api) with false by (by rewrite <- Hc).
    eexists _, _. split; [reflexivity|]. by repeat split.
Qed.

End Facts.

Local Existing Instance RefPlatform.platform.

Definition desk : Env :=
  mkEnv "https://vikasyadav.live/index.html" "Vikas Yadav" "" "Mozilla/5.0"
        1920 1080 1280 720 "Asia/Kolkata".

Definition browser0 : Browser := mkBrowser 1700000000000 ∅ [].

(** A tracker that was initialised and is offline. *)
Definition offline_tracker : t :=
  mk "https://api.vikasyadav.live" "session_1700000000000_k3v9x0001" false [] false [] [].

(** X23, witness: a tracker that is online and not initialised sends
    nothing. *)
Lemma tracker_sends_tracked_events_witness :
  exists a' b',
    run [Track desk "button_click" [("id", VStr "send")]; Online; Visibility desk true]
        (new 0 true browser0) browser0
    = (Ret tt, a', b')
    /\ trace b' = [].
Proof.
  destruct (tracker_sends_tracked_events
              [Track desk "button_click" [("id", VStr "send")]; Online; Visibility desk true]
              (new 0 true browser0) browser0)
    as (a' & b' & events & Hrun & _ & _ & Htr & _ & _ & Huninit).
  rewrite (Huninit eq_refl eq_refl) in Htr.
  exists a', b'. split; [exact Hrun|exact Htr].
Defined.

(** X24, witness: two events while offline, five seconds apart. *)
Lemma offline_events_sent_in_order_witness :
  exists a' b',
    run [Track desk "button_click" [("id", VStr "send")]; Tick 5000; Visibility desk true;
         Online] offline_tracker browser0
    = (Ret tt, a', b')
    /\ trace b'
       = requests_of "https://api.vikasyadav.live" "session_1700000000000_k3v9x0001"
           [event_of desk "button_click" [("id", VStr "send")]
              "session_1700000000000_k3v9x0001" 1700000000000;
            event_of desk "page_hidden" [] "session_1700000000000_k3v9x0001" 1700000005000]
    /\ queue a' = [].
Proof.
  destruct (offline_events_sent_in_order
              [Track desk "button_click" [("id", VStr "send")]; Tick 5000;
               Visibility desk true]
              offline_tracker browser0 eq_refl eq_refl eq_refl)
    as (a1 & b1 & a' & b' & _ & _ & _ & Hrun & Htr & Hq & _).
  exists a', b'. split; [exact Hrun|]. split; [exact Htr|exact Hq].
Defined.

End AnalyticsFacts.

(** ** The Scholar widget: what it shows *)

Module ScholarViewFacts.
Import ScholarStatsWidget ScholarStatsView ScholarFacts.

Section Facts.
Context `{Platform}.
Variables options_apiUrl options_containerId : option string.

Local Abbreviation this := (new options_apiUrl options_containerId).
Local Abbreviation key := "scholar_stats_cache".

Lemma prop_optprop (v : value) (k : string) :
  nullish v = false -> prop v k = Ret (optprop v k).
Proof. by destruct v. Qed.

Lemma prop_nullish (v : value) (k : string) :
  nullish v = true -> exists e, prop v k = Throw e.
Proof. destruct v; try done; by eexists. Qed.

(** The face of the card for the entry [v] of the metrics. *)
Definition face (v : value) : Stats :=
  mkStats (optprop v "citations") (optprop v "h_index") (optprop v "i10_index").

(** The card for the entries [all] and [since], the second under the
    name [sinceKey]. *)
Definition card_of (all since : value) (sinceKey : string) : Content :=
  Card (face all) (replace_first "Since " "" sinceKey) (face since)
       (if JsNumber.gt (ToNumber (optprop all "citations")) (Some 0)
        then RoundedRatio (optprop since "citations") (optprop all "citations")
        else Hundred).

(** What the container shows for the metrics that [fetchStats] has
    returned: the card when the metrics are an object whose entry [All]
    and whose first entry named [Since...] (or, without one, the entry
    [Since 2020]) are not [null] or absent, else the notice. *)
Definition shown (metrics : value) : Content :=
  match metrics with
  | VObj fields =>
      let all := optprop metrics "All" in
      let since := optprop metrics (since_key fields) in
      if nullish all || nullish since then Unavailable
      else card_of all since (since_key fields)
  | _ => Unavailable
  end.

Lemma stats_of_face (v : value) : nullish v = false -> stats_of v = Ret (face v).
Proof. intros Hv. unfold stats_of. by rewrite !prop_optprop. Qed.

Lemma stats_of_nullish (v : value) : nullish v = true -> exists e, stats_of v = Throw e.
Proof. destruct v; try done; by eexists. Qed.

Lemma render_card_shown (metrics : value) :
  match render_card metrics with
  | Ret card => shown metrics = card
  | Throw _ => shown metrics = Unavailable
  end.
Proof.
  destruct metrics as [| | | | |l|fields]; try done.
  cbn [render_card shown].
  set (all := optprop (VObj fields) "All").
  set (since := optprop (VObj fields) (since_key fields)).
  destruct (nullish all) eqn:Hall.
  { destruct (prop_nullish all "citations" Hall) as [e ->]. done. }
  rewrite (prop_optprop all) by done. rewrite (stats_of_face all) by done.
  cbn [orb].
  destruct (nullish since) eqn:Hsince.
  - destruct (stats_of_nullish since Hsince) as [e ->].
    destruct (prop_nullish since "citations" Hsince) as [e' ->].
    by destruct (JsNumber.gt _ _).
  - rewrite (prop_optprop since) by done. rewrite (stats_of_face since) by done.
    unfold card_of. by destruct (JsNumber.gt _ _).
Qed.

Lemma init_run (net : nat -> Outcome value) (before : Content) (b : Browser) :
  init this net (Some before) b
  = (Ret tt,
     Some (match (fetchStats this net tt b).1.1 with
           | Ret metrics => shown metrics
           | Throw _ => Unavailable
           end),
     (fetchStats this net tt b).2).
Proof.
  unfold init, bind at 1, get_self. unfold bind at 1, put_self.
  unfold try_catch, bind, widget, render, lift.
  destruct (fetchStats this net tt b) as [[[metrics|e] []] b']; [|done].
  cbn [fst snd]. pose proof (render_card_shown metrics) as Hshown.
  destruct (render_card metrics) as [card|e]; by rewrite Hshown.
Qed.



Lemma attempt_result_truthy (o : Outcome value) (m : value) :
  attempt_result o = Ret m -> truthy m = true.
Proof.
  unfold attempt_result. destruct (answer o) as [|response]; [done|].
  destruct (negb (ok response)); [done|].
  destruct (json response) as [data|]; [|done].
  intros Hm. by destruct (ScholarCacheFacts.extract_metrics_valid _ _ Hm).
Qed.

(** X27.  Metrics that the validation of [fetchStats] accepts and that
    the card cannot show (they have no entry named [Since...]) are cached
    all the same: [init] shows the notice, and so does every [init] of the
    three days that follow, without a request, whatever the network would
    answer.  The platform is one whose [JSON.parse] reads the entry that
    [JSON.stringify] wrote. *)
Theorem init_caches_metrics_it_cannot_show
    (net net' : nat -> Outcome value) (b : Browser) (m : value)
    (before before' : Content) (later : Z) :
  let t := now b + latency (net 0%nat) in
  let entry := JSON_stringify (cache_entry m t) in
  fresh_metrics b = None ->
  attempt_result (net 0%nat) = Ret m ->
  shown m = Unavailable ->
  JSON_parse entry = Some (cache_entry m t) ->
  later - t < 259200000 ->
  exists b1,
    init this net (Some before) b = (Ret tt, Some Unavailable, b1)
    /\ storage b1 !! "scholar_stats_cache" = Some entry
    /\ let b2 := mkBrowser later (storage b1) (trace b1) in
       init this net' (Some before') b2
       = (Ret tt, Some Unavailable, emit (EvGetItem "scholar_stats_cache") b2).
Proof.
  intros t entry Hfresh Hm Hshown Hparse Hlater.
  pose proof (attempt_result_truthy _ _ Hm) as Htruthy.
  assert (Hfirst : fetchStats this net tt b
                   = (Ret m, tt, cached m (requested options_apiUrl options_containerId
                                             (net 0%nat) (emit (EvGetItem key) b)))).
  { rewrite (fetchStats_no_fresh _ _ net b Hfresh), retry_run. by rewrite Hm. }
  eexists. split; [|split].
  - rewrite init_run, Hfirst. cbn [fst snd]. by rewrite Hshown.
  - cbn [cached requested storage now emit]. by rewrite lookup_insert_eq.
  - cbv zeta.
    set (b2 := mkBrowser later _ _).
    assert (Hsecond : fresh_metrics b2 = Some m).
    { unfold fresh_metrics, stored_age, stored_metrics. subst b2.
      cbn [cached requested storage now emit]. rewrite lookup_insert_eq.
      fold t. fold entry. rewrite Hparse.
      cbn [cache_entry prop assoc String.eqb Ascii.eqb Bool.eqb default from_option id
           ToNumber].
      replace (later - t <? 259200000) with true by (symmetry; by apply Z.ltb_lt).
      by rewrite Htruthy. }
    rewrite init_run, (fetchStats_fresh _ _ net' b2 m Hsecond). cbn [fst snd].
    by rewrite Hshown.
Qed.

End Facts.

Local Existing Instance RefPlatform.platform.

(** Metrics with the totals only. *)
Definition totals_only : value :=
  VObj [("All", VObj [("citations", VNum 120); ("h_index", VNum 6); ("i10_index", VNum 4)])].

Definition net_totals : nat -> Outcome value :=
  fun _ => mkOutcome 300
    (inr (mkResponse true 200 "OK"
            (Some (VObj [("success", VBool true);
                         ("response", VObj [("output", VObj [("metrics", totals_only)])])])))).

(** X27, witness: the totals are fetched once; a day later the network is
    down and is not asked. *)
Lemma init_caches_metrics_it_cannot_show_witness :
  exists b1,
    init (new None None) net_totals (Some (Page "")) (mkBrowser 1700000000000 ∅ [])
    = (Ret tt, Some Unavailable, b1)
    /\ storage b1 !! "scholar_stats_cache"
       = Some (JSON_stringify (cache_entry totals_only 1700000000300))
    /\ let b2 := mkBrowser 1700086400000 (storage b1) (trace b1) in
       init (new None None) net_down (Some Unavailable) b2
       = (Ret tt, Some Unavailable, emit (EvGetItem "scholar_stats_cache") b2).
Proof.
  apply (init_caches_metrics_it_cannot_show None None net_totals net_down
           (mkBrowser 1700000000000 ∅ []) totals_only (Page "") Unavailable 1700086400000).
  - reflexivity.
  - vm_compute. reflexivity.
  - reflexivity.
  - vm_compute. reflexivity.
  - vm_compute. reflexivity.
Defined.

End ScholarViewFacts.

(** ** The application controller: the newsletter form *)

Module NewsletterFacts.
Import Newsletter.

Section Facts.
Context `{Platform}.
Variable stack_of : JsError -> value.

(** A request of the tracker. *)
Definition is_tracking (e : Event) : Prop :=
  exists api sid event, e = EvFetch (Analytics.event_request api sid event).

(** The answers that the handler takes as a success. *)
Definition subscribed (o : Outcome value) : bool :=
  match answer o with
  | inr response => ok response
  | inl _ => false
  end.

(** [p'] is [p] but for the tracker. *)
Definition same_page (p p' : t) : Prop :=
  apiUrl p' = apiUrl p /\ email p' = email p /\ email_default p' = email_default p
  /\ submit p' = submit p /\ message_el p' = message_el p /\ env p' = env p.

(** [b'] is [b] after some requests of the tracker. *)
Definition tracking_only (b b' : Browser) (events : list Event) : Prop :=
  now b' = now b /\ storage b' = storage b /\ trace b' = trace b ++ events
  /\ Forall is_tracking events.

Lemma track_tracking (env : Analytics.Env) (eventType : string)
    (data : list (string * value)) (a : Analytics.t) (b : Browser) :
  exists a' b' events,
    Analytics.track env eventType data a b = (Ret tt, a', b')
    /\ tracking_only b b' events.
Proof.
  rewrite AnalyticsFacts.track_run. unfold AnalyticsFacts.tracked.
  destruct (Analytics.isOnline a && JsString.nonempty (Analytics.apiUrl a)).
  - eexists _, _, _. split; [reflexivity|]. repeat split.
    repeat constructor. by eexists _, _, _.
  - eexists _, _, []. split; [reflexivity|]. repeat split; [by rewrite app_nil_r|constructor].
Qed.

Lemma with_tracker_quiet (m : Analytics.Env -> M Analytics.t unit) (p : t) (b : Browser) :
  (forall env a b, exists a' b' events,
      m env a b = (Ret tt, a', b') /\ tracking_only b b' events) ->
  exists p' b' events,
    with_tracker m p b = (Ret tt, p', b')
    /\ same_page p p' /\ tracking_only b b' events.
Proof.
  intros Hm. unfold with_tracker. destruct (tracker p) as [a|] eqn:Ha.
  - destruct (Hm (env p) a b) as (a' & b' & events & -> & Hb).
    eexists _, _, events. split; [reflexivity|]. split; [|done]. by destruct p.
  - exists p, b, []. split; [reflexivity|]. split; [done|].
    repeat split; [by rewrite app_nil_r|constructor].
Qed.

Lemma showMessage_run (message type : string) (p : t) (b : Browser) :
  exists p',
    showMessage message type p b = (Ret tt, p', b)
    /\ apiUrl p' = apiUrl p /\ email p' = email p /\ email_default p' = email_default p
    /\ submit p' = submit p /\ tracker p' = tracker p /\ env p' = env p
    /\ message_el p' = (fun _ => mkMessageEl (Some (type, message)) "block") <$> message_el p.
Proof.
  unfold showMessage, modify_self. eexists. split; [reflexivity|].
  by destruct p as [api em emd sb [m|] tr en].
Qed.

(** X28.  A form with a submit input and an address that is not empty
    after trimming: the handler returns normally, whatever the network
    answers.  It sends one request for the subscription, with the trimmed
    address, and all other requests are the tracker's.  At the end the
    submit input reads [Subscribe] and is enabled.  When the response is
    ok the message element, if there is one, shows the thanks and the
    field is reset; otherwise it shows the apology and the field keeps its
    text. *)
Theorem newsletter_subscription_outcome
    (o : Outcome value) (p : t) (b : Browser) (v : string) (button : Submit) :
  email p = Some v ->
  JsString.nonempty (JsString.trim v) = true ->
  submit p = Some button ->
  exists p' b' before after,
    handleNewsletterSubscription stack_of o p b = (Ret tt, p', b')
    /\ trace b'
       = trace b ++ before
         ++ [EvFetch (subscription_request (apiUrl p) (JsString.trim v))] ++ after
    /\ Forall is_tracking before
    /\ Forall is_tracking after
    /\ storage b' = storage b
    /\ submit p' = Some (mkSubmit "Subscribe" false)
    /\ message_el p'
       = (fun _ => mkMessageEl
                     (Some (if subscribed o then ("success", thanks) else ("error", sorry)))
                     "block") <$> message_el p
    /\ email p' = Some (if subscribed o then email_default p else v).
Proof.
  intros Hemail Hfilled Hsubmit.
  unfold handleNewsletterSubscription, bind at 1, get_self. rewrite Hemail, Hfilled.
  cbn [negb]. set (address := JsString.trim v).
  assert (H1 : set_submit_button "Subscribing..." true p b
               = (Ret tt, set_submit (Some (mkSubmit "Subscribing..." true)) p, b)).
  { unfold set_submit_button, bind, get_self, put_self. by rewrite Hsubmit. }
  set (p1 := set_submit (Some (mkSubmit "Subscribing..." true)) p) in *.
  destruct (with_tracker_quiet
              (fun env => Analytics.track env "newsletter_subscription_attempt"
                            [("email", VStr address)]) p1 b)
    as (p2 & b2 & before & H2 & Hp2 & Hb2).
  { intros. apply track_tracking. }
  destruct Hp2 as (Hapi2 & Hem2 & Hemd2 & Hsb2 & Hmsg2 & Henv2).
  destruct Hb2 as (Hnow2 & Hst2 & Htr2 & Hbefore).
  set (b3 := mkBrowser (now b2 + latency o) (storage b2)
               (trace b2 ++ [EvFetch (subscription_request (apiUrl p2) address)])).
  assert (Hfinal : forall p5 b5 (after : list Event),
    submit p5 = submit p2 -> trace b5 = trace b3 ++ after -> storage b5 = storage b3 ->
    Forall is_tracking after ->
    exists p' b',
      set_submit_button "Subscribe" false p5 b5 = (Ret tt, p', b')
      /\ trace b'
         = trace b ++ before ++ [EvFetch (subscription_request (apiUrl p) address)] ++ after
      /\ Forall is_tracking before /\ Forall is_tracking after
      /\ storage b' = storage b
      /\ submit p' = Some (mkSubmit "Subscribe" false)
      /\ message_el p' = message_el p5 /\ email p' = email p5).
  { intros p5 b5 after Hsb5 Htr5 Hst5 Hafter.
    unfold set_submit_button, bind, get_self, put_self. rewrite Hsb5, Hsb2. cbn.
    eexists _, _. split; [reflexivity|]. split.
    { rewrite Htr5. cbn. rewrite Htr2, Hapi2. cbn. by rewrite <- !app_assoc. }
    split; [done|]. split; [done|]. split; [by rewrite Hst5; cbn; rewrite Hst2|].
    by destruct p5. }
  unfold finally, try_catch.
  rewrite (bind_ret _ _ _ _ _ _ _ H1), (bind_ret _ _ _ _ _ _ _ H2).
  unfold bind at 1, get_self. unfold bind at 1, fetch. fold b3.
  unfold subscribed.
  assert (Hcatch : forall error,
    exists p5 b5 after,
      (showMessage sorry "error" >>
       with_tracker (fun env =>
         Analytics.trackError env (stack_of error) error
           [("context", VStr "newsletter_subscription")])) p2 b3
      = (Ret tt, p5, b5)
      /\ submit p5 = submit p2 /\ trace b5 = trace b3 ++ after /\ storage b5 = storage b3
      /\ Forall is_tracking after
      /\ message_el p5
         = (fun _ => mkMessageEl (Some ("error", sorry)) "block") <$> message_el p
      /\ email p5 = Some v).
  { intros error.
    destruct (showMessage_run sorry "error" p2 b3)
      as (p4 & H4 & Hapi4 & Hem4 & Hemd4 & Hsb4 & Htk4 & Henv4 & Hmsg4).
    destruct (with_tracker_quiet
                (fun env => Analytics.trackError env (stack_of error) error
                              [("context", VStr "newsletter_subscription")]) p4 b3)
      as (p5 & b5 & after & H5 & Hp5 & Hb5).
    { intros. apply track_tracking. }
    destruct Hp5 as (Hapi5 & Hem5 & Hemd5 & Hsb5 & Hmsg5 & Henv5).
    destruct Hb5 as (Hnow5 & Hst5 & Htr5 & Hafter).
    exists p5, b5, after. rewrite (bind_ret _ _ _ _ _ _ _ H4), H5.
    split; [done|]. split; [congruence|]. split; [done|]. split; [done|].
    split; [done|]. split.
    - rewrite Hmsg5, Hmsg4, Hmsg2. reflexivity.
    - rewrite Hem5, Hem4, Hem2. exact Hemail. }
  destruct (answer o) as [error|response].
  - destruct (Hcatch error) as (p5 & b5 & after & -> & Hsb5 & Htr5 & Hst5 & Hafter & Hmsg5 & Hem5).
    destruct (Hfinal p5 b5 after Hsb5 Htr5 Hst5 Hafter)
      as (p' & b' & -> & Htr & Hb & Ha & Hst & Hsb & Hmsg & Hem).
    exists p', b', before, after. rewrite Hmsg, Hem. by repeat split.
  - destruct (ok response) eqn:Hok.
    + destruct (showMessage_run thanks "success" p2 b3)
        as (p4 & H4 & Hapi4 & Hem4 & Hemd4 & Hsb4 & Htk4 & Henv4 & Hmsg4).
      rewrite (bind_ret _ _ _ _ _ _ _ H4).
      unfold bind at 1, modify_self.
      destruct (with_tracker_quiet
                  (fun env => Analytics.track env "newsletter_subscription_success"
                                [("email", VStr address)])
                  (set_email (Some (email_default p4)) p4) b3)
        as (p5 & b5 & after & -> & Hp5 & Hb5).
      { intros. apply track_tracking. }
      destruct Hp5 as (Hapi5 & Hem5 & Hemd5 & Hsb5 & Hmsg5 & Henv5).
      destruct Hb5 as (Hnow5 & Hst5 & Htr5 & Hafter).
      destruct (Hfinal p5 b5 after) as (p' & b' & -> & Htr & Hb & Ha & Hst & Hsb & Hmsg & Hem);
        [by rewrite Hsb5; destruct p4; cbn in *; congruence|done|done|done|].
      exists p', b', before, after. rewrite Hmsg, Hem, Hmsg5, Hem5.
      do 6 (split; [done|]). split.
      * destruct p4. cbn in *. rewrite Hmsg4, Hmsg2. reflexivity.
      * destruct p4. cbn in *. subst. by rewrite Hemd2.
    + unfold throw. cbv beta iota.
      destruct (Hcatch (Error "Subscription failed"))
        as (p5 & b5 & after & -> & Hsb5 & Htr5 & Hst5 & Hafter & Hmsg5 & Hem5).
      destruct (Hfinal p5 b5 after Hsb5 Htr5 Hst5 Hafter)
        as (p' & b' & -> & Htr & Hb & Ha & Hst & Hsb & Hmsg & Hem).
      exists p', b', before, after. rewrite Hmsg, Hem. by repeat split.
Qed.

(** X29.  The subscription is not requested in three cases.  An
    address that is empty after trimming: the handler shows the request
    for a valid address and leaves the rest of the page as it is, nothing
    is sent.  A form without a submit input, whatever the address: the
    handler shows the apology and throws; only the tracker may have sent
    something.  A form without the field: the handler throws at once. *)
Theorem newsletter_subscription_not_requested (o : Outcome value) (p : t) (b : Browser) :
  (forall v,
     email p = Some v -> JsString.nonempty (JsString.trim v) = false ->
     exists p',
       handleNewsletterSubscription stack_of o p b = (Ret tt, p', b)
       /\ message_el p'
          = (fun _ => mkMessageEl (Some ("error", "Please enter a valid email address."))
                        "block") <$> message_el p
       /\ submit p' = submit p /\ email p' = email p)
  /\ (forall v,
        email p = Some v -> JsString.nonempty (JsString.trim v) = true ->
        submit p = None ->
        exists e p' b' events,
          handleNewsletterSubscription stack_of o p b = (Throw e, p', b')
          /\ trace b' = trace b ++ events
          /\ Forall is_tracking events
          /\ message_el p'
             = (fun _ => mkMessageEl (Some ("error", sorry)) "block") <$> message_el p
          /\ email p' = email p)
  /\ (email p = None ->
      exists e, handleNewsletterSubscription stack_of o p b = (Throw e, p, b)).
Proof.
  split; [|split].
  - intros v Hemail Hblank.
    unfold handleNewsletterSubscription, bind at 1, get_self. rewrite Hemail, Hblank.
    cbn [negb].
    destruct (showMessage_run "Please enter a valid email address." "error" p b)
      as (p' & -> & _ & Hem & _ & Hsb & _ & _ & Hmsg).
    exists p'. repeat split; congruence.
  - intros v Hemail Hfilled Hsubmit.
    unfold handleNewsletterSubscription, bind at 1, get_self. rewrite Hemail, Hfilled.
    cbn [negb]. unfold finally, try_catch.
    assert (H1 : forall value disabled p0 b0,
      submit p0 = None ->
      set_submit_button value disabled p0 b0
      = (Throw (TypeError "Cannot read properties of null: value"), p0, b0)).
    { intros value disabled p0 b0 Hp0.
      unfold set_submit_button, bind, get_self. by rewrite Hp0. }
    rewrite (bind_throw _ _ _ _ _ _ _ (H1 _ _ p b Hsubmit)).
    destruct (showMessage_run sorry "error" p b)
      as (p4 & H4 & Hapi4 & Hem4 & Hemd4 & Hsb4 & Htk4 & Henv4 & Hmsg4).
    rewrite (bind_ret _ _ _ _ _ _ _ H4).
    destruct (with_tracker_quiet
                (fun env =>
                   Analytics.trackError env
                     (stack_of (TypeError "Cannot read properties of null: value"))
                     (TypeError "Cannot read properties of null: value")
                     [("context", VStr "newsletter_subscription")]) p4 b)
      as (p5 & b5 & events & -> & Hp5 & Hb5).
    { intros. apply track_tracking. }
    destruct Hp5 as (Hapi5 & Hem5 & Hemd5 & Hsb5 & Hmsg5 & Henv5).
    destruct Hb5 as (Hnow5 & Hst5 & Htr5 & Hevents).
    rewrite (H1 _ _ p5 b5) by congruence.
    eexists _, p5, b5, events. split; [reflexivity|]. split; [done|]. split; [done|].
    split; congruence.
  - intros Hemail. unfold handleNewsletterSubscription, bind, get_self. rewrite Hemail.
    by eexists.
Qed.

End Facts.

Local Existing Instance RefPlatform.platform.

Definition reader_page (address : string) : t :=
  mk "https://api.vikasyadav.live" (Some address) ""
     (Some (mkSubmit "Sign up" false)) (Some (mkMessageEl None "none")) None
     (Analytics.mkEnv "https://vikasyadav.live/index.html" "Vikas Yadav" "" "Mozilla/5.0"
        1920 1080 1280 720 "Asia/Kolkata").

Definition subscribed_answer : Outcome value :=
  mkOutcome 120 (inr (mkResponse true 200 "OK" None)).

(** X28, witness: an address between spaces, and an ok response. *)
Lemma newsletter_subscription_outcome_witness :
  exists p' b' before after,
    handleNewsletterSubscription (fun _ => VUndef) subscribed_answer
      (reader_page " reader@example.org ") (mkBrowser 1700000000000 ∅ [])
    = (Ret tt, p', b')
    /\ trace b'
       = before
         ++ [EvFetch (subscription_request "https://api.vikasyadav.live" "reader@example.org")]
         ++ after
    /\ Forall is_tracking before
    /\ Forall is_tracking after
    /\ storage b' = ∅
    /\ submit p' = Some (mkSubmit "Subscribe" false)
    /\ message_el p' = Some (mkMessageEl (Some ("success", thanks)) "block")
    /\ email p' = Some "".
Proof.
  apply (newsletter_subscription_outcome (fun _ => VUndef) subscribed_answer
           (reader_page " reader@example.org ") (mkBrowser 1700000000000 ∅ [])
           " reader@example.org " (mkSubmit "Sign up" false));
    reflexivity.
Defined.

(** X29, witness: an address of spaces. *)
Lemma newsletter_subscription_not_requested_witness :
  exists p',
    handleNewsletterSubscription (fun _ => VUndef) subscribed_answer
      (reader_page "   ") (mkBrowser 1700000000000 ∅ [])
    = (Ret tt, p', mkBrowser 1700000000000 ∅ [])
    /\ message_el p'
       = Some (mkMessageEl (Some ("error", "Please enter a valid email address.")) "block")
    /\ submit p' = Some (mkSubmit "Sign up" false)
    /\ email p' = Some "   ".
Proof.
  destruct (newsletter_subscription_not_requested (fun _ => VUndef) subscribed_answer
              (reader_page "   ") (mkBrowser 1700000000000 ∅ [])) as (Hblank & _ & _).
  apply (Hblank "   "); reflexivity.
Defined.

End NewsletterFacts.

(** ** The application controller: the content that it loads *)

Module ContentFacts.
Import DynamicContent.

Section Facts.
Context `{Platform}.
Variable toLocaleDateString : value -> string.




(** The browser after the request of a loader. *)
Definition requested (url : string) (o : Outcome value) (b : Browser) : Browser :=
  mkBrowser (now b + latency o) (storage b)
            (trace b ++ [EvFetch (mkRequest url "GET" [] NoBody)]).











End Facts.

End ContentFacts.
